(** * poodle-go: the message model, the error taxonomy and the response
    classifier, embedded from [email.go], [errors.go], [client.go] and the
    HTTP client, with the properties stated about them. *)

From Stdlib Require Import ZArith NArith Ascii String List Bool Lia.
From Stdlib Require Import DecimalString.
From stdpp Require Import gmap strings list fin_maps.

Local Open Scope Z_scope.

(** ** Go strings

    A Go string is a sequence of bytes; it is modelled as a Rocq [string],
    one [ascii] per byte.  The functions below are the parts of the Go
    packages [strings], [strconv] and [fmt] the program calls. *)

Module GoStrings.

Definition bytes_of (s : string) : list ascii := list_ascii_of_string s.
Definition of_bytes (l : list ascii) : string := string_of_list_ascii l.

(** [len(s)]: the number of bytes. *)
Definition len (s : string) : Z := Z.of_nat (String.length s).

Definition byte_between (lo hi c : ascii) : bool :=
  ((N_of_ascii lo <=? N_of_ascii c) && (N_of_ascii c <=? N_of_ascii hi))%N.

(** [strings.HasPrefix]. *)
Fixpoint HasPrefix (s p : string) : bool :=
  match p, s with
  | EmptyString, _ => true
  | String _ _, EmptyString => false
  | String b p', String a s' => Ascii.eqb a b && HasPrefix s' p'
  end.

Fixpoint has_prefix (l p : list ascii) : bool :=
  match p, l with
  | [], _ => true
  | _ :: _, [] => false
  | b :: p', a :: l' => Ascii.eqb a b && has_prefix l' p'
  end.

(** [strings.HasSuffix]: [len(s) >= len(suffix)] and the last
    [len(suffix)] bytes of [s] are [suffix]. *)
Definition HasSuffix (s p : string) : bool :=
  has_prefix (rev (bytes_of s)) (rev (bytes_of p)).

(** [strings.Contains]: [p] occurs in [s] at some index. *)
Fixpoint Contains (s p : string) : bool :=
  HasPrefix s p ||
  match s with
  | EmptyString => false
  | String _ s' => Contains s' p
  end.

(** [strings.Split(s, sep)] for a separator of one byte, which is what
    both call sites pass: the pieces of [s] between the occurrences of
    [sep], one more piece than there are occurrences. *)
Fixpoint Split (s : string) (sep : ascii) : list string :=
  match s with
  | EmptyString => [EmptyString]
  | String c s' =>
      if Ascii.eqb c sep then EmptyString :: Split s' sep
      else match Split s' sep with
           | piece :: rest => String c piece :: rest
           | [] => [String c EmptyString]
           end
  end.

(** [strings.Repeat] (used by the tests to build oversized bodies). *)
Fixpoint Repeat (s : string) (count : nat) : string :=
  match count with
  | O => EmptyString
  | S n => s +:+ Repeat s n
  end.

(** The six ASCII white-space bytes of [strings.asciiSpace]:
    tab, line feed, vertical tab, form feed, carriage return, space. *)
Definition asciiSpace (c : ascii) : bool :=
  byte_between "009" "013" c || Ascii.eqb c " ".

(** The UTF-8 encodings of the runes for which [unicode.IsSpace] holds:
    the ASCII ones, U+0085, U+00A0, U+1680, U+2000..U+200A, U+2028,
    U+2029, U+202F, U+205F and U+3000. *)
Definition spaceRunes : list (list ascii) :=
  map (fun c => [c]) ["009"; "010"; "011"; "012"; "013"; " "]%char ++
  [ ["194"; "133"]; ["194"; "160"]; ["225"; "154"; "128"] ]%char ++
  map (fun c => ["226"; "128"; c]%char)
      ["128"; "129"; "130"; "131"; "132"; "133"; "134"; "135"; "136";
       "137"; "138"; "168"; "169"; "175"]%char ++
  [ ["226"; "129"; "159"]; ["227"; "128"; "128"] ]%char.

(** Drop one leading element of [seqs] from [l], if there is one. *)
Definition cut_one (seqs : list (list ascii)) (l : list ascii)
  : option (list ascii) :=
  match find (has_prefix l) seqs with
  | Some p => Some (drop (length p) l)
  | None => None
  end.

Fixpoint cut_all (fuel : nat) (seqs : list (list ascii)) (l : list ascii)
  : list ascii :=
  match fuel with
  | O => l
  | S fuel' =>
      match cut_one seqs l with
      | Some l' => cut_all fuel' seqs l'
      | None => l
      end
  end.

Definition trim_left (seqs : list (list ascii)) (l : list ascii) :=
  cut_all (length l) seqs l.

(** [strings.TrimSpace]: [s] without its leading and trailing white-space
    runes.  Trailing runes are read from the end of the string, which is
    a leading match of the reversed encoding on the reversed bytes. *)
Definition TrimSpace (s : string) : string :=
  let l := trim_left spaceRunes (bytes_of s) in
  of_bytes (rev (trim_left (map (@rev ascii) spaceRunes) (rev l))).

(** [strings.TrimRight(s, cutset)] for a cutset of one byte. *)
Fixpoint drop_while (p : ascii -> bool) (l : list ascii) : list ascii :=
  match l with
  | [] => []
  | c :: l' => if p c then drop_while p l' else l
  end.

Definition TrimRight (s : string) (cut : ascii) : string :=
  of_bytes (rev (drop_while (Ascii.eqb cut) (rev (bytes_of s)))).

End GoStrings.

(** ** Regular expressions

    The one pattern of the program, [emailRegex], is anchored at both ends
    and uses only classes of ASCII bytes, so matching it is matching the
    whole string, byte by byte.  Matching is by derivatives. *)

Module GoRegexp.

Inductive Regexp : Type :=
| NoMatch
| EmptyMatch
| CharClass (p : ascii -> bool)
| Concat (r1 r2 : Regexp)
| Alternate (r1 r2 : Regexp)
| Star (r : Regexp).

Definition Literal (c : ascii) : Regexp := CharClass (Ascii.eqb c).
(** [r+] *)
Definition Plus (r : Regexp) : Regexp := Concat r (Star r).
(** [r{2,}] *)
Definition AtLeast2 (r : Regexp) : Regexp := Concat r (Concat r (Star r)).

Fixpoint nullable (r : Regexp) : bool :=
  match r with
  | NoMatch => false
  | EmptyMatch => true
  | CharClass _ => false
  | Concat r1 r2 => nullable r1 && nullable r2
  | Alternate r1 r2 => nullable r1 || nullable r2
  | Star _ => true
  end.

Fixpoint deriv (c : ascii) (r : Regexp) : Regexp :=
  match r with
  | NoMatch => NoMatch
  | EmptyMatch => NoMatch
  | CharClass p => if p c then EmptyMatch else NoMatch
  | Concat r1 r2 =>
      if nullable r1
      then Alternate (Concat (deriv c r1) r2) (deriv c r2)
      else Concat (deriv c r1) r2
  | Alternate r1 r2 => Alternate (deriv c r1) (deriv c r2)
  | Star r1 => Concat (deriv c r1) (Star r1)
  end.

(** [re.MatchString(s)] for a pattern of the form [^r$]. *)
Fixpoint MatchString (r : Regexp) (s : string) : bool :=
  match s with
  | EmptyString => nullable r
  | String c s' => MatchString (deriv c r) s'
  end.

(** The language of a regular expression. *)
Inductive lang : Regexp -> string -> Prop :=
| lang_empty : lang EmptyMatch EmptyString
| lang_class p c : p c = true -> lang (CharClass p) (String c EmptyString)
| lang_concat r1 r2 s1 s2 :
    lang r1 s1 -> lang r2 s2 -> lang (Concat r1 r2) (s1 +:+ s2)
| lang_alt_l r1 r2 s : lang r1 s -> lang (Alternate r1 r2) s
| lang_alt_r r1 r2 s : lang r2 s -> lang (Alternate r1 r2) s
| lang_star_nil r : lang (Star r) EmptyString
| lang_star_cons r s1 s2 :
    lang r s1 -> lang (Star r) s2 -> lang (Star r) (s1 +:+ s2).

(** Whether one of the classes of [r] holds the byte [c]. *)
Fixpoint some_class (r : Regexp) (c : ascii) : bool :=
  match r with
  | NoMatch | EmptyMatch => false
  | CharClass p => p c
  | Concat r1 r2 | Alternate r1 r2 => some_class r1 c || some_class r2 c
  | Star r1 => some_class r1 c
  end.

End GoRegexp.

(** ** email.go *)

Import GoStrings GoRegexp.

(** [type Email struct]. *)
Record Email : Type := mkEmail {
  From : string;
  To : string;
  Subject : string;
  HTML : string;
  Text : string
}.

(** [MaxContentSize = 10 * 1024 * 1024]. *)
Definition MaxContentSize : Z := 10 * 1024 * 1024.

Definition lower (c : ascii) : bool := byte_between "a" "z" c.
Definition upper (c : ascii) : bool := byte_between "A" "Z" c.
Definition digit (c : ascii) : bool := byte_between "0" "9" c.
Definition one_of (set : string) (c : ascii) : bool :=
  existsb (Ascii.eqb c) (bytes_of set).

(** [[a-zA-Z0-9._%+-]] *)
Definition localClass (c : ascii) : bool :=
  lower c || upper c || digit c || one_of "._%+-" c.
(** [[a-zA-Z0-9.-]] *)
Definition domainClass (c : ascii) : bool :=
  lower c || upper c || digit c || one_of ".-" c.
(** [[a-zA-Z]] *)
Definition alphaClass (c : ascii) : bool := lower c || upper c.

(** [emailRegex = ^[a-zA-Z0-9._%+-]+@[a-zA-Z0-9.-]+\.[a-zA-Z]{2,}$] *)
Definition emailRegex : Regexp :=
  Concat (Plus (CharClass localClass))
    (Concat (Literal "@")
       (Concat (Plus (CharClass domainClass))
          (Concat (Literal ".") (AtLeast2 (CharClass alphaClass))))).

(** The checks of [isValidEmail] on the local part. *)
Definition localPartRejected (localPart : string) : bool :=
  HasPrefix localPart "." || HasSuffix localPart "." ||
  Contains localPart "..".

(** The checks of [isValidEmail] on the whole domain part. *)
Definition domainPartRejected (domainPart : string) : bool :=
  HasPrefix domainPart "-" || HasSuffix domainPart "-" ||
  HasPrefix domainPart "." || HasSuffix domainPart "." ||
  Contains domainPart "..".

(** The body of the loop over [domainLabels]. *)
Definition labelRejected (label : string) : bool :=
  HasPrefix label "-" || HasSuffix label "-" || (len label =? 0).

(** [func isValidEmail(email string) bool]. *)
Definition isValidEmail (email : string) : bool :=
  let email := TrimSpace email in
  if (len email =? 0) || (254 <? len email) then false
  else if negb (MatchString emailRegex email) then false
  else
    match Split email "@" with
    | [localPart; domainPart] =>
        if localPartRejected localPart then false
        else if domainPartRejected domainPart then false
        else
          let domainLabels := Split domainPart "." in
          if Z.of_nat (length domainLabels) <? 2 then false
          else if existsb labelRejected domainLabels then false
          else true
    | _ => false
    end.


(** ** errors.go *)

(** The values a context mapping ([map[string]interface{}]) holds. *)
Inductive ContextValue : Type :=
| CtxString (s : string)
| CtxInt (n : Z)
| CtxErrors (errors : gmap string (list string)).

(** [type BaseError struct]. *)
Record BaseError : Type := mkBaseError {
  Message : string;
  Code : Z;
  ContextMap : gmap string ContextValue
}.

Record ValidationError : Type := mkValidationError {
  ValidationError_Base : BaseError;
  Errors : gmap string (list string)
}.

Record AuthenticationError : Type := mkAuthenticationError {
  AuthenticationError_Base : BaseError
}.

Record AccountSuspendedError : Type := mkAccountSuspendedError {
  AccountSuspendedError_Base : BaseError;
  Reason : string
}.

Record SubscriptionError : Type := mkSubscriptionError {
  SubscriptionError_Base : BaseError;
  ErrorType : string
}.

Record RateLimitError : Type := mkRateLimitError {
  RateLimitError_Base : BaseError;
  RetryAfter : Z;
  Limit : Z;
  Remaining : Z;
  Reset : Z
}.

Record NetworkError : Type := mkNetworkError {
  NetworkError_Base : BaseError;
  NetworkError_URL : string
}.

Record HTTPError : Type := mkHTTPError {
  HTTPError_Base : BaseError;
  HTTPError_URL : string;
  ResponseBody : string
}.

(** A non-nil value of the interface [PoodleError]: a pointer to one of
    the seven error structs. *)
Inductive PoodleError : Type :=
| IsValidationError (e : ValidationError)
| IsAuthenticationError (e : AuthenticationError)
| IsAccountSuspendedError (e : AccountSuspendedError)
| IsSubscriptionError (e : SubscriptionError)
| IsRateLimitError (e : RateLimitError)
| IsNetworkError (e : NetworkError)
| IsHTTPError (e : HTTPError).

(** The embedded [BaseError] of an error value. *)
Definition base (e : PoodleError) : BaseError :=
  match e with
  | IsValidationError e => ValidationError_Base e
  | IsAuthenticationError e => AuthenticationError_Base e
  | IsAccountSuspendedError e => AccountSuspendedError_Base e
  | IsSubscriptionError e => SubscriptionError_Base e
  | IsRateLimitError e => RateLimitError_Base e
  | IsNetworkError e => NetworkError_Base e
  | IsHTTPError e => HTTPError_Base e
  end.

(** [func (e *BaseError) StatusCode() int], promoted to every variant. *)
Definition StatusCode (e : PoodleError) : Z := Code (base e).

(** [func (e *BaseError) Context() map[string]interface{}]. *)
Definition Context (e : PoodleError) : gmap string ContextValue :=
  ContextMap (base e).

(** The status codes of [net/http] the program names. *)
Definition StatusAccepted : Z := 202.
Definition StatusBadRequest : Z := 400.
Definition StatusUnauthorized : Z := 401.
Definition StatusPaymentRequired : Z := 402.
Definition StatusForbidden : Z := 403.
Definition StatusRequestTimeout : Z := 408.
Definition StatusUnprocessableEntity : Z := 422.
Definition StatusTooManyRequests : Z := 429.

(** [strconv.Itoa] / the verb [%d] of [fmt.Sprintf]. *)
Definition Itoa (n : Z) : string := NilZero.string_of_int (Z.to_int n).

Definition NewValidationError (message : string)
    (errors : gmap string (list string)) : ValidationError :=
  {| ValidationError_Base :=
       {| Message := message;
          Code := StatusBadRequest;
          ContextMap :=
            <["error_type" := CtxString "validation_error"]>
              (<["errors" := CtxErrors errors]> ∅) |};
     Errors := errors |}.

Definition NewAuthenticationError (message : string) : AuthenticationError :=
  let message :=
    if String.eqb message "" then "Invalid or missing API key" else message in
  {| AuthenticationError_Base :=
       {| Message := message;
          Code := StatusUnauthorized;
          ContextMap :=
            <["error_type" := CtxString "authentication_error"]> ∅ |} |}.

Definition NewAccountSuspendedError (message reason : string)
    : AccountSuspendedError :=
  let message :=
    if String.eqb message "" then "Account suspended" else message in
  {| AccountSuspendedError_Base :=
       {| Message := message;
          Code := StatusForbidden;
          ContextMap :=
            <["error_type" := CtxString "account_suspended"]>
              (<["reason" := CtxString reason]> ∅) |};
     Reason := reason |}.

Definition NewSubscriptionError (message errorType : string)
    : SubscriptionError :=
  let message :=
    if String.eqb message "" then "Subscription error" else message in
  {| SubscriptionError_Base :=
       {| Message := message;
          Code := StatusPaymentRequired;
          ContextMap :=
            <["error_type" := CtxString "subscription_error"]>
              (<["subscription_type" := CtxString errorType]> ∅) |};
     ErrorType := errorType |}.

Definition NewRateLimitError (message : string)
    (retryAfter limit remaining reset : Z) : RateLimitError :=
  let message :=
    if String.eqb message ""
    then "Rate limit exceeded. Retry after " +:+ Itoa retryAfter +:+ " seconds."
    else message in
  {| RateLimitError_Base :=
       {| Message := message;
          Code := StatusTooManyRequests;
          ContextMap :=
            <["error_type" := CtxString "rate_limit_exceeded"]>
              (<["retry_after" := CtxInt retryAfter]>
                 (<["limit" := CtxInt limit]>
                    (<["remaining" := CtxInt remaining]>
                       (<["reset" := CtxInt reset]> ∅)))) |};
     RetryAfter := retryAfter;
     Limit := limit;
     Remaining := remaining;
     Reset := reset |}.

Definition NewNetworkError (message url : string) : NetworkError :=
  let message :=
    if String.eqb message "" then "Network error occurred" else message in
  {| NetworkError_Base :=
       {| Message := message;
          Code := 0;
          ContextMap :=
            <["error_type" := CtxString "network_error"]>
              (<["url" := CtxString url]> ∅) |};
     NetworkError_URL := url |}.

Definition NewConnectionTimeoutError (timeout : Z) (url : string)
    : NetworkError :=
  let message :=
    "Connection timeout after " +:+ Itoa timeout +:+ " seconds" in
  {| NetworkError_Base :=
       {| Message := message;
          Code := StatusRequestTimeout;
          ContextMap :=
            <["error_type" := CtxString "connection_timeout"]>
              (<["timeout" := CtxInt timeout]>
                 (<["url" := CtxString url]> ∅)) |};
     NetworkError_URL := url |}.

Definition NewHTTPError (statusCode : Z) (message url responseBody : string)
    : HTTPError :=
  let message :=
    if String.eqb message ""
    then "HTTP " +:+ Itoa statusCode +:+ " error" else message in
  {| HTTPError_Base :=
       {| Message := message;
          Code := statusCode;
          ContextMap :=
            <["error_type" := CtxString "http_error"]>
              (<["url" := CtxString url]>
                 (<["response_body" := CtxString responseBody]> ∅)) |};
     HTTPError_URL := url;
     ResponseBody := responseBody |}.

(** ** email.go: validation *)

(** [errors[field] = append(errors[field], reason)]. *)
Definition append_error (field reason : string)
    (errors : gmap string (list string)) : gmap string (list string) :=
  <[field := default [] (errors !! field) ++ [reason]]> errors.

(** [func (e *Email) Validate() error]; [None] is the nil error.  The map
    [errors] is threaded through the six rules in the order of the source. *)
Definition validation_errors (e : Email) : gmap string (list string) :=
  let errors : gmap string (list string) := ∅ in
  let errors :=
    if String.eqb (TrimSpace (From e)) ""
    then append_error "from" "From address is required" errors
    else if negb (isValidEmail (From e))
    then append_error "from" "From address is not a valid email" errors
    else errors in
  let errors :=
    if String.eqb (TrimSpace (To e)) ""
    then append_error "to" "To address is required" errors
    else if negb (isValidEmail (To e))
    then append_error "to" "To address is not a valid email" errors
    else errors in
  let errors :=
    if String.eqb (TrimSpace (Subject e)) ""
    then append_error "subject" "Subject is required" errors
    else errors in
  let errors :=
    if String.eqb (TrimSpace (HTML e)) "" && String.eqb (TrimSpace (Text e)) ""
    then append_error "content"
           "At least one content type (html or text) is required" errors
    else errors in
  let errors :=
    if MaxContentSize <? len (HTML e)
    then append_error "html" "HTML content exceeds maximum size limit" errors
    else errors in
  let errors :=
    if MaxContentSize <? len (Text e)
    then append_error "text" "Text content exceeds maximum size limit" errors
    else errors in
  errors.

Definition Validate (e : Email) : option PoodleError :=
  let errors := validation_errors e in
  if 0 <? Z.of_nat (size errors)
  then Some (IsValidationError
               (NewValidationError "Email validation failed" errors))
  else None.


(** ** strconv *)

Module GoStrconv.

Definition digit_value (c : ascii) : option Z :=
  if byte_between "0" "9" c
  then Some (Z.of_N (N_of_ascii c) - 48) else None.

(** The loop of [strconv.ParseUint] in base 10: every byte is a decimal
    digit (no underscores, no prefix). *)
Fixpoint parse_digits (acc : Z) (l : list ascii) : option Z :=
  match l with
  | [] => Some acc
  | c :: l' =>
      match digit_value c with
      | Some d => parse_digits (acc * 10 + d) l'
      | None => None
      end
  end.

(** [strconv.ParseInt(s, 10, bitSize)]: an optional sign, then one or
    more decimal digits; [None] is a non-nil error ([ErrSyntax], or
    [ErrRange] when the value does not fit [bitSize] bits). *)
Definition ParseInt (s : string) (bitSize : Z) : option Z :=
  let '(neg, digits) :=
    match bytes_of s with
    | "+"%char :: l => (false, l)
    | "-"%char :: l => (true, l)
    | l => (false, l)
    end in
  match digits with
  | [] => None
  | _ =>
      match parse_digits 0 digits with
      | Some un =>
          let n := if neg then - un else un in
          if (- 2 ^ (bitSize - 1) <=? n) && (n <? 2 ^ (bitSize - 1))
          then Some n else None
      | None => None
      end
  end.

(** The width of [int]. *)
Definition intSize : Z := 64.

(** [strconv.Atoi(s)]: [ParseInt(s, 10, 0)] converted to [int]. *)
Definition Atoi (s : string) : option Z := ParseInt s intSize.

End GoStrconv.

(** ** encoding/json

    [json.Unmarshal] into a struct whose fields are strings and booleans:
    the input is first checked against the JSON grammar, then the members
    of a top-level object are stored into the fields they name. *)

Module GoJSON.

#[warnings="-register-all"]
Inductive Value : Type :=
| Null
| Bool (b : bool)
| Number (literal : string)
| Str (s : string)
| Array (elements : list Value)
| Object (members : list (string * Value)).

Definition quote : ascii := "034".
Definition backslash : ascii := "092".

Definition isSpace (c : ascii) : bool :=
  Ascii.eqb c " " || Ascii.eqb c "009" || Ascii.eqb c "013" ||
  Ascii.eqb c "010".

Fixpoint skip_space (l : list ascii) : list ascii :=
  match l with
  | c :: l' => if isSpace c then skip_space l' else l
  | [] => []
  end.

Definition byte (n : Z) : ascii := ascii_of_N (Z.to_N n).
Definition code (c : ascii) : Z := Z.of_N (N_of_ascii c).

Definition hex_value (c : ascii) : option Z :=
  if byte_between "0" "9" c then Some (code c - 48)
  else if byte_between "a" "f" c then Some (code c - 87)
  else if byte_between "A" "F" c then Some (code c - 55)
  else None.

(** [getu4]: the code unit of a leading [\uXXXX]. *)
Definition getu4 (l : list ascii) : option (Z * list ascii) :=
  match l with
  | b :: u :: h1 :: h2 :: h3 :: h4 :: rest =>
      if Ascii.eqb b backslash && Ascii.eqb u "u" then
        match hex_value h1, hex_value h2, hex_value h3, hex_value h4 with
        | Some a, Some b, Some c, Some d =>
            Some (((a * 16 + b) * 16 + c) * 16 + d, rest)
        | _, _, _, _ => None
        end
      else None
  | _ => None
  end.

Definition RuneError : Z := 65533.

(** [utf8.EncodeRune]. *)
Definition EncodeRune (r : Z) : list ascii :=
  let r := if (r <? 0) || (1114111 <? r) ||
              ((55296 <=? r) && (r <=? 57343)) then RuneError else r in
  if r <=? 127 then [byte r]
  else if r <=? 2047 then
    [byte (192 + r / 64); byte (128 + r mod 64)]
  else if r <=? 65535 then
    [byte (224 + r / 4096); byte (128 + (r / 64) mod 64);
     byte (128 + r mod 64)]
  else
    [byte (240 + r / 262144); byte (128 + (r / 4096) mod 64);
     byte (128 + (r / 64) mod 64); byte (128 + r mod 64)].

Definition IsSurrogate (r : Z) : bool := (55296 <=? r) && (r <? 57344).

(** [utf16.DecodeRune]. *)
Definition DecodeSurrogates (r1 r2 : Z) : Z :=
  if (55296 <=? r1) && (r1 <? 56320) && (56320 <=? r2) && (r2 <? 57344)
  then (r1 - 55296) * 1024 + (r2 - 56320) + 65536
  else RuneError.

Definition continuation (c : ascii) : bool := byte_between "128" "191" c.

(** The width of the well-formed UTF-8 sequence at the head of [l], as
    [utf8.DecodeRune] accepts it; [None] for an invalid or truncated
    one, which decodes as [RuneError] of width 1. *)
Definition rune_width (l : list ascii) : option nat :=
  match l with
  | [] => None
  | c0 :: l1 =>
      if byte_between "000" "127" c0 then Some 1%nat
      else if byte_between "194" "223" c0 then
        match l1 with
        | c1 :: _ => if continuation c1 then Some 2%nat else None
        | _ => None
        end
      else if byte_between "224" "239" c0 then
        match l1 with
        | c1 :: c2 :: _ =>
            let lo := if Ascii.eqb c0 "224" then "160"%char else "128"%char in
            let hi := if Ascii.eqb c0 "237" then "159"%char else "191"%char in
            if byte_between lo hi c1 && continuation c2
            then Some 3%nat else None
        | _ => None
        end
      else if byte_between "240" "244" c0 then
        match l1 with
        | c1 :: c2 :: c3 :: _ =>
            let lo := if Ascii.eqb c0 "240" then "144"%char else "128"%char in
            let hi := if Ascii.eqb c0 "244" then "143"%char else "191"%char in
            if byte_between lo hi c1 && continuation c2 && continuation c3
            then Some 4%nat else None
        | _ => None
        end
      else None
  end.

Definition simple_escape (c : ascii) : option ascii :=
  if Ascii.eqb c quote then Some quote
  else if Ascii.eqb c backslash then Some backslash
  else if Ascii.eqb c "/" then Some "/"%char
  else if Ascii.eqb c "b" then Some "008"%char
  else if Ascii.eqb c "f" then Some "012"%char
  else if Ascii.eqb c "n" then Some "010"%char
  else if Ascii.eqb c "r" then Some "013"%char
  else if Ascii.eqb c "t" then Some "009"%char
  else None.

(** The rest of a string literal after its opening quote: the decoded
    bytes ([unquote]) and what follows the closing quote.  [None] where
    the scanner reports a syntax error. *)
Fixpoint string_body (fuel : nat) (l acc : list ascii)
  : option (list ascii * list ascii) :=
  match fuel with
  | O => None
  | S fuel' =>
      match l with
      | [] => None
      | c :: rest =>
          if Ascii.eqb c quote then Some (acc, rest)
          else if Ascii.eqb c backslash then
            match rest with
            | [] => None
            | e :: rest' =>
                if Ascii.eqb e "u" then
                  match getu4 l with
                  | None => None
                  | Some (rr, rest1) =>
                      if IsSurrogate rr then
                        match getu4 rest1 with
                        | Some (rr1, rest2) =>
                            let dec := DecodeSurrogates rr rr1 in
                            if dec =? RuneError
                            then string_body fuel' rest1
                                   (acc ++ EncodeRune RuneError)
                            else string_body fuel' rest2
                                   (acc ++ EncodeRune dec)
                        | None =>
                            string_body fuel' rest1
                              (acc ++ EncodeRune RuneError)
                        end
                      else string_body fuel' rest1 (acc ++ EncodeRune rr)
                  end
                else
                  match simple_escape e with
                  | Some d => string_body fuel' rest' (acc ++ [d])
                  | None => None
                  end
            end
          else if byte_between "000" "031" c then None
          else
            match rune_width l with
            | Some n => string_body fuel' (drop n l) (acc ++ take n l)
            | None => string_body fuel' rest (acc ++ EncodeRune RuneError)
            end
      end
  end.

Definition is_digit (c : ascii) : bool := byte_between "0" "9" c.

Fixpoint span_digits (l : list ascii) : list ascii * list ascii :=
  match l with
  | c :: l' =>
      if is_digit c
      then let '(ds, rest) := span_digits l' in (c :: ds, rest)
      else ([], l)
  | [] => ([], [])
  end.

(** A number literal: an optional minus sign; a zero, or a digit from 1
    to 9 and any digits; optionally a point and one or more digits;
    optionally e or E, an optional sign and one or more digits. *)
Definition number (l : list ascii) : option (list ascii * list ascii) :=
  let '(sign, l) :=
    match l with
    | "-"%char :: l' => (["-"%char], l')
    | _ => ([], l)
    end in
  let int_part :=
    match l with
    | "0"%char :: l' => Some (["0"%char], l')
    | c :: _ =>
        if is_digit c then Some (span_digits l) else None
    | [] => None
    end in
  match int_part with
  | None => None
  | Some (ip, l) =>
      let frac :=
        match l with
        | "."%char :: l' =>
            match span_digits l' with
            | ([], _) => None
            | (ds, rest) => Some ("."%char :: ds, rest)
            end
        | _ => Some ([], l)
        end in
      match frac with
      | None => None
      | Some (fp, l) =>
          let exp :=
            match l with
            | e :: l' =>
                if Ascii.eqb e "e" || Ascii.eqb e "E" then
                  let '(sg, l'') :=
                    match l' with
                    | s :: l'' =>
                        if Ascii.eqb s "+" || Ascii.eqb s "-"
                        then ([s], l'') else ([], l')
                    | [] => ([], l')
                    end in
                  match span_digits l'' with
                  | ([], _) => None
                  | (ds, rest) => Some (e :: sg ++ ds, rest)
                  end
                else Some ([], l)
            | [] => Some ([], l)
            end in
          match exp with
          | None => None
          | Some (ep, rest) => Some (sign ++ ip ++ fp ++ ep, rest)
          end
      end
  end.

Definition maxNestingDepth : Z := 10000.

Definition literal (word : string) (v : Value) (l : list ascii)
  : option (Value * list ascii) :=
  if has_prefix l (bytes_of word)
  then Some (v, drop (String.length word) l) else None.

(** One JSON value at the head of [l] (white space already skipped), and
    the bytes after it.  [elements] and [members] read the rest of an
    array or object after its first byte.  Every call reads a byte before
    it calls another, so a fuel of the input's length plus one is never
    exhausted. *)
Fixpoint value (fuel : nat) (depth : Z) (l : list ascii)
  : option (Value * list ascii) :=
  match fuel with
  | O => None
  | S fuel' =>
      match l with
      | [] => None
      | c :: rest =>
          if Ascii.eqb c "{" then
            if maxNestingDepth <? depth + 1 then None else
            match skip_space rest with
            | c' :: rest' =>
                if Ascii.eqb c' "}" then Some (Object [], rest')
                else members fuel' (depth + 1) (c' :: rest') []
            | [] => None
            end
          else if Ascii.eqb c "[" then
            if maxNestingDepth <? depth + 1 then None else
            match skip_space rest with
            | c' :: rest' =>
                if Ascii.eqb c' "]" then Some (Array [], rest')
                else elements fuel' (depth + 1) (c' :: rest') []
            | [] => None
            end
          else if Ascii.eqb c quote then
            match string_body (S (length rest)) rest [] with
            | Some (s, rest') => Some (Str (of_bytes s), rest')
            | None => None
            end
          else if Ascii.eqb c "t" then literal "true" (Bool true) l
          else if Ascii.eqb c "f" then literal "false" (Bool false) l
          else if Ascii.eqb c "n" then literal "null" Null l
          else
            match number l with
            | Some (n, rest') => Some (Number (of_bytes n), rest')
            | None => None
            end
      end
  end
with elements (fuel : nat) (depth : Z) (l : list ascii) (acc : list Value)
  : option (Value * list ascii) :=
  match fuel with
  | O => None
  | S fuel' =>
      match value fuel' depth l with
      | Some (v, rest) =>
          match skip_space rest with
          | c :: rest' =>
              if Ascii.eqb c "," then
                elements fuel' depth (skip_space rest') (acc ++ [v])
              else if Ascii.eqb c "]" then Some (Array (acc ++ [v]), rest')
              else None
          | [] => None
          end
      | None => None
      end
  end
with members (fuel : nat) (depth : Z) (l : list ascii)
       (acc : list (string * Value)) : option (Value * list ascii) :=
  match fuel with
  | O => None
  | S fuel' =>
      match l with
      | q :: l1 =>
          if Ascii.eqb q quote then
            match string_body (S (length l1)) l1 [] with
            | Some (k, l2) =>
                match skip_space l2 with
                | colon :: l3 =>
                    if Ascii.eqb colon ":" then
                      match value fuel' depth (skip_space l3) with
                      | Some (v, l4) =>
                          let acc := acc ++ [(of_bytes k, v)] in
                          match skip_space l4 with
                          | c :: l5 =>
                              if Ascii.eqb c "," then
                                members fuel' depth (skip_space l5) acc
                              else if Ascii.eqb c "}" then
                                Some (Object acc, l5)
                              else None
                          | [] => None
                          end
                      | None => None
                      end
                    else None
                | [] => None
                end
            | None => None
            end
          else None
      | [] => None
      end
  end.

(** The whole input as one value between optional white space
    ([checkValid] and the decoder's scan agree on it). *)
Definition parse (data : string) : option Value :=
  let l := bytes_of data in
  match value (S (length l)) 0 (skip_space l) with
  | Some (v, rest) =>
      match skip_space rest with
      | [] => Some v
      | _ :: _ => None
      end
  | None => None
  end.

(** The kinds of the struct fields the program decodes into. *)
Inductive Kind : Type := KBool | KString.

Inductive Scalar : Type := SBool (b : bool) | SString (s : string).

(** [foldName]: the key with ASCII letters in upper case and the two
    non-ASCII runes that fold to an ASCII letter (U+017F to S, U+212A to
    K) replaced by it. *)
Fixpoint foldName (l : list ascii) : list ascii :=
  match l with
  | [] => []
  | c :: l1 =>
      if byte_between "a" "z" c then byte (code c - 32) :: foldName l1
      else
        match l1 with
        | c1 :: l2 =>
            if Ascii.eqb c "197" && Ascii.eqb c1 "191"
            then "S"%char :: foldName l2
            else
              match l2 with
              | c2 :: l3 =>
                  if Ascii.eqb c "226" && Ascii.eqb c1 "132" &&
                     Ascii.eqb c2 "170"
                  then "K"%char :: foldName l3
                  else c :: foldName l1
              | [] => c :: foldName l1
              end
        | [] => [c]
        end
  end.

Definition fold (s : string) : string := of_bytes (foldName (bytes_of s)).

(** The field a key names: an exact match first, else a match under
    case folding. *)
Definition field_of (fields : list (string * Kind)) (key : string)
  : option (string * Kind) :=
  match find (fun f => String.eqb (fst f) key) fields with
  | Some f => Some f
  | None => find (fun f => String.eqb (fold (fst f)) (fold key)) fields
  end.

(** Storing a value into a field of kind [k]: [None] is an
    [UnmarshalTypeError]; [Some None] leaves the field as it is (JSON
    [null] has no effect on a string or bool). *)
Definition store (k : Kind) (v : Value) : option (option Scalar) :=
  match v, k with
  | Null, _ => Some None
  | Bool b, KBool => Some (Some (SBool b))
  | Str s, KString => Some (Some (SString s))
  | _, _ => None
  end.

(** The members of an object stored one after the other.  A type error
    is remembered and decoding goes on, so later members are still
    stored; the flag is [err == nil]. *)
Fixpoint decode_members (fields : list (string * Kind))
    (ms : list (string * Value)) (st : gmap string Scalar) (ok : bool)
  : gmap string Scalar * bool :=
  match ms with
  | [] => (st, ok)
  | (key, v) :: ms' =>
      match field_of fields key with
      | None => decode_members fields ms' st ok
      | Some (name, k) =>
          match store k v with
          | None => decode_members fields ms' st false
          | Some None => decode_members fields ms' st ok
          | Some (Some x) => decode_members fields ms' (<[name := x]> st) ok
          end
      end
  end.

(** [json.Unmarshal(data, &v)] for a zero-valued struct [v] with the
    given fields: the fields that were set, and whether the returned
    error is nil. *)
Definition Unmarshal (fields : list (string * Kind)) (data : string)
  : gmap string Scalar * bool :=
  match parse data with
  | None => (∅, false)
  | Some Null => (∅, true)
  | Some (Object ms) => decode_members fields ms ∅ true
  | Some _ => (∅, false)
  end.

Definition string_field (st : gmap string Scalar) (name : string) : string :=
  match st !! name with Some (SString s) => s | _ => "" end.

Definition bool_field (st : gmap string Scalar) (name : string) : bool :=
  match st !! name with Some (SBool b) => b | _ => false end.

(** A JSON text written with [']  for the double quote. *)
Definition sq (s : string) : string :=
  of_bytes (map (fun c => if Ascii.eqb c "'" then quote else c) (bytes_of s)).

End GoJSON.

(** ** client.go: the response value *)

Module EmailResponse.

(** [type EmailResponse struct], with the JSON names [success],
    [message] and [error]. *)
Record t : Type := mk {
  Success : bool;
  Message : string;
  Error : string
}.

Definition fields : list (string * GoJSON.Kind) :=
  [("success", GoJSON.KBool); ("message", GoJSON.KString);
   ("error", GoJSON.KString)].

(** [json.Unmarshal(body, &response)] for [var response EmailResponse]. *)
Definition Unmarshal (body : string) : t * bool :=
  let '(st, ok) := GoJSON.Unmarshal fields body in
  (mk (GoJSON.bool_field st "success") (GoJSON.string_field st "message")
      (GoJSON.string_field st "error"), ok).

End EmailResponse.

(** ** net/http: headers, requests, responses *)

Module GoHTTP.

(** [http.Header], a [map[string][]string]. *)
Abbreviation Header := (gmap string (list string)).

(** The bytes of a header field name (an RFC 7230 token). *)
Definition validHeaderFieldByte (c : ascii) : bool :=
  byte_between "a" "z" c || byte_between "A" "Z" c || byte_between "0" "9" c ||
  existsb (Ascii.eqb c) (bytes_of "!#$%&'*+-.^_`|~").

Fixpoint canonical (upper : bool) (l : list ascii) : list ascii :=
  match l with
  | [] => []
  | c :: l' =>
      let c :=
        if upper && byte_between "a" "z" c then GoJSON.byte (GoJSON.code c - 32)
        else if negb upper && byte_between "A" "Z" c
        then GoJSON.byte (GoJSON.code c + 32)
        else c in
      c :: canonical (Ascii.eqb c "-") l'
  end.

(** [textproto.CanonicalMIMEHeaderKey]: the first letter and every letter
    after a hyphen in upper case, the others in lower case; a key with a
    byte that is not a token byte is returned as it is. *)
Definition CanonicalMIMEHeaderKey (s : string) : string :=
  if forallb validHeaderFieldByte (bytes_of s)
  then of_bytes (canonical true (bytes_of s)) else s.

(** [h.Get(key)]: the first value stored under the canonical form of
    [key], or the empty string. *)
Definition Get (h : Header) (key : string) : string :=
  match h !! CanonicalMIMEHeaderKey key with
  | Some (v :: _) => v
  | _ => ""
  end.

(** [h.Set(key, value)]. *)
Definition Set_ (h : Header) (key value : string) : Header :=
  <[CanonicalMIMEHeaderKey key := [value]]> h.

(** [http.Request], as far as [SendEmail] fills it. *)
Record Request : Type := mkRequest {
  Method : string;
  URL : string;
  RequestHeader : Header;
  RequestBody : string
}.

(** [http.Response]; [Body] is what [io.ReadAll(resp.Body)] returns,
    [None] for a read error. *)
Record Response : Type := mkResponse {
  StatusCode : Z;
  ResponseHeader : Header;
  Body : option string
}.

(** [type HTTPDoer interface]: [Do] answers with a response or with an
    error, of which the program reads [err.Error()].  [W] is the state
    of whatever is behind the interface (the network, a mock). *)
Record HTTPDoer (W : Type) : Type := mkHTTPDoer {
  Do : Request -> W -> (Response + string) * W
}.
Arguments Do {W} _ _ _.
Arguments mkHTTPDoer {W} _.

End GoHTTP.

(** ** Configuration *)

(** [type Config struct]; durations are nanoseconds. *)
Record Config : Type := mkConfig {
  APIKey : string;
  BaseURL : string;
  Timeout : Z;
  ConnectTimeout : Z;
  Debug : bool
}.

Definition SDKVersion : string := "1.0.0".

(** [func (c *Config) GetUserAgent() string]. *)
Definition GetUserAgent (c : Config) : string := "poodle-go/" +:+ SDKVersion.

(** What [SendEmail] takes from the Go runtime and leaves to it:
    [json.Marshal(email)] ([None] for an error), whether
    [http.NewRequest] accepts the URL, and [int(d.Seconds())], a
    floating-point conversion of a duration. *)
Class Runtime : Type := mkRuntime {
  Marshal : Email -> option string;
  NewRequestAccepts : string -> bool;
  Seconds : Z -> Z
}.

(** ** The HTTP client *)

(** [type HTTPClient struct]. *)
Record HTTPClient (W : Type) : Type := mkHTTPClient {
  config : Config;
  httpClient : GoHTTP.HTTPDoer W
}.
Arguments config {W} _.
Arguments httpClient {W} _.
Arguments mkHTTPClient {W} _ _.

(** The result of [SendEmail], a pointer to an [EmailResponse] and an
    [error]; [None] is nil. *)
Abbreviation Result := (option EmailResponse.t * option PoodleError)%type.

(** The fields of the anonymous [apiResponse] structs. *)
Definition fields_success_message_error : list (string * GoJSON.Kind) :=
  [("success", GoJSON.KBool); ("message", GoJSON.KString);
   ("error", GoJSON.KString)].
Definition fields_message : list (string * GoJSON.Kind) :=
  [("message", GoJSON.KString)].
Definition fields_message_error : list (string * GoJSON.Kind) :=
  [("message", GoJSON.KString); ("error", GoJSON.KString)].

(** [parseSuccessResponse]. *)
Definition parseSuccessResponse (body : string) : Result :=
  let '(response, ok) := EmailResponse.Unmarshal body in
  if negb ok
  then (None, Some (IsNetworkError
                      (NewNetworkError "Failed to parse response" "")))
  else (Some response, None).

(** [parseValidationError]. *)
Definition parseValidationError (body : string) : PoodleError :=
  let '(apiResponse, ok) :=
    GoJSON.Unmarshal fields_success_message_error body in
  if negb ok
  then IsValidationError
         (NewValidationError "Validation failed"
            (<["request" := ["Invalid request format"]]> ∅))
  else
    let message := GoJSON.string_field apiResponse "message" in
    let error := GoJSON.string_field apiResponse "error" in
    let errors : gmap string (list string) :=
      <["request" := [message]]> ∅ in
    let errors :=
      if negb (String.eqb error "")
      then <["details" := [error]]> errors else errors in
    IsValidationError (NewValidationError message errors).

(** [parseAuthenticationError]. *)
Definition parseAuthenticationError (body : string) : PoodleError :=
  let '(apiResponse, ok) := GoJSON.Unmarshal fields_message body in
  if negb ok
  then IsAuthenticationError
         (NewAuthenticationError "Invalid or missing API key")
  else IsAuthenticationError
         (NewAuthenticationError (GoJSON.string_field apiResponse "message")).

(** [parseSubscriptionError]. *)
Definition parseSubscriptionError (body : string) : PoodleError :=
  let '(apiResponse, ok) := GoJSON.Unmarshal fields_message_error body in
  if negb ok
  then IsSubscriptionError (NewSubscriptionError "Subscription error" "unknown")
  else
    let errorType := "unknown" in
    let message := GoJSON.string_field apiResponse "message" in
    let errorType :=
      if Contains message "expired" then "subscription_expired"
      else if Contains message "trial" then "trial_limit_reached"
      else if Contains message "limit" then "limit_reached"
      else errorType in
    IsSubscriptionError (NewSubscriptionError message errorType).

(** [parseAccountSuspendedError]. *)
Definition parseAccountSuspendedError (body : string) : PoodleError :=
  let '(apiResponse, ok) := GoJSON.Unmarshal fields_message_error body in
  if negb ok
  then IsAccountSuspendedError
         (NewAccountSuspendedError "Account suspended" "unknown")
  else IsAccountSuspendedError
         (NewAccountSuspendedError
            (GoJSON.string_field apiResponse "message")
            (GoJSON.string_field apiResponse "error")).

(** One of the four header reads of [parseRateLimitError]: zero unless the
    header is there, is not empty and parses. *)
Definition header_int (parse : string -> option Z)
    (h : GoHTTP.Header) (key : string) : Z :=
  let val := 0 in
  let str := GoHTTP.Get h key in
  if negb (String.eqb str "")
  then match parse str with
       | Some v => v
       | None => val
       end
  else val.

(** [parseRateLimitError]; the error of [json.Unmarshal] is dropped. *)
Definition parseRateLimitError (header : GoHTTP.Header) (body : string)
    : PoodleError :=
  let '(apiResponse, _) := GoJSON.Unmarshal fields_message_error body in
  let retryAfter := header_int GoStrconv.Atoi header "retry-after" in
  let limit := header_int GoStrconv.Atoi header "ratelimit-limit" in
  let remaining := header_int GoStrconv.Atoi header "ratelimit-remaining" in
  let reset :=
    header_int (fun s => GoStrconv.ParseInt s 64) header "ratelimit-reset" in
  let message := GoJSON.string_field apiResponse "message" in
  let message :=
    if String.eqb message ""
    then "Rate limit exceeded. Retry after " +:+ Itoa retryAfter +:+ " seconds."
    else message in
  IsRateLimitError (NewRateLimitError message retryAfter limit remaining reset).

(** [parseGenericError]. *)
Definition parseGenericError (statusCode : Z) (body url : string)
    : PoodleError :=
  let message := "HTTP " +:+ Itoa statusCode +:+ " error" in
  let '(apiResponse, ok) := GoJSON.Unmarshal fields_message_error body in
  let message :=
    if ok && negb (String.eqb (GoJSON.string_field apiResponse "message") "")
    then GoJSON.string_field apiResponse "message" else message in
  IsHTTPError (NewHTTPError statusCode message url body).

(** The [switch resp.StatusCode] of [SendEmail]: the response classifier. *)
Definition classify (statusCode : Z) (header : GoHTTP.Header)
    (responseBody url : string) : Result :=
  if statusCode =? StatusAccepted then parseSuccessResponse responseBody
  else if statusCode =? StatusBadRequest
  then (None, Some (parseValidationError responseBody))
  else if statusCode =? StatusUnauthorized
  then (None, Some (parseAuthenticationError responseBody))
  else if statusCode =? StatusPaymentRequired
  then (None, Some (parseSubscriptionError responseBody))
  else if statusCode =? StatusForbidden
  then (None, Some (parseAccountSuspendedError responseBody))
  else if statusCode =? StatusUnprocessableEntity
  then (None, Some (parseValidationError responseBody))
  else if statusCode =? StatusTooManyRequests
  then (None, Some (parseRateLimitError header responseBody))
  else (None, Some (parseGenericError statusCode responseBody url)).

Section SendEmail.

Context {rt : Runtime} {W : Type}.

(** The URL and the request [SendEmail] builds. *)
Definition endpoint (c : Config) : string :=
  TrimRight (BaseURL c) "/" +:+ "/v1/send-email".

Definition build_request (c : Config) (requestBody : string)
    : GoHTTP.Request :=
  let h : GoHTTP.Header := ∅ in
  let h := GoHTTP.Set_ h "Content-Type" "application/json" in
  let h := GoHTTP.Set_ h "Accept" "application/json" in
  let h := GoHTTP.Set_ h "Authorization" ("Bearer " +:+ APIKey c) in
  let h := GoHTTP.Set_ h "User-Agent" (GetUserAgent c) in
  GoHTTP.mkRequest "POST" (endpoint c) h requestBody.

(** What [SendEmail] makes of the answer of [Do]. *)
Definition handle_response (c : Config) (url : string)
    (answer : GoHTTP.Response + string) : Result :=
  match answer with
  | inr err =>
      if Contains err "timeout"
      then let timeout := Seconds (Timeout c) in
           (None, Some (IsNetworkError (NewConnectionTimeoutError timeout url)))
      else (None, Some (IsNetworkError
                          (NewNetworkError ("Request failed: " +:+ err) url)))
  | inl resp =>
      match GoHTTP.Body resp with
      | None =>
          (None, Some (IsNetworkError
                         (NewNetworkError "Failed to read response body" url)))
      | Some responseBody =>
          classify (GoHTTP.StatusCode resp) (GoHTTP.ResponseHeader resp)
            responseBody url
      end
  end.

(** [SendEmail], a method of [HTTPClient],
    with the state of the transport passed through.  The two [log.Printf]
    calls under [config.Debug] write to the process log only and are
    left out. *)
Definition SendEmail (c : HTTPClient W) (email : Email) (w : W)
    : Result * W :=
  match Validate email with
  | Some err => ((None, Some err), w)
  | None =>
      match Marshal email with
      | None =>
          ((None, Some (IsNetworkError
                          (NewNetworkError "Failed to encode request body" ""))),
           w)
      | Some requestBody =>
          let url := endpoint (config c) in
          if negb (NewRequestAccepts url)
          then ((None, Some (IsNetworkError
                               (NewNetworkError "Failed to create request" url))),
                w)
          else
            let req := build_request (config c) requestBody in
            let '(answer, w') := GoHTTP.Do (httpClient c) req w in
            (handle_response (config c) url answer, w')
      end
  end.

End SendEmail.

(** ** The address grammar, in the words of the specification

    These definitions follow the specification of the address validator,
    not the code: a local part of one or more bytes of the local class, an
    at sign, and a domain of two or more dot-separated labels, each of one
    or more letters, digits and hyphens, the last of two or more letters. *)

Fixpoint all_bytes (p : ascii -> bool) (s : string) : bool :=
  match s with
  | EmptyString => true
  | String c s' => p c && all_bytes p s'
  end.

(** [[A-Za-z0-9-]] *)
Definition labelClass (c : ascii) : bool :=
  lower c || upper c || digit c || Ascii.eqb c "-".

Definition label_ok (label : string) : bool :=
  negb (String.eqb label "") && all_bytes labelClass label.

Definition final_label_ok (label : string) : bool :=
  (2 <=? len label) && all_bytes alphaClass label.

Definition local_ok (localPart : string) : bool :=
  negb (String.eqb localPart "") && all_bytes localClass localPart.

Definition domain_ok (domainPart : string) : bool :=
  let labels := Split domainPart "." in
  (2 <=? Z.of_nat (length labels)) && forallb label_ok labels &&
  final_label_ok (List.last labels "").

Definition matches_grammar (s : string) : bool :=
  match Split s "@" with
  | [localPart; domainPart] => local_ok localPart && domain_ok domainPart
  | _ => false
  end.

(** The additional rejects the specification lists, for a local part and
    a domain. *)
Definition listed_violation (localPart domainPart : string) : bool :=
  (* local part starting or ending with a dot, or containing two in a row *)
  HasPrefix localPart "." || HasSuffix localPart "." ||
  Contains localPart ".." ||
  (* domain starting or ending with a hyphen or a dot, or containing two
     dots in a row *)
  HasPrefix domainPart "-" || HasSuffix domainPart "-" ||
  HasPrefix domainPart "." || HasSuffix domainPart "." ||
  Contains domainPart ".." ||
  (* fewer than two dot-separated labels *)
  (Z.of_nat (length (Split domainPart ".")) <? 2) ||
  (* a label that starts or ends with a hyphen, or is empty *)
  existsb (fun label => HasPrefix label "-" || HasSuffix label "-" ||
                        String.eqb label "")
    (Split domainPart ".").

(** The additional rejects of a whole address. *)
Definition violates (s : string) : bool :=
  match Split s "@" with
  | [localPart; domainPart] => listed_violation localPart domainPart
  | _ => false
  end.

(** ASCII bytes that are no white space: the printable ones. *)
Definition printable (c : ascii) : bool := byte_between "033" "126" c.

(** ** Definitions the statements use *)

(** The reasons reported under each key: every rule decides its own key,
    whatever the other rules find. *)
Definition reasons_for (e : Email) (k : string) : option (list string) :=
  if decide (k = "from") then
    if String.eqb (TrimSpace (From e)) ""
    then Some ["From address is required"]
    else if isValidEmail (From e) then None
    else Some ["From address is not a valid email"]
  else if decide (k = "to") then
    if String.eqb (TrimSpace (To e)) ""
    then Some ["To address is required"]
    else if isValidEmail (To e) then None
    else Some ["To address is not a valid email"]
  else if decide (k = "subject") then
    if String.eqb (TrimSpace (Subject e)) ""
    then Some ["Subject is required"] else None
  else if decide (k = "content") then
    if String.eqb (TrimSpace (HTML e)) "" && String.eqb (TrimSpace (Text e)) ""
    then Some ["At least one content type (html or text) is required"]
    else None
  else if decide (k = "html") then
    if MaxContentSize <? len (HTML e)
    then Some ["HTML content exceeds maximum size limit"] else None
  else if decide (k = "text") then
    if MaxContentSize <? len (Text e)
    then Some ["Text content exceeds maximum size limit"] else None
  else None.

(** [p] occurs in [s]. *)
Definition occurs (p s : string) : Prop :=
  exists a b, s = a +:+ p +:+ b.

Definition to_lower (c : ascii) : ascii :=
  if byte_between "A" "Z" c then GoJSON.byte (GoJSON.code c + 32) else c.

(** Equality of two names up to the case of ASCII letters. *)
Fixpoint EqualFold (s t : string) : bool :=
  match s, t with
  | EmptyString, EmptyString => true
  | String a s', String b t' =>
      Ascii.eqb (to_lower a) (to_lower b) && EqualFold s' t'
  | _, _ => false
  end.

(** A decimal numeral: an optional sign and one or more digits. *)
Definition numeric (s : string) : bool :=
  let digits :=
    match s with
    | String "+" s' => s'
    | String "-" s' => s'
    | _ => s
    end in
  negb (String.eqb digits "") && all_bytes digit digits.

(** The four headers [parseRateLimitError] reads. *)
Definition rate_limit_headers : list string :=
  ["retry-after"; "ratelimit-limit"; "ratelimit-remaining"; "ratelimit-reset"].

(** A transport that keeps the requests it was given, in order, next to
    the state of the transport it stands for. *)
Definition traced {W : Type} (d : GoHTTP.HTTPDoer W)
    : GoHTTP.HTTPDoer (W * list GoHTTP.Request) :=
  GoHTTP.mkHTTPDoer
    (fun req '(w, log) =>
       let '(answer, w') := GoHTTP.Do d req w in
       (answer, (w', log ++ [req]))).

(** The mock of the test suite: whatever the request, the same answer. *)
Definition mockHTTPClient (answer : GoHTTP.Response + string)
    : GoHTTP.HTTPDoer unit :=
  GoHTTP.mkHTTPDoer (fun _ w => (answer, w)).

(** A runtime to run the examples with.  [example_Marshal] writes the
    object that [json.Marshal] writes for an [Email] whose fields are
    ASCII: the quote and the backslash behind a backslash, the line feed,
    carriage return and tab as [\n], [\r] and [\t], the other control
    bytes and the bytes <, > and & as [\u00XX], html and text left out
    when empty.  Every URL of printable ASCII bytes is accepted, and a
    duration in nanoseconds is cut to whole seconds. *)
Definition hex_digit (n : Z) : ascii :=
  if n <? 10 then GoJSON.byte (48 + n) else GoJSON.byte (87 + n).

Definition example_escape (c : ascii) : string :=
  if Ascii.eqb c GoJSON.quote || Ascii.eqb c GoJSON.backslash
  then String GoJSON.backslash (String c "")
  else if Ascii.eqb c "010" then String GoJSON.backslash "n"
  else if Ascii.eqb c "013" then String GoJSON.backslash "r"
  else if Ascii.eqb c "009" then String GoJSON.backslash "t"
  else if byte_between "000" "031" c || Ascii.eqb c "<" || Ascii.eqb c ">" ||
          Ascii.eqb c "&"
  then String GoJSON.backslash
         ("u00" +:+ String (hex_digit (GoJSON.code c / 16))
                      (String (hex_digit (GoJSON.code c mod 16)) ""))
  else String c "".

Fixpoint example_escaped (s : string) : string :=
  match s with
  | EmptyString => EmptyString
  | String c s' => example_escape c +:+ example_escaped s'
  end.

Definition example_string (s : string) : string :=
  String GoJSON.quote (example_escaped s) +:+ String GoJSON.quote "".

Definition example_Marshal (e : Email) : option string :=
  Some ("{" +:+ example_string "from" +:+ ":" +:+ example_string (From e) +:+
        "," +:+ example_string "to" +:+ ":" +:+ example_string (To e) +:+
        "," +:+ example_string "subject" +:+ ":" +:+
        example_string (Subject e) +:+
        (if String.eqb (HTML e) "" then ""
         else "," +:+ example_string "html" +:+ ":" +:+
              example_string (HTML e)) +:+
        (if String.eqb (Text e) "" then ""
         else "," +:+ example_string "text" +:+ ":" +:+
              example_string (Text e)) +:+
        "}").

Definition exampleRuntime : Runtime :=
  {| Marshal := example_Marshal;
     NewRequestAccepts := all_bytes printable;
     Seconds := fun d => Z.quot d 1000000000 |}.

(** [NewConfig] with an API key: the default configuration. *)
Definition exampleConfig : Config :=
  mkConfig "test_api_key" "https://api.usepoodle.com"
    (30 * 1000000000) (10 * 1000000000) false.

Definition exampleEmail : Email :=
  mkEmail "from@example.com" "to@example.com" "Test Subject"
    "<h1>Hello</h1>" "".

Definition exampleClient (answer : GoHTTP.Response + string)
    : HTTPClient (unit * list GoHTTP.Request) :=
  mkHTTPClient exampleConfig (traced (mockHTTPClient answer)).

(** One send of the test suite: a fresh client over the mock, no request
    issued so far. *)
Definition exampleSend (email : Email) (answer : GoHTTP.Response + string)
    : Result * (unit * list GoHTTP.Request) :=
  @SendEmail exampleRuntime _ (exampleClient answer) email (tt, []).

Definition response422 : GoHTTP.Response + string :=
  inl (GoHTTP.mkResponse 422 ∅
         (Some (GoJSON.sq "{'message':'Job queue error'}"))).

(** ** The rest of email.go and errors.go *)

(** [NewEmail], [NewHTMLEmail], [NewTextEmail], [NewEmailWithBoth]. *)
Definition NewEmail (from to subject : string) : Email :=
  mkEmail from to subject "" "".
Definition NewHTMLEmail (from to subject html : string) : Email :=
  mkEmail from to subject html "".
Definition NewTextEmail (from to subject text : string) : Email :=
  mkEmail from to subject "" text.
Definition NewEmailWithBoth (from to subject html text : string) : Email :=
  mkEmail from to subject html text.

(** [SetHTML], [SetText], [SetBoth]: the message with the field written. *)
Definition SetHTML (e : Email) (html : string) : Email :=
  mkEmail (From e) (To e) (Subject e) html (Text e).
Definition SetText (e : Email) (text : string) : Email :=
  mkEmail (From e) (To e) (Subject e) (HTML e) text.
Definition SetBoth (e : Email) (html text : string) : Email :=
  mkEmail (From e) (To e) (Subject e) html text.

(** [HasHTML], [HasText]. *)
Definition HasHTML (e : Email) : bool :=
  negb (String.eqb (TrimSpace (HTML e)) "").
Definition HasText (e : Email) : bool :=
  negb (String.eqb (TrimSpace (Text e)) "").

(** [Error()]: the method of [BaseError], which [ValidationError]
    overrides with a fallback for an empty message. *)
Definition Error (e : PoodleError) : string :=
  match e with
  | IsValidationError v =>
      if negb (String.eqb (Message (ValidationError_Base v)) "")
      then Message (ValidationError_Base v)
      else "Validation failed"
  | _ => Message (base e)
  end.

(** The value of the context key error_type, when it is a string. *)
Definition error_type (e : PoodleError) : option string :=
  match Context e !! "error_type" with
  | Some (CtxString tag) => Some tag
  | _ => None
  end.

(** The statuses [SendEmail] names in its switch. *)
Definition named_statuses : list Z := [202; 400; 401; 402; 403; 422; 429].

(** The tag each variant carries, but for the timeout. *)
Definition variant_tag (err : PoodleError) : string :=
  match err with
  | IsValidationError _ => "validation_error"
  | IsAuthenticationError _ => "authentication_error"
  | IsAccountSuspendedError _ => "account_suspended"
  | IsSubscriptionError _ => "subscription_error"
  | IsRateLimitError _ => "rate_limit_exceeded"
  | IsNetworkError _ => "network_error"
  | IsHTTPError _ => "http_error"
  end.

Definition well_reported (err : PoodleError) : Prop :=
  Error err <> "" /\ error_type err = Some (variant_tag err) /\
  match err with
  | IsNetworkError e => Code (NetworkError_Base e) = 0
  | _ => True
  end.

(** ** config.go *)

Definition DefaultBaseURL : string := "https://api.usepoodle.com".

(** [time.Second]: a [time.Duration] counts nanoseconds. *)
Definition Second : Z := 1000000000.
Definition DefaultTimeout : Z := 30 * Second.
Definition DefaultConnectTimeout : Z := 10 * Second.

(** [func NewConfig() *Config]: the value the new pointer points to. *)
Definition NewConfig : Config :=
  {| APIKey := "";
     BaseURL := DefaultBaseURL;
     Timeout := DefaultTimeout;
     ConnectTimeout := DefaultConnectTimeout;
     Debug := false |}.

(** [strconv.ParseBool]; [None] for a syntax error. *)
Definition ParseBool (str : string) : option bool :=
  if existsb (String.eqb str) ["1"; "t"; "T"; "true"; "TRUE"; "True"]
  then Some true
  else if existsb (String.eqb str) ["0"; "f"; "F"; "false"; "FALSE"; "False"]
  then Some false
  else None.

(** [os.Getenv] over the environment of the process: the empty string
    for a variable that is not set. *)
Definition Getenv (env : gmap string string) (key : string) : string :=
  default "" (env !! key).

Section ConfigFromEnv.

(** [time.ParseDuration], left to the Go library; [None] for an error. *)
Variable ParseDuration : string -> option Z.

(** [func NewConfigFromEnv() *Config]: the value the new pointer points
    to, the assignments to the fields of [config] in the order of the
    source. *)
Definition NewConfigFromEnv (env : gmap string string) : Config :=
  let config := NewConfig in
  let config :=
    let apiKey := Getenv env "POODLE_API_KEY" in
    if negb (String.eqb apiKey "")
    then mkConfig apiKey (BaseURL config) (Timeout config)
           (ConnectTimeout config) (Debug config)
    else config in
  let config :=
    let baseURL := Getenv env "POODLE_BASE_URL" in
    if negb (String.eqb baseURL "")
    then mkConfig (APIKey config) baseURL (Timeout config)
           (ConnectTimeout config) (Debug config)
    else config in
  let config :=
    let timeoutStr := Getenv env "POODLE_TIMEOUT" in
    if negb (String.eqb timeoutStr "") then
      match ParseDuration timeoutStr with
      | Some timeout =>
          mkConfig (APIKey config) (BaseURL config) timeout
            (ConnectTimeout config) (Debug config)
      | None => config
      end
    else config in
  let config :=
    let connectTimeoutStr := Getenv env "POODLE_CONNECT_TIMEOUT" in
    if negb (String.eqb connectTimeoutStr "") then
      match ParseDuration connectTimeoutStr with
      | Some connectTimeout =>
          mkConfig (APIKey config) (BaseURL config) (Timeout config)
            connectTimeout (Debug config)
      | None => config
      end
    else config in
  let config :=
    let debugStr := Getenv env "POODLE_DEBUG" in
    if negb (String.eqb debugStr "") then
      match ParseBool debugStr with
      | Some debug =>
          mkConfig (APIKey config) (BaseURL config) (Timeout config)
            (ConnectTimeout config) debug
      | None => config
      end
    else config in
  config.

End ConfigFromEnv.

(** [func (c *Config) Validate() error].  The errors are struct literals:
    no status code and no context are set. *)
Definition Config_Validate (c : Config) : option PoodleError :=
  if String.eqb (APIKey c) "" then
    Some (IsValidationError
            {| ValidationError_Base :=
                 {| Message := "API key is required"; Code := 0;
                    ContextMap := ∅ |};
               Errors := {["api_key" := ["API key is required"]]} |})
  else if String.eqb (BaseURL c) "" then
    Some (IsValidationError
            {| ValidationError_Base :=
                 {| Message := "Base URL is required"; Code := 0;
                    ContextMap := ∅ |};
               Errors := {["base_url" := ["Base URL is required"]]} |})
  else if Timeout c <=? 0 then
    Some (IsValidationError
            {| ValidationError_Base :=
                 {| Message := "Timeout must be greater than 0"; Code := 0;
                    ContextMap := ∅ |};
               Errors :=
                 {["timeout" := ["Timeout must be greater than 0"]]} |})
  else if ConnectTimeout c <=? 0 then
    Some (IsValidationError
            {| ValidationError_Base :=
                 {| Message := "Connect timeout must be greater than 0";
                    Code := 0; ContextMap := ∅ |};
               Errors :=
                 {["connect_timeout" :=
                     ["Connect timeout must be greater than 0"]]} |})
  else None.

(** ** client.go *)

(** The configurations are held by pointer and shared: the store maps an
    address to the [Config] it holds. *)
Abbreviation Store := (gmap positive Config).

(** [&Config{...}]: a new address. *)
Definition alloc (st : Store) (c : Config) : positive * Store :=
  let p := fresh (dom st) in (p, <[p := c]> st).

(** A [*HTTPClient]: the address of its [config] and its [httpClient],
    neither of which is assigned after [NewHTTPClient]. *)
Record HTTPClientRef (W : Type) : Type := mkHTTPClientRef {
  HTTPClient_config : positive;
  HTTPClient_httpClient : GoHTTP.HTTPDoer W
}.
Arguments mkHTTPClientRef {W} _ _.
Arguments HTTPClient_config {W} _.
Arguments HTTPClient_httpClient {W} _.

(** [type Client struct]; the mutex orders concurrent calls and has no
    part in a call on its own. *)
Record Client (W : Type) : Type := mkClient {
  Client_config : positive;
  Client_httpClient : HTTPClientRef W
}.
Arguments mkClient {W} _ _.
Arguments Client_config {W} _.
Arguments Client_httpClient {W} _.

(** What a call that may panic ends with; [Panic None] is the run-time
    panic of a nil dereference. *)
Inductive Outcome (A : Type) : Type :=
| Returned (a : A)
| Panic (err : option PoodleError).
Arguments Returned {A} _.
Arguments Panic {A} _.

Section Client.

Context {rt : Runtime} {W : Type}.

(** [&http.Client{Timeout: ..., Transport: ...}] over a dialer with the
    connect timeout: the transport of [net/http], by its two timeouts. *)
Variable http_Client : Z -> Z -> GoHTTP.HTTPDoer W.

(** [func NewHTTPClient(config *Config) *HTTPClient]: the two timeouts
    are read now, the address is kept. *)
Definition NewHTTPClient (config : positive) (st : Store)
    : option (HTTPClientRef W) :=
  match st !! config with
  | Some c =>
      Some (mkHTTPClientRef config
              (http_Client (Timeout c) (ConnectTimeout c)))
  | None => None
  end.

(** [func NewClientWithConfig(config *Config) *Client]. *)
Definition NewClientWithConfig (config : positive) (st : Store)
    : Outcome (Client W) :=
  match st !! config with
  | None => Panic None
  | Some c =>
      match Config_Validate c with
      | Some err => Panic (Some err)
      | None =>
          match NewHTTPClient config st with
          | Some h => Returned (mkClient config h)
          | None => Panic None
          end
      end
  end.

(** [func NewClient(apiKey string) *Client]. *)
Definition NewClient (apiKey : string) (st : Store)
    : Outcome (Client W) * Store :=
  let '(config, st) := alloc st NewConfig in
  let st :=
    alter (fun c => mkConfig apiKey (BaseURL c) (Timeout c)
                      (ConnectTimeout c) (Debug c)) config st in
  (NewClientWithConfig config st, st).

(** [func NewClientFromEnv() *Client]. *)
Definition NewClientFromEnv (ParseDuration : string -> option Z)
    (env : gmap string string) (st : Store) : Outcome (Client W) * Store :=
  let '(config, st) := alloc st (NewConfigFromEnv ParseDuration env) in
  (NewClientWithConfig config st, st).

(** [c.httpClient.SendEmail(email)]: the method reads [c.config] when it
    is called. *)
Definition Send (c : Client W) (email : Email) (st : Store) (w : W)
    : option (Result * W) :=
  match st !! HTTPClient_config (Client_httpClient c) with
  | Some cfg =>
      Some (SendEmail
              (mkHTTPClient cfg (HTTPClient_httpClient (Client_httpClient c)))
              email w)
  | None => None
  end.

(** [SendHTML], [SendText], [SendWithBoth]. *)
Definition SendHTML (c : Client W) (from to subject html : string)
    (st : Store) (w : W) : option (Result * W) :=
  let email := NewHTMLEmail from to subject html in
  Send c email st w.

Definition SendText (c : Client W) (from to subject text : string)
    (st : Store) (w : W) : option (Result * W) :=
  let email := NewTextEmail from to subject text in
  Send c email st w.

Definition SendWithBoth (c : Client W) (from to subject html text : string)
    (st : Store) (w : W) : option (Result * W) :=
  let email := NewEmailWithBoth from to subject html text in
  Send c email st w.

(** [func (c *Client) GetConfig() *Config]: the address of a copy. *)
Definition GetConfig (c : Client W) (st : Store) : option (positive * Store) :=
  match st !! Client_config c with
  | Some configCopy => Some (alloc st configCopy)
  | None => None
  end.

(** [func (c *Client) SetDebug(debug bool)]. *)
Definition SetDebug (c : Client W) (debug : bool) (st : Store)
    : option Store :=
  match st !! Client_config c with
  | Some cfg =>
      Some (<[Client_config c :=
                mkConfig (APIKey cfg) (BaseURL cfg) (Timeout cfg)
                  (ConnectTimeout cfg) debug]> st)
  | None => None
  end.

(** [func (c *Client) IsDebug() bool]. *)
Definition IsDebug (c : Client W) (st : Store) : option bool :=
  match st !! Client_config c with
  | Some cfg => Some (Debug cfg)
  | None => None
  end.

End Client.

(** An error built by one of the constructors of errors.go. *)
Definition constructed (err : PoodleError) : Prop :=
  match err with
  | IsValidationError e =>
      exists message errors, e = NewValidationError message errors
  | IsAuthenticationError e =>
      exists message, e = NewAuthenticationError message
  | IsAccountSuspendedError e =>
      exists message reason, e = NewAccountSuspendedError message reason
  | IsSubscriptionError e =>
      exists message errorType, e = NewSubscriptionError message errorType
  | IsRateLimitError e =>
      exists message retryAfter limit remaining reset,
        e = NewRateLimitError message retryAfter limit remaining reset
  | IsNetworkError e =>
      (exists message url, e = NewNetworkError message url) \/
      (exists timeout url, e = NewConnectionTimeoutError timeout url)
  | IsHTTPError e =>
      exists statusCode message url responseBody,
        e = NewHTTPError statusCode message url responseBody
  end.

(** ** encoding/json: writing a string and an [EmailResponse] *)

Module GoJSONEncode.

(** [htmlSafeSet]: the ASCII bytes [json.Marshal] copies as they are,
    from the space on but for the quote, the backslash and <, >, &. *)
Definition htmlSafeSet (b : ascii) : bool :=
  byte_between " " "127" b &&
  negb (Ascii.eqb b GoJSON.quote || Ascii.eqb b GoJSON.backslash ||
        Ascii.eqb b "<" || Ascii.eqb b ">" || Ascii.eqb b "&").

(** What the encoder writes for an ASCII byte.  The short forms of the
    backspace and the form feed came with Go 1.22; before, they are
    written like the other control bytes: [go122] tells which. *)
Definition escape (go122 : bool) (b : ascii) : list ascii :=
  if htmlSafeSet b then [b]
  else
    GoJSON.backslash ::
    (if Ascii.eqb b GoJSON.backslash || Ascii.eqb b GoJSON.quote then [b]
     else if go122 && Ascii.eqb b "008" then ["b"%char]
     else if go122 && Ascii.eqb b "012" then ["f"%char]
     else if Ascii.eqb b "010" then ["n"%char]
     else if Ascii.eqb b "013" then ["r"%char]
     else if Ascii.eqb b "009" then ["t"%char]
     else ["u"; "0"; "0"; hex_digit (GoJSON.code b / 16);
           hex_digit (GoJSON.code b mod 16)]%char).

Definition lineSeparator : list ascii := ["226"; "128"; "168"]%char.
Definition paragraphSeparator : list ascii := ["226"; "128"; "169"]%char.

(** The loop of the string encoder over the bytes from index [i] on;
    every turn moves [i] forward, so the number of bytes left is fuel
    enough.  An invalid byte is written as the escape of U+FFFD, the
    runes U+2028 and U+2029 as their escapes, every other rune as it
    is. *)
Fixpoint appendString (fuel : nat) (go122 : bool) (s : list ascii)
  : list ascii :=
  match fuel with
  | O => []
  | S fuel' =>
      match s with
      | [] => []
      | b :: rest =>
          if byte_between "000" "127" b
          then escape go122 b ++ appendString fuel' go122 rest
          else
            match GoJSON.rune_width s with
            | None =>
                GoJSON.backslash :: bytes_of "ufffd" ++
                appendString fuel' go122 rest
            | Some size =>
                (if has_prefix s lineSeparator
                 then GoJSON.backslash :: bytes_of "u2028"
                 else if has_prefix s paragraphSeparator
                 then GoJSON.backslash :: bytes_of "u2029"
                 else take size s) ++
                appendString fuel' go122 (drop size s)
            end
      end
  end.

(** A string value: the encoded bytes between quotes. *)
Definition string_value (go122 : bool) (s : string) : list ascii :=
  GoJSON.quote :: appendString (String.length s) go122 (bytes_of s) ++
  [GoJSON.quote].

(** [utf8.Valid]. *)
Fixpoint valid_runes (fuel : nat) (l : list ascii) : bool :=
  match l with
  | [] => true
  | _ :: _ =>
      match fuel with
      | O => false
      | S fuel' =>
          match GoJSON.rune_width l with
          | Some size => valid_runes fuel' (drop size l)
          | None => false
          end
      end
  end.

Definition ValidString (s : string) : bool :=
  valid_runes (String.length s) (bytes_of s).

End GoJSONEncode.

(** ** response.go *)

(** [NewEmailResponse], [NewEmailResponseWithError]. *)
Definition NewEmailResponse (success : bool) (message : string)
    : EmailResponse.t :=
  EmailResponse.mk success message "".

Definition NewEmailResponseWithError (success : bool)
    (message errorMsg : string) : EmailResponse.t :=
  EmailResponse.mk success message errorMsg.

(** [IsSuccessful], [HasError]. *)
Definition IsSuccessful (r : EmailResponse.t) : bool :=
  EmailResponse.Success r.

Definition HasError (r : EmailResponse.t) : bool :=
  negb (String.eqb (EmailResponse.Error r) "").

(** [json.Marshal(r)] for an [EmailResponse]: the members success and
    message, and the member error unless it is empty ([omitempty]).  No
    value of the type makes it fail. *)
Definition Marshal_EmailResponse (go122 : bool) (r : EmailResponse.t)
    : list ascii :=
  bytes_of "{" ++
  GoJSONEncode.string_value go122 "success" ++ bytes_of ":" ++
  bytes_of (if EmailResponse.Success r then "true" else "false") ++
  bytes_of "," ++
  GoJSONEncode.string_value go122 "message" ++ bytes_of ":" ++
  GoJSONEncode.string_value go122 (EmailResponse.Message r) ++
  (if String.eqb (EmailResponse.Error r) "" then []
   else bytes_of "," ++
        GoJSONEncode.string_value go122 "error" ++ bytes_of ":" ++
        GoJSONEncode.string_value go122 (EmailResponse.Error r)) ++
  bytes_of "}".

(** [ToJSON]: the string; the error is always nil. *)
Definition ToJSON (go122 : bool) (r : EmailResponse.t) : string :=
  of_bytes (Marshal_EmailResponse go122 r).

(** [FromJSON]: [None] is the nil response that comes with an error. *)
Definition FromJSON (jsonStr : string) : option EmailResponse.t :=
  let '(response, ok) := EmailResponse.Unmarshal jsonStr in
  if negb ok then None else Some response.

(** ** The request body *)

(** The members of an object whose values are strings, as the encoder
    writes them one after the other. *)
Fixpoint string_members (go122 : bool) (ms : list (string * string))
  : list ascii :=
  match ms with
  | [] => []
  | (k, v) :: ms' =>
      GoJSONEncode.string_value go122 k ++
      ":"%char :: GoJSONEncode.string_value go122 v ++
      match ms' with
      | [] => []
      | _ :: _ => ","%char :: string_members go122 ms'
      end
  end.

(** [json.Marshal(email)] for an [Email]: the members from, to and
    subject, and the members html and text unless empty ([omitempty]).
    No value of the type makes it fail. *)
Definition Marshal_Email (go122 : bool) (e : Email) : list ascii :=
  bytes_of "{" ++
  GoJSONEncode.string_value go122 "from" ++ bytes_of ":" ++
  GoJSONEncode.string_value go122 (From e) ++ bytes_of "," ++
  GoJSONEncode.string_value go122 "to" ++ bytes_of ":" ++
  GoJSONEncode.string_value go122 (To e) ++ bytes_of "," ++
  GoJSONEncode.string_value go122 "subject" ++ bytes_of ":" ++
  GoJSONEncode.string_value go122 (Subject e) ++
  (if String.eqb (HTML e) "" then []
   else bytes_of "," ++
        GoJSONEncode.string_value go122 "html" ++ bytes_of ":" ++
        GoJSONEncode.string_value go122 (HTML e)) ++
  (if String.eqb (Text e) "" then []
   else bytes_of "," ++
        GoJSONEncode.string_value go122 "text" ++ bytes_of ":" ++
        GoJSONEncode.string_value go122 (Text e)) ++
  bytes_of "}".

(** The runtime with [json.Marshal] as modelled above; what
    [http.NewRequest] accepts and the conversion of a duration to seconds
    stay open. *)
Definition goRuntime (go122 : bool) (accepts : string -> bool)
    (seconds : Z -> Z) : Runtime :=
  {| Marshal := fun e => Some (of_bytes (Marshal_Email go122 e));
     NewRequestAccepts := accepts;
     Seconds := seconds |}.

(** The members [json.Marshal] writes for a message. *)
Definition Email_members (e : Email) : list (string * string) :=
  [("from", From e); ("to", To e); ("subject", Subject e)] ++
  (if String.eqb (HTML e) "" then [] else [("html", HTML e)]) ++
  (if String.eqb (Text e) "" then [] else [("text", Text e)]).

(** ** Properties of the string functions *)

Lemma of_bytes_of s : of_bytes (bytes_of s) = s.
Proof. apply string_of_list_ascii_of_string. Qed.

Lemma bytes_of_cons c s : bytes_of (String c s) = c :: bytes_of s.
Proof. reflexivity. Qed.

Lemma app_nil_s t : "" +:+ t = t.
Proof. reflexivity. Qed.

Lemma app_cons_s c s t : String c s +:+ t = String c (s +:+ t).
Proof. reflexivity. Qed.

Lemma bytes_of_app s t : bytes_of (s +:+ t) = bytes_of s ++ bytes_of t.
Proof.
  induction s as [|c s IH]; [done|].
  by rewrite app_cons_s, !bytes_of_cons, IH.
Qed.

Lemma app_empty_r s : s +:+ "" = s.
Proof. induction s as [|c s IH]; [done | by rewrite app_cons_s, IH]. Qed.

Lemma app_assoc_s s t u : (s +:+ t) +:+ u = s +:+ (t +:+ u).
Proof. induction s as [|c s IH]; [done | by rewrite !app_cons_s, IH]. Qed.

Lemma len_cons c s : len (String c s) = 1 + len s.
Proof. unfold len. simpl String.length. lia. Qed.

Lemma len_nonneg s : 0 <= len s.
Proof. unfold len. lia. Qed.

Lemma len_app s t : len (s +:+ t) = len s + len t.
Proof.
  induction s as [|c s IH]; [done|].
  rewrite app_cons_s, !len_cons, IH. lia.
Qed.

Lemma len_Repeat_byte c n : len (Repeat (String c "") n) = Z.of_nat n.
Proof.
  induction n as [|n IH]; [done|].
  change (Repeat (String c "") (S n))
    with (String c (Repeat (String c "") n)).
  rewrite len_cons, IH. lia.
Qed.

Lemma all_bytes_app p s t :
  all_bytes p (s +:+ t) = all_bytes p s && all_bytes p t.
Proof.
  induction s as [|c s IH]; [done|].
  rewrite app_cons_s. simpl. rewrite IH. by destruct (p c).
Qed.

Lemma all_bytes_impl (p q : ascii -> bool) s :
  (forall c, p c = true -> q c = true) ->
  all_bytes p s = true -> all_bytes q s = true.
Proof.
  intros Hpq. induction s as [|c s IH]; simpl; [done|].
  intros [Hc Hs]%andb_prop. rewrite (Hpq _ Hc). simpl. auto.
Qed.

Lemma all_bytes_Forall p s :
  all_bytes p s = true -> Forall (fun c => p c = true) (bytes_of s).
Proof.
  induction s as [|c s IH]; simpl; [constructor|].
  intros [Hc Hs]%andb_prop. constructor; auto.
Qed.

(** *** Splitting and joining *)

Lemma Split_nonempty s sep : Split s sep <> [].
Proof.
  induction s as [|c s IH]; simpl; [done|].
  destruct (Ascii.eqb c sep); [done|]. by destruct (Split s sep).
Qed.

(** Joining the pieces with the separator gives the string back. *)
Lemma concat_Split s sep : String.concat (String sep "") (Split s sep) = s.
Proof.
  induction s as [|c s IH]; [done|].
  simpl Split. destruct (Ascii.eqb_spec c sep) as [->|Hne].
  - pose proof (Split_nonempty s sep) as Hn.
    destruct (Split s sep) as [|p r] eqn:E; [done|].
    change (String.concat (String sep "") ("" :: p :: r))
      with ("" +:+ String sep "" +:+ String.concat (String sep "") (p :: r)).
    rewrite IH. reflexivity.
  - pose proof (Split_nonempty s sep) as Hn.
    destruct (Split s sep) as [|p r] eqn:E; [done|].
    destruct r as [|q r].
    + simpl in *. by rewrite IH.
    + change (String.concat (String sep "") (String c p :: q :: r))
        with (String c (p +:+ String sep "" +:+
                        String.concat (String sep "") (q :: r))).
      change (String.concat (String sep "") (p :: q :: r))
        with (p +:+ String sep "" +:+ String.concat (String sep "") (q :: r))
        in IH.
      by rewrite IH.
Qed.

Lemma concat_snoc sep (ls : list string) x :
  ls <> [] ->
  String.concat sep (ls ++ [x]) = String.concat sep ls +:+ sep +:+ x.
Proof.
  induction ls as [|a ls IH]; [done|]. intros _.
  destruct ls as [|b ls].
  - reflexivity.
  - change (String.concat sep ((a :: b :: ls) ++ [x]))
      with (a +:+ sep +:+ String.concat sep ((b :: ls) ++ [x])).
    rewrite IH by done.
    change (String.concat sep (a :: b :: ls))
      with (a +:+ sep +:+ String.concat sep (b :: ls)).
    by rewrite !app_assoc_s.
Qed.

Lemma all_bytes_concat p sep (ls : list string) :
  all_bytes p sep = true ->
  forallb (all_bytes p) ls = true ->
  all_bytes p (String.concat sep ls) = true.
Proof.
  intros Hsep. induction ls as [|a ls IH]; [done|].
  simpl forallb. intros [Ha Hls]%andb_prop.
  destruct ls as [|b ls]; [done|].
  change (String.concat sep (a :: b :: ls))
    with (a +:+ sep +:+ String.concat sep (b :: ls)).
  rewrite !all_bytes_app, Ha, Hsep, IH; done.
Qed.

(** *** Trimming *)

Lemma cut_one_None seqs c l :
  existsb (fun p => match p with
                    | [] => true
                    | b :: _ => Ascii.eqb c b
                    end) seqs = false ->
  cut_one seqs (c :: l) = None.
Proof.
  unfold cut_one. induction seqs as [|p seqs IH]; [done|].
  simpl. intros [Hp Hs]%orb_false_elim.
  destruct p as [|b p]; [done|]. simpl. rewrite Hp. simpl. auto.
Qed.

Lemma printable_not_space c :
  printable c = true ->
  existsb (fun p => match p with
                    | [] => true
                    | b :: _ => Ascii.eqb c b
                    end) spaceRunes = false /\
  existsb (fun p => match p with
                    | [] => true
                    | b :: _ => Ascii.eqb c b
                    end) (map (@rev ascii) spaceRunes) = false.
Proof.
  destruct c as [[] [] [] [] [] [] [] []]; vm_compute; auto; discriminate.
Qed.

Lemma trim_left_printable seqs l :
  (forall c, printable c = true ->
     existsb (fun p => match p with
                       | [] => true
                       | b :: _ => Ascii.eqb c b
                       end) seqs = false) ->
  Forall (fun c => printable c = true) l ->
  trim_left seqs l = l.
Proof.
  intros Hseqs Hl. unfold trim_left.
  destruct Hl as [|c l Hc Hl]; [done|].
  simpl. by rewrite cut_one_None by auto.
Qed.

(** A string of printable ASCII bytes has nothing to trim. *)
Lemma TrimSpace_printable s :
  all_bytes printable s = true -> TrimSpace s = s.
Proof.
  intros H%all_bytes_Forall. unfold TrimSpace.
  rewrite (trim_left_printable spaceRunes) by
    (auto; intros c Hc; apply (printable_not_space c Hc)).
  rewrite (trim_left_printable (map (@rev ascii) spaceRunes)).
  - rewrite rev_involutive. apply of_bytes_of.
  - intros c Hc. apply (printable_not_space c Hc).
  - by apply List.Forall_rev.
Qed.

(** *** Matching by derivatives finds every word of the language *)

Lemma app_eq_cons s1 s2 c s :
  s1 +:+ s2 = String c s ->
  (s1 = "" /\ s2 = String c s) \/
  (exists s1', s1 = String c s1' /\ s = s1' +:+ s2).
Proof.
  destruct s1 as [|a s1]; [by left|].
  rewrite app_cons_s. intros [= -> <-]. right. eauto.
Qed.

Lemma app_eq_empty s1 s2 : s1 +:+ s2 = "" -> s1 = "" /\ s2 = "".
Proof. destruct s1; [done | discriminate]. Qed.

Lemma nullable_complete r s : lang r s -> s = "" -> nullable r = true.
Proof.
  induction 1; intros E; simpl; try done.
  - apply app_eq_empty in E as [-> ->]. by rewrite IHlang1, IHlang2.
  - by rewrite IHlang.
  - rewrite IHlang by done. by destruct (nullable r1).
Qed.

Lemma deriv_complete r s0 :
  lang r s0 -> forall c s, s0 = String c s -> lang (deriv c r) s.
Proof.
  induction 1 as [|p a Hp|r1 r2 s1 s2 H1 IH1 H2 IH2|r1 r2 s0 H IH
                 |r1 r2 s0 H IH| |r1 s1 s2 H1 IH1 H2 IH2];
    intros c s E; simpl.
  - discriminate.
  - injection E as -> <-. rewrite Hp. constructor.
  - apply app_eq_cons in E as [[-> ->]|(s1' & -> & ->)].
    + rewrite (nullable_complete _ _ H1 eq_refl).
      apply lang_alt_r. by apply IH2.
    + destruct (nullable r1).
      * apply lang_alt_l. constructor; [by apply IH1 | done].
      * constructor; [by apply IH1 | done].
  - apply lang_alt_l. by apply IH.
  - apply lang_alt_r. by apply IH.
  - discriminate.
  - apply app_eq_cons in E as [[-> ->]|(s1' & -> & ->)].
    + by apply (IH2 c s).
    + constructor; [by apply IH1 | done].
Qed.

Lemma MatchString_complete r s : lang r s -> MatchString r s = true.
Proof.
  revert r. induction s as [|c s IH]; intros r H; simpl.
  - by apply (nullable_complete r "").
  - apply IH. by apply (deriv_complete r (String c s)).
Qed.

(** Every byte of a matching string is in one of the classes. *)
Lemma lang_bytes r s : lang r s -> all_bytes (some_class r) s = true.
Proof.
  induction 1; simpl; try done.
  - by rewrite H.
  - rewrite all_bytes_app. apply andb_true_intro. split.
    + eapply all_bytes_impl; [|exact IHlang1]. intros c ->. done.
    + eapply all_bytes_impl; [|exact IHlang2]. intros c ->.
      by destruct (some_class r1 c).
  - eapply all_bytes_impl; [|exact IHlang]. intros c ->. done.
  - eapply all_bytes_impl; [|exact IHlang]. intros c ->.
    by destruct (some_class r1 c).
  - rewrite all_bytes_app. apply andb_true_intro.
    split; [exact IHlang1 | exact IHlang2].
Qed.

Lemma lang_star_class p s :
  all_bytes p s = true -> lang (Star (CharClass p)) s.
Proof.
  induction s as [|c s IH]; [constructor|].
  simpl. intros [Hc Hs]%andb_prop.
  change (String c s) with (String c "" +:+ s).
  constructor; [by constructor | auto].
Qed.

Lemma lang_plus_class p s :
  s <> "" -> all_bytes p s = true -> lang (Plus (CharClass p)) s.
Proof.
  destruct s as [|c s]; [done|]. intros _.
  simpl. intros [Hc Hs]%andb_prop.
  change (String c s) with (String c "" +:+ s).
  constructor; [by constructor | by apply lang_star_class].
Qed.

Lemma lang_atleast2_class p s :
  2 <= len s -> all_bytes p s = true -> lang (AtLeast2 (CharClass p)) s.
Proof.
  destruct s as [|a [|b s]].
  - unfold len. simpl. lia.
  - unfold len. simpl. lia.
  - intros _. simpl. intros [Ha [Hb Hs]%andb_prop]%andb_prop.
    change (String a (String b s))
      with (String a "" +:+ (String b "" +:+ s)).
    constructor; [by constructor|].
    constructor; [by constructor | by apply lang_star_class].
Qed.

Lemma lang_literal c : lang (Literal c) (String c "").
Proof. constructor. apply Ascii.eqb_refl. Qed.

(** ** The address validator *)

Lemma eqb_empty_len s : String.eqb s "" = (len s =? 0).
Proof.
  destruct s as [|a s]; [done|]. rewrite len_cons.
  pose proof (len_nonneg s).
  change (String.eqb (String a s) "") with false.
  symmetry. apply Z.eqb_neq. lia.
Qed.

Lemma emailRegex_printable c :
  some_class emailRegex c = true -> printable c = true.
Proof. destruct c as [[] [] [] [] [] [] [] []]; vm_compute; auto. Qed.

Lemma labelClass_domainClass c : labelClass c = true -> domainClass c = true.
Proof. destruct c as [[] [] [] [] [] [] [] []]; vm_compute; auto. Qed.

Lemma forallb_label_ok_domainClass ls :
  forallb label_ok ls = true -> forallb (all_bytes domainClass) ls = true.
Proof.
  induction ls as [|a ls IH]; [done|]. simpl.
  intros [[_ Ha]%andb_prop Hls]%andb_prop.
  rewrite (all_bytes_impl _ _ _ labelClass_domainClass Ha). simpl. auto.
Qed.

Lemma concat_nonempty sep a ls :
  a <> "" -> String.concat sep (a :: ls) <> "".
Proof.
  intros Ha. destruct ls as [|b ls]; [done|].
  change (String.concat sep (a :: b :: ls))
    with (a +:+ sep +:+ String.concat sep (b :: ls)).
  destruct a; [done | discriminate].
Qed.

(** A domain of the grammar is a run of domain bytes, a dot, and the final
    label. *)
Lemma domain_ok_shape d :
  domain_ok d = true ->
  exists pre tld,
    d = pre +:+ "." +:+ tld /\ pre <> "" /\
    all_bytes domainClass pre = true /\
    2 <= len tld /\ all_bytes alphaClass tld = true.
Proof.
  unfold domain_ok. intros [[Hlen Hall]%andb_prop Hfin]%andb_prop.
  pose proof (concat_Split d ".") as Hd.
  destruct (Split d ".") as [|a ls] using rev_ind; [done|]. clear IHls.
  rewrite List.last_last in Hfin.
  rewrite length_app in Hlen. simpl in Hlen.
  rewrite forallb_app in Hall. apply andb_prop in Hall as [Hls _].
  destruct ls as [|b ls]; [by vm_compute in Hlen|].
  rewrite concat_snoc in Hd by done.
  apply andb_prop in Hfin as [Hl2 Halpha].
  exists (String.concat "." (b :: ls)), a. repeat split; auto.
  - apply concat_nonempty. simpl in Hls.
    apply andb_prop in Hls as [[Hb _]%andb_prop _].
    intros ->. done.
  - apply all_bytes_concat; [done|]. by apply forallb_label_ok_domainClass.
  - lia.
Qed.

Lemma matches_grammar_shape s :
  matches_grammar s = true ->
  exists l d, Split s "@" = [l; d] /\ s = l +:+ "@" +:+ d /\
              local_ok l = true /\ domain_ok d = true.
Proof.
  unfold matches_grammar. pose proof (concat_Split s "@") as Hs.
  destruct (Split s "@") as [|l [|d [|]]]; try done.
  intros [Hl Hd]%andb_prop. exists l, d. repeat split; auto.
Qed.

(** The pattern matches every string of the grammar. *)
Lemma matches_grammar_lang s : matches_grammar s = true -> lang emailRegex s.
Proof.
  intros (l & d & _ & -> & [Hl Hlc]%andb_prop & Hd)%matches_grammar_shape.
  apply domain_ok_shape in Hd as (pre & tld & -> & Hpre & Hpc & Htl & Hta).
  unfold emailRegex.
  constructor.
  { apply lang_plus_class; [|done]. intros ->. done. }
  constructor; [apply lang_literal|].
  constructor; [by apply lang_plus_class|].
  constructor; [apply lang_literal|].
  by apply lang_atleast2_class.
Qed.

Lemma matches_grammar_TrimSpace s : matches_grammar s = true -> TrimSpace s = s.
Proof.
  intros H%matches_grammar_lang%lang_bytes.
  apply TrimSpace_printable.
  eapply all_bytes_impl; [|exact H]. apply emailRegex_printable.
Qed.

Lemma existsb_labelRejected ls :
  existsb labelRejected ls =
  existsb (fun label => HasPrefix label "-" || HasSuffix label "-" ||
                        String.eqb label "") ls.
Proof.
  induction ls as [|a ls IH]; [done|]. simpl. rewrite IH.
  unfold labelRejected. by rewrite eqb_empty_len.
Qed.

(** What the checks after the pattern add up to. *)
Lemma listed_violation_code l d :
  listed_violation l d =
  localPartRejected l || domainPartRejected d ||
  (Z.of_nat (length (Split d ".")) <? 2) ||
  existsb labelRejected (Split d ".").
Proof.
  unfold listed_violation, localPartRejected, domainPartRejected.
  rewrite existsb_labelRejected.
  generalize (HasPrefix l "."), (HasSuffix l "."), (Contains l ".."),
    (HasPrefix d "-"), (HasSuffix d "-"), (HasPrefix d "."),
    (HasSuffix d "."), (Contains d "..").
  intros [] [] [] [] [] [] [] []; reflexivity.
Qed.

Lemma isValidEmail_after_split s l d :
  Split (TrimSpace s) "@" = [l; d] ->
  isValidEmail s =
  negb ((len (TrimSpace s) =? 0) || (254 <? len (TrimSpace s))) &&
  MatchString emailRegex (TrimSpace s) && negb (listed_violation l d).
Proof.
  intros E. unfold isValidEmail. rewrite E, listed_violation_code.
  destruct ((len (TrimSpace s) =? 0) || (254 <? len (TrimSpace s))); [done|].
  destruct (MatchString emailRegex (TrimSpace s)); [|done]. simpl.
  destruct (localPartRejected l); [done|].
  destruct (domainPartRejected d); [done|].
  destruct (Z.of_nat (length (Split d ".")) <? 2); [done|].
  by destruct (existsb labelRejected (Split d ".")).
Qed.

Lemma isValidEmail_accepts s :
  matches_grammar s = true -> violates s = false -> len s <= 254 ->
  isValidEmail s = true.
Proof.
  intros Hg Hv Hlen.
  pose proof (matches_grammar_TrimSpace s Hg) as Ht.
  pose proof (MatchString_complete _ _ (matches_grammar_lang s Hg)) as Hm.
  destruct (matches_grammar_shape s Hg) as (l & d & E & Hs & Hl & _).
  unfold violates in Hv. rewrite E in Hv.
  rewrite (isValidEmail_after_split s l d) by (by rewrite Ht).
  rewrite Ht, Hm, Hv.
  assert (0 < len s).
  { rewrite Hs, len_app. apply andb_prop in Hl as [Hl _].
    destruct l; [done|]. rewrite len_cons.
    pose proof (len_nonneg l). pose proof (len_nonneg ("@" +:+ d)). lia. }
  replace (len s =? 0) with false by lia.
  replace (254 <? len s) with false by lia. done.
Qed.

Lemma isValidEmail_rejects s l d :
  Split (TrimSpace s) "@" = [l; d] -> listed_violation l d = true ->
  isValidEmail s = false.
Proof.
  intros E Hv. rewrite (isValidEmail_after_split s l d E), Hv.
  by rewrite andb_false_r.
Qed.

(** C5, as amended: [isValidEmail] accepts every string of at most 254
    bytes that matches the grammar of the specification (a local part of
    one or more bytes of [A-Za-z0-9._%+-], an at sign, two or more
    dot-separated labels of [A-Za-z0-9-], the last of two or more
    letters) and triggers none of the additional rejects; it rejects
    every string whose local part or domain, after trimming, is in one of
    the listed violation classes; ["user+tag@example.com"] is accepted and
    ["test..test@example.com"] is rejected. *)
Theorem isValidEmail_grammar :
  (forall s, matches_grammar s = true -> violates s = false ->
             len s <= 254 -> isValidEmail s = true) /\
  (forall s l d, Split (TrimSpace s) "@" = [l; d] ->
                 listed_violation l d = true -> isValidEmail s = false) /\
  isValidEmail "user+tag@example.com" = true /\
  isValidEmail "test..test@example.com" = false.
Proof.
  split; [exact isValidEmail_accepts|].
  split; [exact isValidEmail_rejects|].
  split; vm_compute; reflexivity.
Qed.

(** The grammar clause of C5 at an address of five bytes. *)
Lemma isValidEmail_grammar_witness : isValidEmail "a-1@b.co" = true.
Proof.
  apply (proj1 isValidEmail_grammar "a-1@b.co");
    [vm_compute; reflexivity | vm_compute; reflexivity | ].
  vm_compute. discriminate.
Defined.

(** C5 as stated fails: the address of 250 letters before
    ["@example.com"] matches the grammar and triggers none of the
    additional rejects, and it is rejected for its length. *)
Lemma isValidEmail_grammar_too_long :
  matches_grammar (Repeat "a" 250 +:+ "@example.com") = true /\
  violates (Repeat "a" 250 +:+ "@example.com") = false /\
  isValidEmail (Repeat "a" 250 +:+ "@example.com") = false.
Proof. vm_compute. auto. Qed.

(** C8, as amended: [isValidEmail] rejects every string that, once its
    leading and trailing white space is trimmed, is longer than 254 bytes
    or is empty; in particular a string with no white space at its ends
    that is longer than 254 bytes, and the empty string. *)
Theorem isValidEmail_length s :
  254 < len (TrimSpace s) \/ len (TrimSpace s) = 0 -> isValidEmail s = false.
Proof.
  intros H. unfold isValidEmail.
  destruct H as [H|H].
  - replace (254 <? len (TrimSpace s)) with true by lia.
    by rewrite orb_true_r.
  - by rewrite H.
Qed.

(** C8 at the over-long address of the test suite, and at the empty
    string. *)
Lemma isValidEmail_length_witness :
  isValidEmail (Repeat "a" 250 +:+ "@example.com") = false /\
  isValidEmail "" = false.
Proof.
  split.
  - apply (isValidEmail_length (Repeat "a" 250 +:+ "@example.com")).
    left. vm_compute. reflexivity.
  - apply (isValidEmail_length ""). right. vm_compute. reflexivity.
Defined.

(** C8 as stated fails: a valid address followed by 249 spaces is 255
    bytes long and is accepted, the length being taken after trimming. *)
Lemma isValidEmail_padded_accepted :
  254 < len ("a@b.co" +:+ Repeat " " 249) /\
  isValidEmail ("a@b.co" +:+ Repeat " " 249) = true.
Proof. vm_compute. auto. Qed.

(** ** Validation of a message *)

Lemma lookup_append_error field reason (errors : gmap string (list string)) k :
  append_error field reason errors !! k =
  if decide (field = k)
  then Some (default [] (errors !! field) ++ [reason])
  else errors !! k.
Proof. unfold append_error. apply lookup_insert. Qed.

Lemma lookup_rule_ne (c : bool) field reason
    (errors : gmap string (list string)) k :
  field <> k ->
  (if c then append_error field reason errors else errors) !! k = errors !! k.
Proof.
  intros Hne. destruct c; [|done].
  rewrite lookup_append_error. by case_decide.
Qed.

Lemma lookup_rule_eq (c : bool) field reason
    (errors : gmap string (list string)) :
  errors !! field = None ->
  (if c then append_error field reason errors else errors) !! field =
  if c then Some [reason] else None.
Proof.
  intros Hnone. destruct c; [|done].
  rewrite lookup_append_error, Hnone. by case_decide.
Qed.

Lemma lookup_rule2_ne (c1 c2 : bool) field reason1 reason2
    (errors : gmap string (list string)) k :
  field <> k ->
  (if c1 then append_error field reason1 errors
   else if c2 then append_error field reason2 errors else errors) !! k
  = errors !! k.
Proof.
  intros Hne. destruct c1, c2; try done;
    rewrite lookup_append_error; by case_decide.
Qed.

Lemma lookup_rule2_eq (c1 c2 : bool) field reason1 reason2
    (errors : gmap string (list string)) :
  errors !! field = None ->
  (if c1 then append_error field reason1 errors
   else if c2 then append_error field reason2 errors else errors) !! field
  = if c1 then Some [reason1] else if c2 then Some [reason2] else None.
Proof.
  intros Hnone. destruct c1, c2; try done;
    rewrite lookup_append_error, Hnone; by case_decide.
Qed.

Lemma validation_errors_lookup e k :
  validation_errors e !! k = reasons_for e k.
Proof.
  unfold validation_errors, reasons_for. cbv zeta.
  repeat case_decide; subst;
    rewrite ?lookup_rule_ne by done;
    rewrite ?lookup_rule2_ne by done;
    first [ rewrite lookup_rule_eq | rewrite lookup_rule2_eq | idtac ];
    rewrite ?lookup_rule_ne by done;
    rewrite ?lookup_rule2_ne by done;
    try apply lookup_empty;
    by repeat match goal with
              | |- context [isValidEmail ?s] => destruct (isValidEmail s)
              end.
Qed.

Lemma Validate_None e : Validate e = None <-> validation_errors e = ∅.
Proof.
  unfold Validate. rewrite <- map_size_empty_iff.
  destruct (size (validation_errors e)) eqn:E; simpl; split; try done.
Qed.

Lemma Validate_Some e err :
  Validate e = Some err ->
  err = IsValidationError
          (NewValidationError "Email validation failed" (validation_errors e))
  /\ validation_errors e <> ∅.
Proof.
  intros H. split.
  - unfold Validate in H.
    destruct (0 <? Z.of_nat (size (validation_errors e))); congruence.
  - intros E%Validate_None. congruence.
Qed.

Lemma reasons_for_nonempty e k reasons :
  reasons_for e k = Some reasons -> reasons <> [].
Proof.
  unfold reasons_for.
  repeat case_decide;
    repeat match goal with
           | |- context [if ?b then _ else _] => destruct b
           end; congruence.
Qed.

Lemma reasons_for_keys e k :
  k ∉ ["from"; "to"; "subject"; "content"; "html"; "text"] ->
  reasons_for e k = None.
Proof.
  intros Hk. unfold reasons_for.
  repeat case_decide; subst; try done; exfalso; apply Hk; set_solver.
Qed.

Lemma Validate_reports e k reasons :
  reasons_for e k = Some reasons ->
  exists ve, Validate e = Some (IsValidationError ve) /\
             Errors ve !! k = Some reasons.
Proof.
  intros Hk. rewrite <- validation_errors_lookup in Hk.
  destruct (Validate e) as [err|] eqn:E.
  - apply Validate_Some in E as [-> _]. eexists. split; [done|]. exact Hk.
  - apply Validate_None in E. rewrite E, lookup_empty in Hk. done.
Qed.

Lemma Validate_passes e :
  (forall k, reasons_for e k = None) -> Validate e = None.
Proof.
  intros H. apply Validate_None, map_empty. intros k.
  by rewrite validation_errors_lookup.
Qed.

(** C2: [Validate] collects the reasons of every violated rule in the
    mapping [errors], under the keys from, to, subject, content, html and
    text and no other; what is stored under a key depends on that rule
    alone, so no rule hides another; every stored list of reasons is
    non-empty; the result is nil exactly when the mapping is empty, and
    otherwise the [ValidationError] carrying the mapping.  A message whose
    from is missing (blank) gets an error with the key from; a message
    with valid from, to and subject, html and text both populated and
    within the size limit, gets nil. *)
Theorem Validate_accumulates :
  (forall e k, validation_errors e !! k = reasons_for e k) /\
  (forall e k, is_Some (validation_errors e !! k) ->
               k ∈ ["from"; "to"; "subject"; "content"; "html"; "text"]) /\
  (forall e k reasons,
     validation_errors e !! k = Some reasons -> reasons <> []) /\
  (forall e, Validate e = None <-> validation_errors e = ∅) /\
  (forall e err,
     Validate e = Some err ->
     err = IsValidationError
             (NewValidationError "Email validation failed"
                (validation_errors e))) /\
  (forall e, String.eqb (TrimSpace (From e)) "" = true ->
     exists ve, Validate e = Some (IsValidationError ve) /\
                is_Some (Errors ve !! "from")) /\
  (forall e,
     isValidEmail (From e) = true -> isValidEmail (To e) = true ->
     String.eqb (TrimSpace (Subject e)) "" = false ->
     String.eqb (TrimSpace (HTML e)) "" = false ->
     String.eqb (TrimSpace (Text e)) "" = false ->
     len (HTML e) <= MaxContentSize -> len (Text e) <= MaxContentSize ->
     Validate e = None) /\
  (exists ve,
     Validate (mkEmail "" "to@example.com" "Test Subject" "<h1>Hello</h1>" "")
     = Some (IsValidationError ve) /\ is_Some (Errors ve !! "from")) /\
  Validate (mkEmail "from@example.com" "to@example.com" "Test Subject"
              "<h1>Hello</h1>" "Hello World") = None.
Proof.
  split; [exact validation_errors_lookup|].
  split.
  { intros e k [r Hr]. rewrite validation_errors_lookup in Hr.
    destruct (decide (k ∈ ["from"; "to"; "subject"; "content"; "html"; "text"]))
      as [|Hk]; [done|].
    by rewrite reasons_for_keys in Hr. }
  split.
  { intros e k r. rewrite validation_errors_lookup.
    apply reasons_for_nonempty. }
  split; [exact Validate_None|].
  split; [intros e err H; by apply Validate_Some in H as [-> _]|].
  split.
  { intros e H.
    destruct (Validate_reports e "from" ["From address is required"])
      as (ve & Hve & Hk).
    - unfold reasons_for. rewrite decide_True by done. by rewrite H.
    - exists ve. split; [done|]. by rewrite Hk. }
  split.
  { intros e Hf Ht Hs Hh Hx Hlh Hlx. apply Validate_passes. intros k.
    unfold reasons_for. rewrite Hf, Ht, Hs, Hh.
    assert (isValidEmail (From e) = true ->
            String.eqb (TrimSpace (From e)) "" = false) as Hnb.
    { unfold isValidEmail. destruct (String.eqb_spec (TrimSpace (From e)) "")
        as [->|]; [done|done]. }
    assert (isValidEmail (To e) = true ->
            String.eqb (TrimSpace (To e)) "" = false) as Hnb'.
    { unfold isValidEmail. destruct (String.eqb_spec (TrimSpace (To e)) "")
        as [->|]; [done|done]. }
    rewrite Hnb, Hnb' by done.
    replace (MaxContentSize <? len (HTML e)) with false by lia.
    replace (MaxContentSize <? len (Text e)) with false by lia.
    by repeat case_decide. }
  split.
  { eexists. split; [vm_compute; reflexivity|]. vm_compute. eauto. }
  vm_compute. reflexivity.
Qed.

(** C2 at the messages of the test suite: a missing from address, and a
    message that is valid throughout. *)
Lemma Validate_accumulates_witness :
  (exists ve,
     Validate (mkEmail "  " "to@example.com" "Test Subject" "<h1>Hello</h1>" "")
     = Some (IsValidationError ve) /\ is_Some (Errors ve !! "from")) /\
  Validate (mkEmail "from@example.com" "to@example.com" "Test Subject"
              "<h1>Hello</h1>" "Hello") = None.
Proof.
  split.
  - apply (proj1 (proj2 (proj2 (proj2 (proj2 (proj2 Validate_accumulates)))))
             (mkEmail "  " "to@example.com" "Test Subject" "<h1>Hello</h1>" "")).
    vm_compute. reflexivity.
  - apply (proj1 (proj2 (proj2 (proj2 (proj2 (proj2 (proj2
             Validate_accumulates))))))
             (mkEmail "from@example.com" "to@example.com" "Test Subject"
                "<h1>Hello</h1>" "Hello"));
      vm_compute; first [reflexivity | discriminate].
Defined.

(** C6: the size rule of a content field fires exactly when the field is
    longer than [MaxContentSize] bytes, whatever the other fields hold: an
    html field of 10 MiB + 1 bytes gets an error with the key html, one
    of exactly 10 MiB gets none under that key, and the same for text;
    the rule is independent of the blank-content rule, with which it can
    fire at once. *)
Theorem content_size_limit e :
  (validation_errors e !! "html" =
     if MaxContentSize <? len (HTML e)
     then Some ["HTML content exceeds maximum size limit"] else None) /\
  (validation_errors e !! "text" =
     if MaxContentSize <? len (Text e)
     then Some ["Text content exceeds maximum size limit"] else None) /\
  (len (HTML e) = 10 * 1024 * 1024 + 1 ->
     exists ve, Validate e = Some (IsValidationError ve) /\
                is_Some (Errors ve !! "html")) /\
  (len (HTML e) = 10 * 1024 * 1024 -> validation_errors e !! "html" = None) /\
  (len (Text e) = 10 * 1024 * 1024 + 1 ->
     exists ve, Validate e = Some (IsValidationError ve) /\
                is_Some (Errors ve !! "text")) /\
  (len (Text e) = 10 * 1024 * 1024 -> validation_errors e !! "text" = None) /\
  (MaxContentSize < len (HTML e) ->
   String.eqb (TrimSpace (HTML e)) "" = true ->
   String.eqb (TrimSpace (Text e)) "" = true ->
   is_Some (validation_errors e !! "html") /\
   is_Some (validation_errors e !! "content")).
Proof.
  rewrite !validation_errors_lookup.
  assert (reasons_for e "html" =
          if MaxContentSize <? len (HTML e)
          then Some ["HTML content exceeds maximum size limit"] else None)
    as Hh by (unfold reasons_for; by repeat case_decide).
  assert (reasons_for e "text" =
          if MaxContentSize <? len (Text e)
          then Some ["Text content exceeds maximum size limit"] else None)
    as Ht by (unfold reasons_for; by repeat case_decide).
  assert (reasons_for e "content" =
          if String.eqb (TrimSpace (HTML e)) "" &&
             String.eqb (TrimSpace (Text e)) ""
          then Some ["At least one content type (html or text) is required"]
          else None)
    as Hc by (unfold reasons_for; by repeat case_decide).
  unfold MaxContentSize in *.
  repeat split; try done.
  - intros Hl. rewrite Hl in Hh.
    destruct (Validate_reports e "html" _ Hh) as (ve & Hve & Hk).
    exists ve. split; [done|]. by rewrite Hk.
  - intros Hl. by rewrite Hh, Hl.
  - intros Hl. rewrite Hl in Ht.
    destruct (Validate_reports e "text" _ Ht) as (ve & Hve & Hk).
    exists ve. split; [done|]. by rewrite Hk.
  - intros Hl. by rewrite Ht, Hl.
  - rewrite Hh. replace (10 * 1024 * 1024 <? len (HTML e)) with true by lia.
    done.
  - rewrite Hc, H0, H1. done.
Qed.

(** C6 at a message whose html is 10 MiB + 1 bytes of filler. *)
Lemma content_size_limit_witness :
  exists ve,
    Validate (mkEmail "from@example.com" "to@example.com" "Test Subject"
                (Repeat "a" (Z.to_nat (MaxContentSize + 1))) "")
    = Some (IsValidationError ve) /\ is_Some (Errors ve !! "html").
Proof.
  apply (proj1 (proj2 (proj2 (content_size_limit
           (mkEmail "from@example.com" "to@example.com" "Test Subject"
              (Repeat "a" (Z.to_nat (MaxContentSize + 1))) ""))))).
  cbn [HTML]. rewrite len_Repeat_byte, Z2Nat.id; [reflexivity | done].
Defined.

(** ** The response classifier *)

Lemma HasPrefix_spec s p : HasPrefix s p = true <-> exists b, s = p +:+ b.
Proof.
  revert s. induction p as [|c p IH]; intros s.
  - destruct s; simpl; split; eauto.
  - destruct s as [|a s]; simpl.
    + split; [done|]. intros [b Hb]. discriminate.
    + rewrite andb_true_iff, IH. split.
      * intros [->%Ascii.eqb_eq [b ->]]. by exists b.
      * intros [b Hb]. rewrite app_cons_s in Hb. injection Hb as -> ->.
        split; [apply Ascii.eqb_refl | eauto].
Qed.

(** [strings.Contains] is the search for an occurrence. *)
Lemma Contains_spec s p : Contains s p = true <-> occurs p s.
Proof.
  unfold occurs. induction s as [|c s IH].
  - change (Contains "" p) with (HasPrefix "" p || false).
    rewrite orb_false_r, HasPrefix_spec. split.
    + intros [b ->]. by exists "", b.
    + intros (a & b & E). destruct a; [by exists b|discriminate].
  - change (Contains (String c s) p)
      with (HasPrefix (String c s) p || Contains s p).
    rewrite orb_true_iff, HasPrefix_spec, IH. split.
    + intros [[b ->]|(a & b & ->)]; [by exists "", b|].
      by exists (String c a), b.
    + intros (a & b & E). destruct a as [|c' a].
      * left. by exists b.
      * right. rewrite app_cons_s in E. injection E as -> ->. eauto.
Qed.

Lemma Contains_false s p : Contains s p = false <-> ~ occurs p s.
Proof. rewrite <- Contains_spec. by destruct (Contains s p). Qed.

(** C1: for status 202 the classifier decodes the body as an
    [EmailResponse] (success, message, error) and returns it as it was
    decoded, its success flag untouched; when decoding fails the result is
    a [NetworkError] with the message "Failed to parse response".  The
    body with success true and the message "Email queued" gives a result
    with that message, and a body with success false gives a result whose
    success is false. *)
Theorem classify_accepted :
  (forall header body url,
     match EmailResponse.Unmarshal body with
     | (response, true) =>
         classify 202 header body url = (Some response, None)
     | (_, false) =>
         exists e,
           classify 202 header body url = (None, Some (IsNetworkError e)) /\
           Message (NetworkError_Base e) = "Failed to parse response"
     end) /\
  classify 202 ∅ (GoJSON.sq "{'success':true,'message':'Email queued'}") ""
  = (Some (EmailResponse.mk true "Email queued" ""), None) /\
  classify 202 ∅ (GoJSON.sq "{'success':false,'message':'Not queued'}") ""
  = (Some (EmailResponse.mk false "Not queued" ""), None) /\
  (exists e,
     classify 202 ∅ (GoJSON.sq "{'success':true,'message':") ""
     = (None, Some (IsNetworkError e)) /\
     Message (NetworkError_Base e) = "Failed to parse response").
Proof.
  split.
  { intros header body url.
    change (classify 202 header body url) with (parseSuccessResponse body).
    unfold parseSuccessResponse.
    destruct (EmailResponse.Unmarshal body) as [response [|]]; simpl; eauto. }
  split; [vm_compute; reflexivity|].
  split; [vm_compute; reflexivity|].
  eexists. split; vm_compute; reflexivity.
Qed.

(** C3: for status 402 the result is a [SubscriptionError]; when the body
    decodes, its error type is found by searching the decoded message for
    "expired", then "trial", then "limit", in this order of precedence,
    and is unknown when none occurs; when the body fails to decode, the
    message is "Subscription error" and the type is unknown. *)
Theorem classify_payment_required :
  (forall header body url,
     exists e,
       classify 402 header body url = (None, Some (IsSubscriptionError e)) /\
       Code (SubscriptionError_Base e) = 402 /\
       match GoJSON.Unmarshal fields_message_error body with
       | (apiResponse, true) =>
           let message := GoJSON.string_field apiResponse "message" in
           ErrorType e =
             (if Contains message "expired" then "subscription_expired"
              else if Contains message "trial" then "trial_limit_reached"
              else if Contains message "limit" then "limit_reached"
              else "unknown") /\
           (occurs "expired" message ->
              ErrorType e = "subscription_expired") /\
           (~ occurs "expired" message -> occurs "trial" message ->
              ErrorType e = "trial_limit_reached") /\
           (~ occurs "expired" message -> ~ occurs "trial" message ->
            occurs "limit" message -> ErrorType e = "limit_reached") /\
           (~ occurs "expired" message -> ~ occurs "trial" message ->
            ~ occurs "limit" message -> ErrorType e = "unknown")
       | (_, false) =>
           Message (SubscriptionError_Base e) = "Subscription error" /\
           ErrorType e = "unknown"
       end) /\
  (exists e,
     classify 402 ∅ (GoJSON.sq "{'message':'Your trial limit has expired'}") ""
     = (None, Some (IsSubscriptionError e)) /\
     ErrorType e = "subscription_expired") /\
  (exists e,
     classify 402 ∅ (GoJSON.sq "{'message':'trial limit reached'}") ""
     = (None, Some (IsSubscriptionError e)) /\
     ErrorType e = "trial_limit_reached") /\
  (exists e,
     classify 402 ∅ (GoJSON.sq "{'message':'Monthly limit reached'}") ""
     = (None, Some (IsSubscriptionError e)) /\
     ErrorType e = "limit_reached") /\
  (exists e,
     classify 402 ∅ (GoJSON.sq "{'message':'Payment required'}") ""
     = (None, Some (IsSubscriptionError e)) /\ ErrorType e = "unknown") /\
  (exists e,
     classify 402 ∅ "<html>" ""
     = (None, Some (IsSubscriptionError e)) /\
     Message (SubscriptionError_Base e) = "Subscription error" /\
     ErrorType e = "unknown").
Proof.
  split.
  { intros header body url.
    change (classify 402 header body url)
      with (@None EmailResponse.t, Some (parseSubscriptionError body)).
    unfold parseSubscriptionError.
    destruct (GoJSON.Unmarshal fields_message_error body)
      as [apiResponse [|]]; cbv zeta; cbv [negb];
      eexists; (split; [reflexivity|]); (split; [reflexivity|]);
      [|done].
    cbn [ErrorType NewSubscriptionError].
    set (message := GoJSON.string_field apiResponse "message").
    split; [done|].
    rewrite <- !Contains_false, <- !Contains_spec.
    destruct (Contains message "expired"), (Contains message "trial"),
      (Contains message "limit"); repeat split; intros; congruence. }
  repeat split; eexists; repeat split; vm_compute; reflexivity.
Qed.

(** *** Header names and header values *)

Lemma canonical_to_lower up l :
  GoHTTP.canonical up l = GoHTTP.canonical up (map to_lower l).
Proof.
  revert up. induction l as [|c l IH]; intros up; [done|].
  simpl. rewrite IH.
  assert (forall up c,
            (if up && byte_between "a" "z" c
             then GoJSON.byte (GoJSON.code c - 32)
             else if negb up && byte_between "A" "Z" c
                  then GoJSON.byte (GoJSON.code c + 32) else c) =
            (if up && byte_between "a" "z" (to_lower c)
             then GoJSON.byte (GoJSON.code (to_lower c) - 32)
             else if negb up && byte_between "A" "Z" (to_lower c)
                  then GoJSON.byte (GoJSON.code (to_lower c) + 32)
                  else to_lower c)) as Hc.
  { clear. intros [] [[] [] [] [] [] [] [] []]; vm_compute; reflexivity. }
  by rewrite <- Hc.
Qed.

Lemma valid_to_lower l :
  forallb GoHTTP.validHeaderFieldByte (map to_lower l) =
  forallb GoHTTP.validHeaderFieldByte l.
Proof.
  induction l as [|c l IH]; [done|]. simpl. rewrite IH. f_equal.
  clear. destruct c as [[] [] [] [] [] [] [] []]; vm_compute; reflexivity.
Qed.

Lemma EqualFold_lower s t :
  EqualFold s t = true ->
  map to_lower (bytes_of s) = map to_lower (bytes_of t).
Proof.
  revert t. induction s as [|a s IH]; intros [|b t]; simpl; try done.
  intros [->%Ascii.eqb_eq H]%andb_prop. by rewrite (IH t).
Qed.

(** Two names that differ in case only have one canonical form, when
    they are made of token bytes. *)
Lemma Canonical_EqualFold s t :
  EqualFold s t = true ->
  forallb GoHTTP.validHeaderFieldByte (bytes_of t) = true ->
  GoHTTP.CanonicalMIMEHeaderKey s = GoHTTP.CanonicalMIMEHeaderKey t.
Proof.
  intros E%EqualFold_lower Hv. unfold GoHTTP.CanonicalMIMEHeaderKey.
  rewrite <- (valid_to_lower (bytes_of s)), E, valid_to_lower, Hv.
  by rewrite (canonical_to_lower _ (bytes_of s)), E, <- canonical_to_lower.
Qed.

Lemma parse_digits_digit acc l n :
  GoStrconv.parse_digits acc l = Some n -> forallb digit l = true.
Proof.
  revert acc. induction l as [|c l IH]; intros acc; [done|].
  simpl. unfold GoStrconv.digit_value, digit.
  destruct (byte_between "0" "9" c); [|done]. simpl. apply IH.
Qed.

Lemma forallb_all_bytes p s : forallb p (bytes_of s) = all_bytes p s.
Proof. induction s as [|c s IH]; [done|]. simpl. by rewrite IH. Qed.

Lemma digits_numeric l n :
  l <> [] -> GoStrconv.parse_digits 0 l = Some n ->
  negb (String.eqb (of_bytes l) "") && all_bytes digit (of_bytes l) = true.
Proof.
  intros Hl H%parse_digits_digit.
  rewrite <- forallb_all_bytes. unfold bytes_of, of_bytes.
  rewrite list_ascii_of_string_of_list_ascii, H.
  destruct l; [done|done].
Qed.

(** What [ParseInt] accepts is a numeral. *)
Lemma ParseInt_numeric s bitSize n :
  GoStrconv.ParseInt s bitSize = Some n -> numeric s = true.
Proof.
  unfold GoStrconv.ParseInt, numeric.
  assert (forall (neg : bool) (l : list ascii),
    match l with
    | [] => None
    | _ :: _ =>
        match GoStrconv.parse_digits 0 l with
        | Some un =>
            let n := if neg then - un else un in
            if (- 2 ^ (bitSize - 1) <=? n) && (n <? 2 ^ (bitSize - 1))
            then Some n else None
        | None => None
        end
    end = Some n ->
    negb (String.eqb (of_bytes l) "") && all_bytes digit (of_bytes l) = true)
    as Hgen.
  { intros neg l H. destruct l as [|c l]; [done|].
    destruct (GoStrconv.parse_digits 0 (c :: l)) as [un|] eqn:E; [|done].
    by apply (digits_numeric (c :: l) un). }
  destruct s as [|c s]; [done|].
  destruct (Ascii.eqb_spec c "+") as [->|Hp].
  { intros H. apply (Hgen false (bytes_of s)) in H.
    unfold of_bytes, bytes_of in H.
    by rewrite string_of_list_ascii_of_string in H. }
  destruct (Ascii.eqb_spec c "-") as [->|Hm].
  { intros H. apply (Hgen true (bytes_of s)) in H.
    unfold of_bytes, bytes_of in H.
    by rewrite string_of_list_ascii_of_string in H. }
  assert (match bytes_of (String c s) with
          | "+"%char :: l => (false, l)
          | "-"%char :: l => (true, l)
          | l => (false, l)
          end = (false, c :: bytes_of s)) as E1.
  { simpl. destruct c as [[] [] [] [] [] [] [] []]; try done. }
  assert (match String c s with
          | String "+"%char s' => s'
          | String "-"%char s' => s'
          | _ => String c s
          end = String c s) as E2.
  { destruct c as [[] [] [] [] [] [] [] []]; try done. }
  rewrite E1, E2. intros H. apply (Hgen false (c :: bytes_of s)) in H. unfold of_bytes in H.
  change (c :: bytes_of s) with (list_ascii_of_string (String c s)) in H.
  by rewrite string_of_list_ascii_of_string in H.
Qed.

Lemma header_int_default parse (h : GoHTTP.Header) key :
  GoHTTP.Get h key = "" \/ parse (GoHTTP.Get h key) = None ->
  header_int parse h key = 0.
Proof.
  unfold header_int. intros [-> | ->]; [done|].
  by destruct (negb (String.eqb (GoHTTP.Get h key) "")).
Qed.

Lemma Get_absent (h : GoHTTP.Header) key :
  h !! GoHTTP.CanonicalMIMEHeaderKey key = None -> GoHTTP.Get h key = "".
Proof. unfold GoHTTP.Get. by intros ->. Qed.

Lemma Get_Set (h : GoHTTP.Header) name key v :
  GoHTTP.CanonicalMIMEHeaderKey name = GoHTTP.CanonicalMIMEHeaderKey key ->
  GoHTTP.Get (GoHTTP.Set_ h name v) key = v.
Proof.
  intros E. unfold GoHTTP.Get, GoHTTP.Set_. by rewrite E, lookup_insert_eq.
Qed.

Lemma rate_limit_headers_valid key :
  key ∈ rate_limit_headers ->
  forallb GoHTTP.validHeaderFieldByte (bytes_of key) = true.
Proof.
  unfold rate_limit_headers. rewrite !elem_of_cons, elem_of_nil.
  intros [->|[->|[->|[->|[]]]]]; vm_compute; reflexivity.
Qed.

(** C4: for status 429 the result is a [RateLimitError] whose retryAfter,
    limit and remaining are the headers retry-after, ratelimit-limit and
    ratelimit-remaining read with [Atoi], and whose reset is the header
    ratelimit-reset read as a 64-bit integer; a header that is absent, or
    whose value is no numeral, reads as 0; the name under which a header
    was set may differ in case from the name it is read by; an error of
    decoding the body is dropped, and when the decoded message is empty
    the message is "Rate limit exceeded. Retry after N seconds." with N the
    retryAfter.  The response of the test suite gives 60, 100, 0 and
    1678886400. *)
Theorem classify_rate_limit :
  (forall header body url,
     exists e,
       classify 429 header body url = (None, Some (IsRateLimitError e)) /\
       RetryAfter e = header_int GoStrconv.Atoi header "retry-after" /\
       Limit e = header_int GoStrconv.Atoi header "ratelimit-limit" /\
       Remaining e = header_int GoStrconv.Atoi header "ratelimit-remaining" /\
       Reset e = header_int (fun s => GoStrconv.ParseInt s 64) header
                   "ratelimit-reset" /\
       Message (RateLimitError_Base e) =
         (let message :=
            GoJSON.string_field
              (fst (GoJSON.Unmarshal fields_message_error body)) "message" in
          if String.eqb message ""
          then "Rate limit exceeded. Retry after " +:+ Itoa (RetryAfter e)
               +:+ " seconds."
          else message)) /\
  (forall parse (header : GoHTTP.Header) key n,
     GoHTTP.Get header key <> "" -> parse (GoHTTP.Get header key) = Some n ->
     header_int parse header key = n) /\
  (forall parse (header : GoHTTP.Header) key,
     header !! GoHTTP.CanonicalMIMEHeaderKey key = None ->
     header_int parse header key = 0) /\
  (forall (header : GoHTTP.Header) key,
     numeric (GoHTTP.Get header key) = false ->
     header_int GoStrconv.Atoi header key = 0 /\
     header_int (fun s => GoStrconv.ParseInt s 64) header key = 0) /\
  (forall key name parse (header : GoHTTP.Header) v,
     key ∈ rate_limit_headers -> EqualFold name key = true ->
     GoHTTP.Get header name = GoHTTP.Get header key /\
     GoHTTP.Get (GoHTTP.Set_ header name v) key = v /\
     header_int parse (GoHTTP.Set_ header name v) key =
     header_int parse (GoHTTP.Set_ header key v) key) /\
  (exists e,
     classify 429
       (<["Retry-After" := ["60"]]>
          (<["Ratelimit-Limit" := ["100"]]>
             (<["Ratelimit-Remaining" := ["0"]]>
                (<["Ratelimit-Reset" := ["1678886400"]]> ∅))))
       (GoJSON.sq "{'message':'Rate limit exceeded'}") ""
     = (None, Some (IsRateLimitError e)) /\
     Message (RateLimitError_Base e) = "Rate limit exceeded" /\
     RetryAfter e = 60 /\ Limit e = 100 /\ Remaining e = 0 /\
     Reset e = 1678886400) /\
  (exists e,
     classify 429 (<["Retry-After" := ["60"]]> (<["Ratelimit-Limit" := ["many"]]> ∅))
       "Too Many Requests" ""
     = (None, Some (IsRateLimitError e)) /\
     Message (RateLimitError_Base e)
     = "Rate limit exceeded. Retry after 60 seconds." /\
     RetryAfter e = 60 /\ Limit e = 0 /\ Remaining e = 0 /\ Reset e = 0).
Proof.
  split.
  { intros header body url.
    change (classify 429 header body url)
      with (@None EmailResponse.t, Some (parseRateLimitError header body)).
    unfold parseRateLimitError.
    destruct (GoJSON.Unmarshal fields_message_error body) as [apiResponse ok].
    cbv zeta. eexists. split; [reflexivity|].
    cbn [RetryAfter Limit Remaining Reset NewRateLimitError
         RateLimitError_Base Message fst].
    repeat split.
    destruct (String.eqb (GoJSON.string_field apiResponse "message") "")
      eqn:E; [done|]. by rewrite E. }
  split.
  { intros parse header key n Hne Hn. unfold header_int. rewrite Hn.
    destruct (String.eqb_spec (GoHTTP.Get header key) ""); done. }
  split.
  { intros parse header key H. apply header_int_default. left.
    by apply Get_absent. }
  split.
  { intros header key Hn. split; apply header_int_default; right.
    - destruct (GoStrconv.Atoi (GoHTTP.Get header key)) as [n|] eqn:E;
        [|done].
      apply ParseInt_numeric in E. congruence.
    - destruct (GoStrconv.ParseInt (GoHTTP.Get header key) 64) as [n|] eqn:E;
        [|done].
      apply ParseInt_numeric in E. congruence. }
  split.
  { intros key name parse header v Hkey Hfold.
    pose proof (Canonical_EqualFold name key Hfold
                  (rate_limit_headers_valid key Hkey)) as Hc.
    split; [unfold GoHTTP.Get; by rewrite Hc|].
    split; [by apply Get_Set|].
    unfold header_int. by rewrite !Get_Set. }
  split.
  { eexists. split; [vm_compute; reflexivity|]. vm_compute. auto 10. }
  eexists. split; [vm_compute; reflexivity|]. vm_compute. auto 10.
Qed.

(** C4 at a response whose headers were set under upper-case names. *)
Lemma classify_rate_limit_witness :
  GoHTTP.Get (GoHTTP.Set_ ∅ "RETRY-AFTER" "60") "retry-after" = "60" /\
  header_int GoStrconv.Atoi (GoHTTP.Set_ ∅ "RETRY-AFTER" "60") "retry-after"
  = 60 /\
  header_int GoStrconv.Atoi (GoHTTP.Set_ ∅ "Retry-After" "soon") "retry-after"
  = 0 /\
  header_int GoStrconv.Atoi ∅ "ratelimit-limit" = 0.
Proof.
  pose proof classify_rate_limit as (_ & Hread & Habsent & Hnon & Hfold & _).
  split.
  { apply (Hfold "retry-after" "RETRY-AFTER" GoStrconv.Atoi ∅ "60");
      [constructor | vm_compute; reflexivity]. }
  split.
  { apply (Hread GoStrconv.Atoi (GoHTTP.Set_ ∅ "RETRY-AFTER" "60")
             "retry-after" 60); [vm_compute; discriminate|].
    vm_compute. reflexivity. }
  split.
  { apply (Hnon (GoHTTP.Set_ ∅ "Retry-After" "soon") "retry-after").
    vm_compute. reflexivity. }
  apply (Habsent GoStrconv.Atoi ∅ "ratelimit-limit"). apply lookup_empty.
Defined.

(** ** Sending *)

Example example_Marshal_test :
  example_Marshal exampleEmail =
  Some (GoJSON.sq "{'from':'from@example.com','to':'to@example.com','subject':'Test Subject','html':'\u003ch1\u003eHello\u003c/h1\u003e'}").
Proof. vm_compute. reflexivity. Qed.

Lemma classify_validation_code statusCode header body url r ve :
  classify statusCode header body url = (r, Some (IsValidationError ve)) ->
  Code (ValidationError_Base ve) = 400.
Proof.
  unfold classify, parseSuccessResponse, parseValidationError,
    parseAuthenticationError, parseSubscriptionError,
    parseAccountSuspendedError, parseRateLimitError, parseGenericError.
  repeat match goal with
         | |- context [if ?b then _ else _] => destruct b
         | |- context [let '(_, _) := ?p in _] => destruct p
         end;
    intros H; try discriminate H; injection H as _ <-; reflexivity.
Qed.

Section SendEmailProperties.

Context {rt : Runtime} {W : Type}.

Lemma SendEmail_invalid (c : HTTPClient W) email w err :
  Validate email = Some err -> SendEmail c email w = ((None, Some err), w).
Proof. unfold SendEmail. by intros ->. Qed.

Lemma SendEmail_valid (c : HTTPClient W) email w requestBody :
  Validate email = None -> Marshal email = Some requestBody ->
  NewRequestAccepts (endpoint (config c)) = true ->
  SendEmail c email w =
  (handle_response (config c) (endpoint (config c))
     (fst (GoHTTP.Do (httpClient c)
             (build_request (config c) requestBody) w)),
   snd (GoHTTP.Do (httpClient c) (build_request (config c) requestBody) w)).
Proof.
  unfold SendEmail. intros -> -> ->. simpl.
  by destruct (GoHTTP.Do _ _ _).
Qed.

Lemma handle_response_validation_code cfg url answer r ve :
  handle_response cfg url answer = (r, Some (IsValidationError ve)) ->
  Code (ValidationError_Base ve) = 400.
Proof.
  unfold handle_response. destruct answer as [resp|err].
  - destruct (GoHTTP.Body resp); [apply classify_validation_code|done].
  - by destruct (Contains err "timeout").
Qed.

Lemma SendEmail_validation_code (c : HTTPClient W) email w r ve w' :
  SendEmail c email w = ((r, Some (IsValidationError ve)), w') ->
  Code (ValidationError_Base ve) = 400.
Proof.
  unfold SendEmail.
  destruct (Validate email) as [err|] eqn:Ev.
  { apply Validate_Some in Ev as [-> _]. by intros [= <- <- <-]. }
  destruct (Marshal email) as [requestBody|]; [|done].
  destruct (NewRequestAccepts _); [|done]. simpl.
  destruct (GoHTTP.Do _ _ _) as [answer w1]. intros [= H _].
  by apply handle_response_validation_code in H.
Qed.

End SendEmailProperties.

(** C7: when the message fails validation, [SendEmail] returns the error
    of [Validate] and the transport is not called: its state is unchanged
    and no request was issued; a request is issued only when validation
    passes, and then (the message encoded, the request created) it is
    exactly one, a POST to the endpoint with the encoded message as body
    and the four headers, and the status, headers and body of the response
    it gets are what the classifier is given. *)
Theorem SendEmail_validates_first :
  forall (rt : Runtime) (W : Type) (d : GoHTTP.HTTPDoer W) (cfg : Config)
         (email : Email) (w : W) (log : list GoHTTP.Request),
    let '(result, (w', log')) :=
      SendEmail (mkHTTPClient cfg (traced d)) email (w, log) in
    match Validate email with
    | Some err =>
        result = (None, Some err) /\ w' = w /\ log' = log /\
        exists ve, err = IsValidationError ve
    | None =>
        match Marshal email with
        | Some requestBody =>
            if NewRequestAccepts (endpoint cfg) then
              let req := build_request cfg requestBody in
              let '(answer, w1) := GoHTTP.Do d req w in
              log' = log ++ [req] /\ w' = w1 /\
              GoHTTP.Method req = "POST" /\
              GoHTTP.URL req =
                TrimRight (BaseURL cfg) "/" +:+ "/v1/send-email" /\
              GoHTTP.RequestBody req = requestBody /\
              GoHTTP.Get (GoHTTP.RequestHeader req) "Content-Type"
                = "application/json" /\
              GoHTTP.Get (GoHTTP.RequestHeader req) "Accept"
                = "application/json" /\
              GoHTTP.Get (GoHTTP.RequestHeader req) "Authorization"
                = "Bearer " +:+ APIKey cfg /\
              GoHTTP.Get (GoHTTP.RequestHeader req) "User-Agent"
                = "poodle-go/1.0.0" /\
              result = handle_response cfg (endpoint cfg) answer /\
              match answer with
              | inl resp =>
                  match GoHTTP.Body resp with
                  | Some responseBody =>
                      result = classify (GoHTTP.StatusCode resp)
                                 (GoHTTP.ResponseHeader resp) responseBody
                                 (endpoint cfg)
                  | None => True
                  end
              | inr _ => True
              end
            else w' = w /\ log' = log
        | None => w' = w /\ log' = log
        end
    end.
Proof.
  intros rt W d cfg email w log. unfold SendEmail.
  destruct (Validate email) as [err|] eqn:Ev.
  { repeat split. apply Validate_Some in Ev as [-> _]. eauto. }
  destruct (Marshal email) as [requestBody|]; [|by split].
  cbn [config].
  destruct (NewRequestAccepts (endpoint cfg)); cbn [negb]; [|by split].
  cbn [config httpClient negb traced GoHTTP.Do].
  destruct (GoHTTP.Do d (build_request cfg requestBody) w)
    as [answer w1] eqn:Ed.
  repeat split.
  destruct answer as [resp|err]; [|done].
  simpl. by destruct (GoHTTP.Body resp).
Qed.

(** C10: every [ValidationError] that comes out of [SendEmail], from the
    validation of the message or from the classification of a response
    of status 400 or 422, has the status code 400; a response of status
    422 is classified as a [ValidationError] of code 400, never 422. *)
Theorem ValidationError_code_400 :
  (forall (rt : Runtime) (W : Type) (c : HTTPClient W) email w r ve w',
     SendEmail c email w = ((r, Some (IsValidationError ve)), w') ->
     StatusCode (IsValidationError ve) = 400) /\
  (forall email ve,
     Validate email = Some (IsValidationError ve) ->
     StatusCode (IsValidationError ve) = 400) /\
  (forall statusCode header body url,
     statusCode = 400 \/ statusCode = 422 ->
     exists ve,
       classify statusCode header body url
       = (None, Some (IsValidationError ve)) /\
       StatusCode (IsValidationError ve) = 400 /\
       StatusCode (IsValidationError ve) <> 422).
Proof.
  split.
  { intros rt W c email w r ve w' H.
    by apply SendEmail_validation_code in H. }
  split.
  { intros email ve H. by apply Validate_Some in H as [[= ->] _]. }
  intros statusCode header body url Hs.
  assert (classify statusCode header body url
          = (None, Some (parseValidationError body))) as ->.
  { by destruct Hs as [-> | ->]. }
  unfold parseValidationError.
  destruct (GoJSON.Unmarshal fields_success_message_error body)
    as [apiResponse [|]]; cbv zeta; cbv [negb]; eexists;
    (split; [reflexivity|]); by split.
Qed.

(** C10 at a response of status 422. *)
Lemma ValidationError_code_400_witness :
  exists ve,
    fst (exampleSend exampleEmail response422)
    = (None, Some (IsValidationError ve)) /\
    StatusCode (IsValidationError ve) = 400.
Proof.
  eexists. split; [vm_compute; reflexivity|].
  eapply (proj1 ValidationError_code_400 exampleRuntime _
            (exampleClient response422) exampleEmail (tt, [])).
  vm_compute. reflexivity.
Defined.

Lemma NetworkError_codes (rt : Runtime) (W : Type) (c : HTTPClient W)
    email w r e w' :
  SendEmail c email w = ((r, Some (IsNetworkError e)), w') ->
  (StatusCode (IsNetworkError e) = 0 /\
   Context (IsNetworkError e) !! "error_type"
   = Some (CtxString "network_error")) \/
  (StatusCode (IsNetworkError e) = 408 /\
   Context (IsNetworkError e) !! "error_type"
   = Some (CtxString "connection_timeout")).
Proof.
  unfold SendEmail.
  destruct (Validate email) as [err|] eqn:Ev.
  { apply Validate_Some in Ev as [-> _]. discriminate. }
  destruct (Marshal email) as [requestBody|];
    [|intros [= <- <- <-]; by left].
  destruct (NewRequestAccepts _); cbn [negb];
    [|intros [= <- <- <-]; by left].
  destruct (GoHTTP.Do _ _ _) as [[resp|err] w1]; cbn [handle_response].
  - destruct (GoHTTP.Body resp) as [responseBody|];
      [|intros [= <- <- <-]; by left].
    unfold classify, parseSuccessResponse, parseValidationError,
      parseAuthenticationError, parseSubscriptionError,
      parseAccountSuspendedError, parseRateLimitError, parseGenericError.
    repeat match goal with
           | |- context [if ?b then _ else _] => destruct b
           | |- context [let '(_, _) := ?p in _] => destruct p
           end;
      intros H; try discriminate H; injection H as _ <- _; by left.
  - destruct (Contains err "timeout"); intros [= <- <- <-];
      [by right | by left].
Qed.

(** C9, as amended: a failure of the transport before any status code is
    obtained gives a [NetworkError] for the endpoint; its status code is
    0 and its type network_error, unless the failure text contains
    "timeout": then it is the variant tagged connection_timeout, which
    carries the configured timeout in seconds and the URL, and its status
    code is 408.  No [NetworkError] of a send has another code. *)
Theorem transport_failure_code :
  (forall (rt : Runtime) (W : Type) (c : HTTPClient W) email w
          requestBody err w1,
     Validate email = None -> Marshal email = Some requestBody ->
     NewRequestAccepts (endpoint (config c)) = true ->
     GoHTTP.Do (httpClient c) (build_request (config c) requestBody) w
     = (inr err, w1) ->
     exists e,
       SendEmail c email w = ((None, Some (IsNetworkError e)), w1) /\
       NetworkError_URL e = endpoint (config c) /\
       if Contains err "timeout"
       then StatusCode (IsNetworkError e) = 408 /\
            Context (IsNetworkError e) !! "error_type"
            = Some (CtxString "connection_timeout") /\
            Context (IsNetworkError e) !! "timeout"
            = Some (CtxInt (Seconds (Timeout (config c)))) /\
            Context (IsNetworkError e) !! "url"
            = Some (CtxString (endpoint (config c)))
       else StatusCode (IsNetworkError e) = 0 /\
            Context (IsNetworkError e) !! "error_type"
            = Some (CtxString "network_error") /\
            Message (NetworkError_Base e) = "Request failed: " +:+ err) /\
  (forall (rt : Runtime) (W : Type) (c : HTTPClient W) email w r e w',
     SendEmail c email w = ((r, Some (IsNetworkError e)), w') ->
     (StatusCode (IsNetworkError e) = 0 /\
      Context (IsNetworkError e) !! "error_type"
      = Some (CtxString "network_error")) \/
     (StatusCode (IsNetworkError e) = 408 /\
      Context (IsNetworkError e) !! "error_type"
      = Some (CtxString "connection_timeout"))).
Proof.
  split; [|exact NetworkError_codes].
  intros rt W c email w requestBody err w1 Hv Hm Hu Hd.
  rewrite (SendEmail_valid c email w requestBody Hv Hm Hu), Hd.
  cbn [fst snd handle_response].
  destruct (Contains err "timeout"); eexists;
    (split; [reflexivity|]); (split; [reflexivity|]); repeat split.
Qed.

(** C9 at a connection that is refused and at one that times out. *)
Lemma transport_failure_code_witness :
  (exists e,
     exampleSend exampleEmail (inr "dial tcp: connection refused")
     = ((None, Some (IsNetworkError e)),
        (tt, [build_request exampleConfig
                (default "" (example_Marshal exampleEmail))])) /\
     StatusCode (IsNetworkError e) = 0) /\
  (exists e,
     exampleSend exampleEmail (inr "dial tcp: i/o timeout")
     = ((None, Some (IsNetworkError e)),
        (tt, [build_request exampleConfig
                (default "" (example_Marshal exampleEmail))])) /\
     StatusCode (IsNetworkError e) = 408).
Proof.
  split.
  - destruct (proj1 transport_failure_code exampleRuntime _
                (exampleClient (inr "dial tcp: connection refused"))
                exampleEmail (tt, [])
                (default "" (example_Marshal exampleEmail))
                "dial tcp: connection refused"
                (tt, [build_request exampleConfig
                        (default "" (example_Marshal exampleEmail))]))
      as (e & He & _ & Hc & _);
      [vm_compute; reflexivity | vm_compute; reflexivity
      | vm_compute; reflexivity | vm_compute; reflexivity |].
    exists e. split; [exact He | exact Hc].
  - destruct (proj1 transport_failure_code exampleRuntime _
                (exampleClient (inr "dial tcp: i/o timeout"))
                exampleEmail (tt, [])
                (default "" (example_Marshal exampleEmail))
                "dial tcp: i/o timeout"
                (tt, [build_request exampleConfig
                        (default "" (example_Marshal exampleEmail))]))
      as (e & He & _ & Hc & _);
      [vm_compute; reflexivity | vm_compute; reflexivity
      | vm_compute; reflexivity | vm_compute; reflexivity |].
    exists e. split; [exact He | exact Hc].
Defined.

(** C9 as stated fails: a transport failure whose text is a timeout gives
    the [NetworkError] tagged connection_timeout, and its status code is
    408, not 0. *)
Lemma timeout_code_408 :
  exists e,
    fst (exampleSend exampleEmail (inr "dial tcp: i/o timeout"))
    = (None, Some (IsNetworkError e)) /\
    snd (snd (exampleSend exampleEmail (inr "dial tcp: i/o timeout")))
    = [build_request exampleConfig
         (default "" (example_Marshal exampleEmail))] /\
    Context (IsNetworkError e) !! "error_type"
    = Some (CtxString "connection_timeout") /\
    StatusCode (IsNetworkError e) = 408 /\
    StatusCode (IsNetworkError e) <> 0.
Proof.
  eexists. split; [vm_compute; reflexivity|].
  split; [vm_compute; reflexivity|].
  split; [vm_compute; reflexivity|].
  split; [reflexivity | discriminate].
Qed.

(** The sends of the test suite: an invalid sender issues no request; a
    valid message issues one POST and the answer is classified. *)
Example exampleSend_invalid :
  exists ve,
    exampleSend (mkEmail "invalid" "to@example.com" "Test Subject"
                   "<h1>Hello</h1>" "") response422
    = ((None, Some (IsValidationError ve)), (tt, [])) /\
    Errors ve !! "from" = Some ["From address is not a valid email"].
Proof. eexists. split; vm_compute; reflexivity. Qed.

Example exampleSend_accepted :
  exampleSend exampleEmail
    (inl (GoHTTP.mkResponse 202 ∅
            (Some (GoJSON.sq "{'success': true, 'message': 'Email queued'}"))))
  = ((Some (EmailResponse.mk true "Email queued" ""), None),
     (tt, [build_request exampleConfig
             (default "" (example_Marshal exampleEmail))])).
Proof. vm_compute. reflexivity. Qed.

(** ** The models of the Go packages on sample inputs *)

Example parse_test1 :
  GoJSON.parse (GoJSON.sq "{'success': true, 'message': 'Email queued'}")
  = Some (GoJSON.Object [("success", GoJSON.Bool true);
                         ("message", GoJSON.Str "Email queued")]).
Proof. vm_compute. reflexivity. Qed.
Example parse_test2 :
  GoJSON.parse (GoJSON.sq " [1, -2.5e+3, null, {'a':[]}, 'xé\n'] ")
  = Some (GoJSON.Array [GoJSON.Number "1"; GoJSON.Number "-2.5e+3"; GoJSON.Null;
        GoJSON.Object [("a", GoJSON.Array [])]; GoJSON.Str (String "x" (String "195" (String "169" (String "010" ""))))]).
Proof. vm_compute. reflexivity. Qed.
Example parse_test3 :
  GoJSON.parse (GoJSON.sq "{'a':01}") = None /\ GoJSON.parse "" = None
  /\ GoJSON.parse (GoJSON.sq "{'a':1,}") = None /\ GoJSON.parse "nul" = None
  /\ GoJSON.parse "null x" = None /\ GoJSON.parse "[1 2]" = None
  /\ GoJSON.parse (GoJSON.sq "'😀'") = Some (GoJSON.Str (String "240" (String "159" (String "152" (String "128" ""))))).
Proof. vm_compute. repeat split. Qed.
Example Atoi_test : GoStrconv.Atoi "60" = Some 60 /\ GoStrconv.Atoi "-7" = Some (-7)
  /\ GoStrconv.Atoi "" = None /\ GoStrconv.Atoi "+" = None /\ GoStrconv.Atoi "1a" = None
  /\ GoStrconv.Atoi "9223372036854775807" = Some 9223372036854775807
  /\ GoStrconv.Atoi "9223372036854775808" = None /\ GoStrconv.Atoi "-9223372036854775808" = Some (-9223372036854775808).
Proof. vm_compute. repeat split. Qed.

(** The table of [TestIsValidEmail]. *)
Example TestIsValidEmail :
  map isValidEmail
    ["test@example.com"; "user.name@example.com"; "user+tag@example.com";
     "user123@example-domain.com"; ""; "invalid"; "@example.com"; "test@";
     "test@.com"; "test..test@example.com";
     Repeat "a" 250 +:+ "@example.com"]
  = [true; true; true; true; false; false; false; false; false; false; false].
Proof. vm_compute. reflexivity. Qed.

(** The table of [TestEmailValidation], but for its two oversized
    messages: the keys under which each message is reported. *)
Example TestEmailValidation :
  map (fun e => map fst (map_to_list (validation_errors e)))
    [mkEmail "from@example.com" "to@example.com" "Test Subject"
       "<h1>Hello</h1>" "";
     mkEmail "from@example.com" "to@example.com" "Test Subject"
       "" "Hello World";
     mkEmail "from@example.com" "to@example.com" "Test Subject"
       "<h1>Hello</h1>" "Hello World";
     mkEmail "" "to@example.com" "Test Subject" "<h1>Hello</h1>" "";
     mkEmail "invalid-email" "to@example.com" "Test Subject"
       "<h1>Hello</h1>" "";
     mkEmail "from@example.com" "" "Test Subject" "<h1>Hello</h1>" "";
     mkEmail "from@example.com" "invalid-email" "Test Subject"
       "<h1>Hello</h1>" "";
     mkEmail "from@example.com" "to@example.com" "" "<h1>Hello</h1>" "";
     mkEmail "from@example.com" "to@example.com" "Test Subject" "" ""]
  = [[]; []; []; ["from"]; ["from"]; ["to"]; ["to"]; ["subject"];
     ["content"]].
Proof. vm_compute. reflexivity. Qed.

(** Rules that fire together are all reported. *)
Example Validate_reports_all :
  validation_errors (mkEmail " " "nobody" "" " " "")
  = <["from" := ["From address is required"]]>
      (<["to" := ["To address is not a valid email"]]>
         (<["subject" := ["Subject is required"]]>
            (<["content" :=
                 ["At least one content type (html or text) is required"]]>
               ∅))).
Proof. vm_compute. reflexivity. Qed.

(** ** Properties beyond the claims *)

(** *** The classifier, status by status *)

Lemma classify_other statusCode header body url :
  statusCode ∉ named_statuses ->
  classify statusCode header body url
  = (None, Some (parseGenericError statusCode body url)).
Proof.
  unfold named_statuses. rewrite !not_elem_of_cons. intros (?&?&?&?&?&?&?&_).
  unfold classify, StatusAccepted, StatusBadRequest, StatusUnauthorized,
    StatusPaymentRequired, StatusForbidden, StatusUnprocessableEntity,
    StatusTooManyRequests.
  repeat match goal with
         | |- context [?a =? ?b] =>
             replace (a =? b) with false by (symmetry; apply Z.eqb_neq; done)
         end.
  done.
Qed.

Lemma Itoa_message_nonempty (pre post : string) n :
  pre <> "" -> pre +:+ Itoa n +:+ post <> "".
Proof. destruct pre; [done | discriminate]. Qed.

(** X1: for every status but 202 the classifier returns an error and no
    response, and the status code of the error is the status of the
    response, but for 422, which is reported as 400. *)
Theorem classify_status_code statusCode header body url :
  statusCode <> 202 ->
  exists err,
    classify statusCode header body url = (None, Some err) /\
    StatusCode err = (if statusCode =? 422 then 400 else statusCode).
Proof.
  intros H202.
  destruct (decide (statusCode ∈ named_statuses)) as [Hin|Hout].
  - unfold named_statuses in Hin. rewrite !elem_of_cons, elem_of_nil in Hin.
    destruct Hin as [->|[->|[->|[->|[->|[->|[->|[]]]]]]]]; try done.
    + change (classify 400 header body url)
        with (@None EmailResponse.t, Some (parseValidationError body)).
      eexists. split; [done|]. unfold parseValidationError.
      by destruct (GoJSON.Unmarshal _ body) as [? []].
    + change (classify 401 header body url)
        with (@None EmailResponse.t, Some (parseAuthenticationError body)).
      eexists. split; [done|]. unfold parseAuthenticationError.
      by destruct (GoJSON.Unmarshal _ body) as [? []].
    + change (classify 402 header body url)
        with (@None EmailResponse.t, Some (parseSubscriptionError body)).
      eexists. split; [done|]. unfold parseSubscriptionError.
      by destruct (GoJSON.Unmarshal _ body) as [? []].
    + change (classify 403 header body url)
        with (@None EmailResponse.t, Some (parseAccountSuspendedError body)).
      eexists. split; [done|]. unfold parseAccountSuspendedError.
      by destruct (GoJSON.Unmarshal _ body) as [? []].
    + change (classify 422 header body url)
        with (@None EmailResponse.t, Some (parseValidationError body)).
      eexists. split; [done|]. unfold parseValidationError.
      by destruct (GoJSON.Unmarshal _ body) as [? []].
    + change (classify 429 header body url)
        with (@None EmailResponse.t, Some (parseRateLimitError header body)).
      eexists. split; [done|]. unfold parseRateLimitError.
      by destruct (GoJSON.Unmarshal _ body) as [? ?].
  - rewrite classify_other by done. eexists. split; [done|].
    unfold parseGenericError.
    destruct (GoJSON.Unmarshal _ body) as [? ?]. cbn.
    replace (statusCode =? 422) with false; [done|].
    symmetry. apply Z.eqb_neq. intros ->. apply Hout.
    unfold named_statuses. set_solver.
Qed.

(** X1 at a status the switch does not name. *)
Lemma classify_status_code_witness :
  exists err,
    classify 503 ∅ "Service Unavailable" "https://api.usepoodle.com"
    = (None, Some err) /\ StatusCode err = 503.
Proof.
  apply (classify_status_code 503 ∅ "Service Unavailable"
           "https://api.usepoodle.com").
  discriminate.
Defined.

(** *** What every send returns *)

Lemma classify_outcome statusCode header body url :
  match classify statusCode header body url with
  | (Some r, None) =>
      statusCode = 202 /\ EmailResponse.Unmarshal body = (r, true)
  | (None, Some _) => True
  | _ => False
  end.
Proof.
  destruct (decide (statusCode = 202)) as [->|Hne].
  - change (classify 202 header body url) with (parseSuccessResponse body).
    unfold parseSuccessResponse.
    by destruct (EmailResponse.Unmarshal body) as [r []].
  - by destruct (classify_status_code statusCode header body url Hne)
      as (err & -> & _).
Qed.

(** X2: [SendEmail] returns either a response or an error, never both
    and never neither; it returns a response only when the message passed
    validation, the transport answered with status 202, the body could be
    read, and the body decoded to that response. *)
Theorem SendEmail_one_outcome :
  forall (rt : Runtime) (W : Type) (c : HTTPClient W) email w,
    match fst (SendEmail c email w) with
    | (Some r, None) =>
        Validate email = None /\
        exists requestBody resp responseBody w1,
          Marshal email = Some requestBody /\
          GoHTTP.Do (httpClient c) (build_request (config c) requestBody) w
          = (inl resp, w1) /\
          GoHTTP.StatusCode resp = 202 /\
          GoHTTP.Body resp = Some responseBody /\
          EmailResponse.Unmarshal responseBody = (r, true)
    | (None, Some _) => True
    | _ => False
    end.
Proof.
  intros rt W c email w. unfold SendEmail.
  destruct (Validate email) as [err|] eqn:Ev; [done|].
  destruct (Marshal email) as [requestBody|] eqn:Em; [|done].
  destruct (NewRequestAccepts _); [|done]. cbn [negb].
  destruct (GoHTTP.Do _ _ _) as [[resp|err] w1] eqn:Ed; cbn [fst].
  - unfold handle_response.
    destruct (GoHTTP.Body resp) as [responseBody|] eqn:Eb; [|done].
    pose proof (classify_outcome (GoHTTP.StatusCode resp)
                  (GoHTTP.ResponseHeader resp) responseBody
                  (endpoint (config c))) as Hc.
    destruct (classify _ _ _ _) as [[r|] [e|]]; try done.
    destruct Hc as [Hs Hu]. split; [done|].
    exists requestBody, resp, responseBody, w1. done.
  - unfold handle_response. by destruct (Contains err "timeout").
Qed.

Lemma default_message_nonempty (message fallback : string) :
  fallback <> "" ->
  (if String.eqb message "" then fallback else message) <> "".
Proof. intros Hf. by destruct (String.eqb_spec message ""). Qed.

Lemma parseValidationError_reported body :
  well_reported (parseValidationError body).
Proof.
  unfold parseValidationError, well_reported.
  destruct (GoJSON.Unmarshal _ body) as [apiResponse []]; cbn [negb];
    [|done].
  cbv zeta. repeat split. cbn [Error NewValidationError ValidationError_Base
                                Message].
  by destruct (String.eqb_spec (GoJSON.string_field apiResponse "message") "").
Qed.

Lemma parseAuthenticationError_reported body :
  well_reported (parseAuthenticationError body).
Proof.
  unfold parseAuthenticationError, well_reported.
  destruct (GoJSON.Unmarshal _ body) as [apiResponse []]; cbn [negb];
    [|done].
  repeat split. by apply default_message_nonempty.
Qed.

Lemma parseSubscriptionError_reported body :
  well_reported (parseSubscriptionError body).
Proof.
  unfold parseSubscriptionError, well_reported.
  destruct (GoJSON.Unmarshal _ body) as [apiResponse []]; cbn [negb];
    [|done].
  cbv zeta. repeat split. by apply default_message_nonempty.
Qed.

Lemma parseAccountSuspendedError_reported body :
  well_reported (parseAccountSuspendedError body).
Proof.
  unfold parseAccountSuspendedError, well_reported.
  destruct (GoJSON.Unmarshal _ body) as [apiResponse []]; cbn [negb];
    [|done].
  repeat split. by apply default_message_nonempty.
Qed.

Lemma parseRateLimitError_reported header body :
  well_reported (parseRateLimitError header body).
Proof.
  unfold parseRateLimitError, well_reported.
  destruct (GoJSON.Unmarshal _ body) as [apiResponse ok].
  cbv zeta. repeat split.
  cbn [Error base RateLimitError_Base NewRateLimitError Message].
  apply default_message_nonempty.
  destruct (String.eqb_spec (GoJSON.string_field apiResponse "message") "");
    [discriminate | done].
Qed.

Lemma parseGenericError_reported statusCode body url :
  well_reported (parseGenericError statusCode body url).
Proof.
  unfold parseGenericError, well_reported.
  destruct (GoJSON.Unmarshal _ body) as [apiResponse ok].
  cbv zeta. repeat split.
  cbn [Error base HTTPError_Base NewHTTPError Message].
  apply default_message_nonempty. by apply Itoa_message_nonempty.
Qed.

Lemma parseSuccessResponse_reported body r err :
  parseSuccessResponse body = (r, Some err) -> well_reported err.
Proof.
  unfold parseSuccessResponse.
  destruct (EmailResponse.Unmarshal body) as [response []]; cbn [negb];
    intros [= <- <-]. done.
Qed.

Lemma classify_reported statusCode header body url r err :
  classify statusCode header body url = (r, Some err) -> well_reported err.
Proof.
  unfold classify.
  destruct (statusCode =? StatusAccepted);
    [apply parseSuccessResponse_reported|].
  destruct (statusCode =? StatusBadRequest);
    [intros [= <- <-]; apply parseValidationError_reported|].
  destruct (statusCode =? StatusUnauthorized);
    [intros [= <- <-]; apply parseAuthenticationError_reported|].
  destruct (statusCode =? StatusPaymentRequired);
    [intros [= <- <-]; apply parseSubscriptionError_reported|].
  destruct (statusCode =? StatusForbidden);
    [intros [= <- <-]; apply parseAccountSuspendedError_reported|].
  destruct (statusCode =? StatusUnprocessableEntity);
    [intros [= <- <-]; apply parseValidationError_reported|].
  destruct (statusCode =? StatusTooManyRequests);
    [intros [= <- <-]; apply parseRateLimitError_reported|].
  intros [= <- <-]. apply parseGenericError_reported.
Qed.

(** X3: every error that [SendEmail] returns has a text ([Error()]) that
    is not empty, and a context whose error_type names its variant: the
    [NetworkError] of a timeout is tagged connection_timeout, and every
    other error by its type. *)
Theorem SendEmail_error_text :
  forall (rt : Runtime) (W : Type) (c : HTTPClient W) email w r err w',
    SendEmail c email w = ((r, Some err), w') ->
    Error err <> "" /\
    exists tag,
      error_type err = Some tag /\
      match err with
      | IsValidationError _ => tag = "validation_error"
      | IsAuthenticationError _ => tag = "authentication_error"
      | IsAccountSuspendedError _ => tag = "account_suspended"
      | IsSubscriptionError _ => tag = "subscription_error"
      | IsRateLimitError _ => tag = "rate_limit_exceeded"
      | IsNetworkError e =>
          (tag = "network_error" /\ Code (NetworkError_Base e) = 0) \/
          (tag = "connection_timeout" /\ Code (NetworkError_Base e) = 408)
      | IsHTTPError _ => tag = "http_error"
      end.
Proof.
  assert (forall err, well_reported err ->
    Error err <> "" /\
    exists tag,
      error_type err = Some tag /\
      match err with
      | IsValidationError _ => tag = "validation_error"
      | IsAuthenticationError _ => tag = "authentication_error"
      | IsAccountSuspendedError _ => tag = "account_suspended"
      | IsSubscriptionError _ => tag = "subscription_error"
      | IsRateLimitError _ => tag = "rate_limit_exceeded"
      | IsNetworkError e =>
          (tag = "network_error" /\ Code (NetworkError_Base e) = 0) \/
          (tag = "connection_timeout" /\ Code (NetworkError_Base e) = 408)
      | IsHTTPError _ => tag = "http_error"
      end) as Hwr.
  { intros err (Ht & Htag & Hc). split; [done|]. eexists. split; [exact Htag|].
    destruct err; try done. by left. }
  intros rt W c email w r err w'. unfold SendEmail.
  destruct (Validate email) as [verr|] eqn:Ev.
  { apply Validate_Some in Ev as [-> _]. intros [= <- <- <-].
    by apply Hwr. }
  destruct (Marshal email) as [requestBody|];
    [|intros [= <- <- <-]; by apply Hwr].
  destruct (NewRequestAccepts _); cbn [negb];
    [|intros [= <- <- <-]; by apply Hwr].
  destruct (GoHTTP.Do _ _ _) as [[resp|text] w1]; cbn [handle_response].
  - destruct (GoHTTP.Body resp) as [responseBody|];
      [|intros [= <- <- <-]; by apply Hwr].
    intros [= H _]. apply classify_reported in H. by apply Hwr.
  - destruct (Contains text "timeout"); intros [= <- <- <-];
      [|by apply Hwr].
    split; [done|]. eexists. split; [done|]. by right.
Qed.

(** X3 at a response of status 400 whose body has no message. *)
Lemma SendEmail_error_text_witness :
  exists err,
    fst (exampleSend exampleEmail (inl (GoHTTP.mkResponse 400 ∅ (Some "{}"))))
    = (None, Some err) /\
    Error err <> "".
Proof.
  eexists. split; [vm_compute; reflexivity|].
  eapply (SendEmail_error_text exampleRuntime _
            (exampleClient (inl (GoHTTP.mkResponse 400 ∅ (Some "{}"))))
            exampleEmail (tt, [])).
  vm_compute. reflexivity.
Defined.

(** X4: a response of status 400 or 422 is reported as a
    [ValidationError] whose mapping has the key request, holding the
    decoded message, and the key details exactly when the decoded error is
    not empty, and no other key; when the body does not decode, the key
    request holds "Invalid request format" and the message is "Validation
    failed".  The context holds the same mapping under errors. *)
Theorem classify_bad_request statusCode header body url :
  statusCode = 400 \/ statusCode = 422 ->
  exists ve,
    classify statusCode header body url
    = (None, Some (IsValidationError ve)) /\
    Context (IsValidationError ve) !! "errors" = Some (CtxErrors (Errors ve)) /\
    match GoJSON.Unmarshal fields_success_message_error body with
    | (apiResponse, true) =>
        let message := GoJSON.string_field apiResponse "message" in
        let error := GoJSON.string_field apiResponse "error" in
        Message (ValidationError_Base ve) = message /\
        Errors ve !! "request" = Some [message] /\
        Errors ve !! "details" =
          (if String.eqb error "" then None else Some [error]) /\
        forall k, k <> "request" -> k <> "details" -> Errors ve !! k = None
    | (_, false) =>
        Message (ValidationError_Base ve) = "Validation failed" /\
        Errors ve = {["request" := ["Invalid request format"]]}
    end.
Proof.
  intros Hs.
  assert (classify statusCode header body url
          = (None, Some (parseValidationError body))) as ->.
  { by destruct Hs as [-> | ->]. }
  unfold parseValidationError.
  destruct (GoJSON.Unmarshal fields_success_message_error body)
    as [apiResponse [|]]; cbv zeta; cbn [negb].
  - eexists. split; [reflexivity|]. split; [reflexivity|].
    cbn [Errors NewValidationError ValidationError_Base Message].
    split; [done|].
    destruct (String.eqb (GoJSON.string_field apiResponse "error") "");
      cbn [negb]; repeat split;
      try (intros k H1 H2; rewrite ?lookup_insert_ne by done;
           apply lookup_empty);
      by rewrite ?lookup_insert_ne, ?lookup_insert_eq.
  - eexists. split; [reflexivity|]. split; [reflexivity|]. split; [done|].
    cbn [Errors NewValidationError]. by rewrite insert_empty.
Qed.

(** X4 at a response of status 422 with a message and details. *)
Lemma classify_bad_request_witness :
  exists ve,
    classify 422 ∅
      (GoJSON.sq "{'success':false,'message':'Invalid request','error':'validation details'}") ""
    = (None, Some (IsValidationError ve)) /\
    Errors ve !! "request" = Some ["Invalid request"] /\
    Errors ve !! "details" = Some ["validation details"].
Proof.
  destruct (classify_bad_request 422 ∅
              (GoJSON.sq "{'success':false,'message':'Invalid request','error':'validation details'}")
              "" (or_intror eq_refl)) as (ve & Hc & _ & Hm).
  exists ve. split; [exact Hc|].
  assert (GoJSON.Unmarshal fields_success_message_error
            (GoJSON.sq "{'success':false,'message':'Invalid request','error':'validation details'}")
          = (<["error" := GoJSON.SString "validation details"]>
               (<["message" := GoJSON.SString "Invalid request"]>
                  (<["success" := GoJSON.SBool false]> ∅)), true)) as E
    by (vm_compute; reflexivity).
  rewrite E in Hm. destruct Hm as (_ & Hr & Hd & _).
  split; [exact Hr | exact Hd].
Defined.

(** X5: a response of status 401 is reported as an
    [AuthenticationError] of code 401 whose message is the decoded
    message, or "Invalid or missing API key" when the body does not decode
    or the message is empty.  Only the message is decoded: a body whose
    other members are ill-typed still gives its message. *)
Theorem classify_unauthorized :
  (forall header body url,
     exists e,
       classify 401 header body url = (None, Some (IsAuthenticationError e)) /\
       Code (AuthenticationError_Base e) = 401 /\
       Message (AuthenticationError_Base e) =
         match GoJSON.Unmarshal fields_message body with
         | (apiResponse, true) =>
             if String.eqb (GoJSON.string_field apiResponse "message") ""
             then "Invalid or missing API key"
             else GoJSON.string_field apiResponse "message"
         | (_, false) => "Invalid or missing API key"
         end) /\
  (exists e,
     classify 401 ∅ (GoJSON.sq "{'message': 'Invalid API Key'}") ""
     = (None, Some (IsAuthenticationError e)) /\
     Message (AuthenticationError_Base e) = "Invalid API Key") /\
  (exists e,
     classify 401 ∅ (GoJSON.sq "{'message':'Key revoked','error':17}") ""
     = (None, Some (IsAuthenticationError e)) /\
     Message (AuthenticationError_Base e) = "Key revoked") /\
  (exists e,
     classify 401 ∅ (GoJSON.sq "{'message':17}") ""
     = (None, Some (IsAuthenticationError e)) /\
     Message (AuthenticationError_Base e) = "Invalid or missing API key").
Proof.
  split.
  { intros header body url.
    change (classify 401 header body url)
      with (@None EmailResponse.t, Some (parseAuthenticationError body)).
    unfold parseAuthenticationError.
    destruct (GoJSON.Unmarshal fields_message body) as [apiResponse [|]];
      cbn [negb]; eexists; (split; [reflexivity|]); by split. }
  repeat split; eexists; split; vm_compute; reflexivity.
Qed.

(** X6: a response of status 403 is reported as an
    [AccountSuspendedError] of code 403; when the body decodes, the reason
    is the decoded error, empty when there is none, and the message is
    the decoded message or "Account suspended" when that is empty; when
    the body does not decode, the reason is "unknown". *)
Theorem classify_forbidden :
  (forall header body url,
     exists e,
       classify 403 header body url
       = (None, Some (IsAccountSuspendedError e)) /\
       Code (AccountSuspendedError_Base e) = 403 /\
       Context (IsAccountSuspendedError e) !! "reason"
       = Some (CtxString (Reason e)) /\
       match GoJSON.Unmarshal fields_message_error body with
       | (apiResponse, true) =>
           Reason e = GoJSON.string_field apiResponse "error" /\
           Message (AccountSuspendedError_Base e) =
             (if String.eqb (GoJSON.string_field apiResponse "message") ""
              then "Account suspended"
              else GoJSON.string_field apiResponse "message")
       | (_, false) =>
           Reason e = "unknown" /\
           Message (AccountSuspendedError_Base e) = "Account suspended"
       end) /\
  (exists e,
     classify 403 ∅ (GoJSON.sq "{'message':'Suspended','error':'abuse'}") ""
     = (None, Some (IsAccountSuspendedError e)) /\
     Reason e = "abuse" /\
     Message (AccountSuspendedError_Base e) = "Suspended") /\
  (exists e,
     classify 403 ∅ "{}" "" = (None, Some (IsAccountSuspendedError e)) /\
     Reason e = "" /\
     Message (AccountSuspendedError_Base e) = "Account suspended") /\
  (exists e,
     classify 403 ∅ "Forbidden" ""
     = (None, Some (IsAccountSuspendedError e)) /\
     Reason e = "unknown" /\
     Message (AccountSuspendedError_Base e) = "Account suspended").
Proof.
  split.
  { intros header body url.
    change (classify 403 header body url)
      with (@None EmailResponse.t, Some (parseAccountSuspendedError body)).
    unfold parseAccountSuspendedError.
    destruct (GoJSON.Unmarshal fields_message_error body)
      as [apiResponse [|]]; cbn [negb]; eexists;
      (split; [reflexivity|]); (split; [reflexivity|]);
      (split; [reflexivity|]); by split. }
  repeat split; eexists; (split; [vm_compute; reflexivity|]);
    split; vm_compute; reflexivity.
Qed.

(** X7: a response of any status the switch does not name, 200 and the
    other 2xx included, is reported as an [HTTPError] that carries the
    status as its code, the request URL and the body as it was received;
    its message is the decoded message when the body decodes to a
    non-empty one, and "HTTP N error" otherwise. *)
Theorem classify_unnamed_status statusCode header body url :
  statusCode ∉ named_statuses ->
  exists e,
    classify statusCode header body url = (None, Some (IsHTTPError e)) /\
    Code (HTTPError_Base e) = statusCode /\
    HTTPError_URL e = url /\ ResponseBody e = body /\
    Context (IsHTTPError e) !! "response_body" = Some (CtxString body) /\
    Message (HTTPError_Base e) =
      match GoJSON.Unmarshal fields_message_error body with
      | (apiResponse, true) =>
          if String.eqb (GoJSON.string_field apiResponse "message") ""
          then "HTTP " +:+ Itoa statusCode +:+ " error"
          else GoJSON.string_field apiResponse "message"
      | (_, false) => "HTTP " +:+ Itoa statusCode +:+ " error"
      end.
Proof.
  intros Hs. rewrite classify_other by done. unfold parseGenericError.
  destruct (GoJSON.Unmarshal fields_message_error body) as [apiResponse ok].
  cbv zeta. eexists. split; [reflexivity|]. repeat split.
  cbn [HTTPError_Base NewHTTPError Message].
  assert (String.eqb ("HTTP " +:+ Itoa statusCode +:+ " error") "" = false)
    as Hne by done.
  destruct ok; cbn [andb]; [|by rewrite Hne].
  destruct (String.eqb (GoJSON.string_field apiResponse "message") "") eqn:E;
    cbn [negb]; [by rewrite Hne | by rewrite E].
Qed.

(** X7 at a response of status 200 that looks like a success. *)
Lemma classify_unnamed_status_witness :
  exists e,
    classify 200 ∅ (GoJSON.sq "{'success':true,'message':'Email queued'}")
      "https://api.usepoodle.com/v1/send-email"
    = (None, Some (IsHTTPError e)) /\
    Code (HTTPError_Base e) = 200 /\
    ResponseBody e = GoJSON.sq "{'success':true,'message':'Email queued'}".
Proof.
  destruct (classify_unnamed_status 200 ∅
              (GoJSON.sq "{'success':true,'message':'Email queued'}")
              "https://api.usepoodle.com/v1/send-email")
    as (e & Hc & Hcode & _ & Hbody & _).
  { unfold named_statuses. rewrite !not_elem_of_cons.
    repeat split; try discriminate. apply not_elem_of_nil. }
  exists e. split; [exact Hc|]. split; [exact Hcode | exact Hbody].
Defined.

(** *** What the address validator accepts, exactly *)

Lemma nullable_sound r : nullable r = true -> lang r "".
Proof.
  induction r as [| |p|r1 IH1 r2 IH2|r1 IH1 r2 IH2|r IH]; simpl; try done.
  - constructor.
  - intros [H1 H2]%andb_prop. change "" with ("" +:+ "").
    constructor; auto.
  - intros [H|H]%orb_prop; [apply lang_alt_l | apply lang_alt_r]; auto.
  - constructor.
Qed.

Lemma deriv_sound c r : forall s, lang (deriv c r) s -> lang r (String c s).
Proof.
  induction r as [| |p|r1 IH1 r2 IH2|r1 IH1 r2 IH2|r IH]; intros s; simpl.
  - inversion 1.
  - inversion 1.
  - destruct (p c) eqn:Hp; inversion 1; subst. by constructor.
  - destruct (nullable r1) eqn:Hn.
    + inversion 1 as [| | | |? ? ? H'| |]; subst.
      * match goal with
        | H' : lang (Concat _ _) _ |- _ =>
            inversion H' as [| |? ? s1 s2 Ha Hb| | | |]; subst
        end.
        change (String c (s1 +:+ s2)) with (String c s1 +:+ s2).
        constructor; auto.
      * change (String c s) with ("" +:+ String c s).
        constructor; [by apply nullable_sound | auto].
    + inversion 1 as [| |? ? s1 s2 Ha Hb| | | |]; subst.
      change (String c (s1 +:+ s2)) with (String c s1 +:+ s2).
      constructor; auto.
  - inversion 1; subst; [apply lang_alt_l | apply lang_alt_r]; auto.
  - inversion 1 as [| |? ? s1 s2 Ha Hb| | | |]; subst.
    change (String c (s1 +:+ s2)) with (String c s1 +:+ s2).
    constructor; auto.
Qed.

(** Matching by derivatives accepts the words of the language only. *)
Lemma MatchString_sound r s : MatchString r s = true -> lang r s.
Proof.
  revert r. induction s as [|c s IH]; intros r; simpl.
  - apply nullable_sound.
  - intros H. apply deriv_sound. by apply IH.
Qed.

Lemma lang_class_inv p s :
  lang (CharClass p) s -> exists c, s = String c "" /\ p c = true.
Proof. inversion 1; subst. eauto. Qed.

Lemma lang_star_class_inv p s :
  lang (Star (CharClass p)) s -> all_bytes p s = true.
Proof.
  intros H. remember (Star (CharClass p)) as r eqn:Er.
  induction H as [| | | | | |r' s1 s2 H1 _ H2 IH2]; try discriminate; [done|].
  injection Er as ->.
  apply lang_class_inv in H1 as (c & -> & Hc).
  rewrite all_bytes_app. simpl. rewrite Hc. simpl. by apply IH2.
Qed.

Lemma lang_plus_class_inv p s :
  lang (Plus (CharClass p)) s -> s <> "" /\ all_bytes p s = true.
Proof.
  unfold Plus. inversion 1 as [| |? ? s1 s2 H1 H2| | | |]; subst.
  apply lang_class_inv in H1 as (c & -> & Hc).
  apply lang_star_class_inv in H2.
  split; [done|]. rewrite all_bytes_app. simpl. by rewrite Hc, H2.
Qed.

Lemma lang_atleast2_class_inv p s :
  lang (AtLeast2 (CharClass p)) s -> 2 <= len s /\ all_bytes p s = true.
Proof.
  unfold AtLeast2. inversion 1 as [| |? ? s1 s2 H1 H2| | | |]; subst.
  inversion H2 as [| |? ? s3 s4 H3 H4| | | |]; subst.
  apply lang_class_inv in H1 as (a & -> & Ha).
  apply lang_class_inv in H3 as (b & -> & Hb).
  apply lang_star_class_inv in H4.
  split.
  - rewrite !len_app, !len_cons. pose proof (len_nonneg s4).
    change (len "") with 0. lia.
  - rewrite !all_bytes_app. simpl. by rewrite Ha, Hb, H4.
Qed.

Lemma lang_literal_inv c s : lang (Literal c) s -> s = String c "".
Proof.
  intros (a & -> & Ha%Ascii.eqb_eq)%lang_class_inv. by subst.
Qed.

(** The shape of a string the pattern matches. *)
Lemma emailRegex_shape t :
  lang emailRegex t ->
  exists l pre tld,
    t = l +:+ "@" +:+ pre +:+ "." +:+ tld /\
    l <> "" /\ all_bytes localClass l = true /\
    pre <> "" /\ all_bytes domainClass pre = true /\
    2 <= len tld /\ all_bytes alphaClass tld = true.
Proof.
  unfold emailRegex.
  inversion 1 as [| |? ? l r1 Hl H1| | | |]; subst.
  inversion H1 as [| |? ? a r2 Ha H2| | | |]; subst.
  inversion H2 as [| |? ? pre r3 Hp H3| | | |]; subst.
  inversion H3 as [| |? ? dot tld Hd Ht| | | |]; subst.
  apply lang_plus_class_inv in Hl as [? ?].
  apply lang_literal_inv in Ha as ->.
  apply lang_plus_class_inv in Hp as [? ?].
  apply lang_literal_inv in Hd as ->.
  apply lang_atleast2_class_inv in Ht as [? ?].
  exists l, pre, tld. done.
Qed.

Lemma Split_app s t sep :
  Split (s +:+ String sep t) sep = Split s sep ++ Split t sep.
Proof.
  induction s as [|c s IH]; [simpl; by rewrite Ascii.eqb_refl|].
  rewrite app_cons_s. simpl. rewrite IH.
  destruct (Ascii.eqb c sep); [done|].
  pose proof (Split_nonempty s sep).
  by destruct (Split s sep).
Qed.

Lemma Split_no_sep s sep :
  all_bytes (fun c => negb (Ascii.eqb c sep)) s = true -> Split s sep = [s].
Proof.
  induction s as [|c s IH]; [done|]. simpl.
  intros [Hc Hs]%andb_prop. apply negb_true_iff in Hc. rewrite Hc.
  by rewrite IH.
Qed.

(** The pieces of a split hold no separator. *)
Lemma Split_pieces p s sep :
  all_bytes p s = true ->
  forallb (all_bytes (fun c => p c && negb (Ascii.eqb c sep))) (Split s sep)
  = true.
Proof.
  induction s as [|c s IH]; [done|]. simpl.
  intros [Hc Hs]%andb_prop. specialize (IH Hs).
  destruct (Ascii.eqb c sep) eqn:E; [done|].
  pose proof (Split_nonempty s sep).
  destruct (Split s sep) as [|piece rest]; [done|].
  simpl in *. by rewrite Hc, E.
Qed.

Lemma localClass_no_at c :
  localClass c = true -> negb (Ascii.eqb c "@") = true.
Proof. destruct c as [[] [] [] [] [] [] [] []]; vm_compute; auto. Qed.

Lemma domainClass_no_at c :
  domainClass c = true -> negb (Ascii.eqb c "@") = true.
Proof. destruct c as [[] [] [] [] [] [] [] []]; vm_compute; auto. Qed.

Lemma alphaClass_domainClass c : alphaClass c = true -> domainClass c = true.
Proof. destruct c as [[] [] [] [] [] [] [] []]; vm_compute; auto. Qed.

Lemma alphaClass_no_dot c :
  alphaClass c = true -> negb (Ascii.eqb c ".") = true.
Proof. destruct c as [[] [] [] [] [] [] [] []]; vm_compute; auto. Qed.

Lemma domainClass_label c :
  domainClass c && negb (Ascii.eqb c ".") = true -> labelClass c = true.
Proof. destruct c as [[] [] [] [] [] [] [] []]; vm_compute; auto. Qed.

Lemma forallb_impl {A} (p q : A -> bool) l :
  (forall x, p x = true -> q x = true) ->
  forallb p l = true -> forallb q l = true.
Proof.
  intros Hpq. induction l as [|x l IH]; [done|]. simpl.
  intros [Hx Hl]%andb_prop. by rewrite (Hpq x Hx), IH.
Qed.

(** A matching string with no rejected label is a string of the grammar. *)
Lemma emailRegex_grammar t l d :
  lang emailRegex t -> Split t "@" = [l; d] ->
  existsb labelRejected (Split d ".") = false ->
  matches_grammar t = true.
Proof.
  intros (l0 & pre & tld & -> & Hl & Hlc & Hpre & Hpc & Htl & Hta)
    %emailRegex_shape Hsplit Hlabels.
  assert (all_bytes domainClass (pre +:+ "." +:+ tld) = true) as Hdc.
  { rewrite !all_bytes_app, Hpc. simpl.
    by rewrite (all_bytes_impl _ _ _ alphaClass_domainClass Hta). }
  change (l0 +:+ "@" +:+ pre +:+ "." +:+ tld)
    with (l0 +:+ String "@" (pre +:+ "." +:+ tld)) in *.
  rewrite Split_app in Hsplit.
  rewrite (Split_no_sep l0) in Hsplit
    by (eapply all_bytes_impl; [apply localClass_no_at | done]).
  rewrite (Split_no_sep (pre +:+ "." +:+ tld)) in Hsplit
    by (eapply all_bytes_impl; [apply domainClass_no_at | done]).
  injection Hsplit as <- <-.
  unfold matches_grammar. rewrite Split_app.
  rewrite (Split_no_sep l0)
    by (eapply all_bytes_impl; [apply localClass_no_at | done]).
  rewrite (Split_no_sep (pre +:+ "." +:+ tld))
    by (eapply all_bytes_impl; [apply domainClass_no_at | done]).
  cbn [app]. apply andb_true_intro. split.
  { unfold local_ok. rewrite Hlc.
    by destruct (String.eqb_spec l0 ""). }
  unfold domain_ok.
  pose proof (Split_pieces domainClass _ "." Hdc) as Hpieces.
  change (pre +:+ "." +:+ tld) with (pre +:+ String "." tld) in *.
  rewrite Split_app in *.
  rewrite (Split_no_sep tld) in *
    by (eapply all_bytes_impl; [apply alphaClass_no_dot | done]).
  rewrite List.last_last, length_app.
  pose proof (Split_nonempty pre ".") as Hne.
  apply andb_true_intro. split; [apply andb_true_intro; split|].
  - apply Z.leb_le. destruct (Split pre ".") as [|]; [done|].
    cbn [length]. lia.
  - rewrite forallb_forall. intros label Hin.
    rewrite forallb_forall in Hpieces.
    unfold label_ok. apply andb_true_intro. split.
    + assert (labelRejected label = false) as Hr.
      { destruct (labelRejected label) eqn:E; [|done].
        assert (existsb labelRejected (Split pre "." ++ [tld]) = true)
          as Hex by (apply existsb_exists; eauto).
        congruence. }
      unfold labelRejected in Hr.
      apply orb_false_elim in Hr as [_ Hr].
      rewrite <- eqb_empty_len in Hr. by rewrite Hr.
    + eapply all_bytes_impl; [apply domainClass_label|]. by apply Hpieces.
  - unfold final_label_ok. rewrite Hta.
    by replace (2 <=? len tld) with true by lia.
Qed.

Lemma matches_grammar_nonempty t : matches_grammar t = true -> 0 < len t.
Proof.
  intros (l & d & _ & -> & [Hl _]%andb_prop & _)%matches_grammar_shape.
  rewrite len_app. destruct l as [|c l]; [done|]. rewrite len_cons.
  pose proof (len_nonneg l). pose proof (len_nonneg ("@" +:+ d)). lia.
Qed.

(** X8: [isValidEmail] accepts a string exactly when the string without
    its leading and trailing white space is at most 254 bytes long,
    matches the grammar (a local part of one or more bytes of
    [A-Za-z0-9._%+-], an at sign, two or more dot-separated non-empty
    labels of [A-Za-z0-9-], the last of two or more letters) and is in
    none of the violation classes; nothing else is accepted. *)
Theorem isValidEmail_exactly s :
  isValidEmail s = true <->
  len (TrimSpace s) <= 254 /\ matches_grammar (TrimSpace s) = true /\
  violates (TrimSpace s) = false.
Proof.
  split.
  - intros H. pose proof H as H'. unfold isValidEmail in H.
    destruct ((len (TrimSpace s) =? 0) || (254 <? len (TrimSpace s)))
      eqn:Elen; [done|].
    apply orb_false_elim in Elen as [_ Hlen].
    destruct (MatchString emailRegex (TrimSpace s)) eqn:Em; [|done].
    apply MatchString_sound in Em.
    destruct (Split (TrimSpace s) "@") as [|l [|d [|]]] eqn:Es; try done.
    rewrite (isValidEmail_after_split s l d Es) in H'.
    apply andb_prop in H' as [_ Hv%negb_true_iff].
    split; [lia|]. split.
    + apply (emailRegex_grammar _ l d Em Es).
      rewrite listed_violation_code in Hv.
      by apply orb_false_elim in Hv as [_ Hv].
    + unfold violates. by rewrite Es.
  - intros (Hlen & Hg & Hv).
    pose proof (MatchString_complete _ _ (matches_grammar_lang _ Hg)) as Hm.
    pose proof (matches_grammar_nonempty _ Hg) as Hpos.
    destruct (matches_grammar_shape _ Hg) as (l & d & E & _).
    unfold violates in Hv. rewrite E in Hv.
    rewrite (isValidEmail_after_split s l d E), Hm, Hv.
    replace (len (TrimSpace s) =? 0) with false by lia.
    by replace (254 <? len (TrimSpace s)) with false by lia.
Qed.

(** *** Messages: constructors, setters and the content tests *)

Lemma isValidEmail_nonblank s :
  isValidEmail s = true -> String.eqb (TrimSpace s) "" = false.
Proof.
  unfold isValidEmail. rewrite eqb_empty_len.
  by destruct (len (TrimSpace s) =? 0).
Qed.

Lemma Validate_None_reasons e :
  Validate e = None <-> forall k, reasons_for e k = None.
Proof.
  split; [|apply Validate_passes].
  intros H%Validate_None k. by rewrite <- validation_errors_lookup, H.
Qed.

Lemma eqb_empty_false s : String.eqb s "" = false <-> s <> "".
Proof. by destruct (String.eqb_spec s ""). Qed.

(** X9: [Validate] returns nil exactly for a message whose from and to
    are accepted by [isValidEmail], whose subject is not blank, which
    [HasHTML] or [HasText], and whose html and text are each at most
    [MaxContentSize] bytes long; so the content rule of [Validate] and the
    tests [HasHTML] and [HasText] agree. *)
Theorem Validate_exactly e :
  Validate e = None <->
  isValidEmail (From e) = true /\ isValidEmail (To e) = true /\
  TrimSpace (Subject e) <> "" /\
  (HasHTML e = true \/ HasText e = true) /\
  len (HTML e) <= MaxContentSize /\ len (Text e) <= MaxContentSize.
Proof.
  rewrite Validate_None_reasons. unfold HasHTML, HasText. split.
  - intros H.
    pose proof (H "from") as Hf. pose proof (H "to") as Ht.
    pose proof (H "subject") as Hs. pose proof (H "content") as Hc.
    pose proof (H "html") as Hh. pose proof (H "text") as Hx.
    unfold reasons_for in Hf, Ht, Hs, Hc, Hh, Hx.
    repeat (case_decide; try done).
    destruct (String.eqb (TrimSpace (From e)) ""); [done|].
    destruct (isValidEmail (From e)); [|done].
    destruct (String.eqb (TrimSpace (To e)) ""); [done|].
    destruct (isValidEmail (To e)); [|done].
    destruct (String.eqb_spec (TrimSpace (Subject e)) ""); [done|].
    destruct (MaxContentSize <? len (HTML e)) eqn:E1; [done|].
    destruct (MaxContentSize <? len (Text e)) eqn:E2; [done|].
    repeat split; try done; try lia.
    destruct (String.eqb (TrimSpace (HTML e)) ""); [|by left].
    destruct (String.eqb (TrimSpace (Text e)) ""); [done|by right].
  - intros (Hf & Ht & Hs & Hc & Hh & Hx) k. unfold reasons_for.
    rewrite (isValidEmail_nonblank _ Hf), (isValidEmail_nonblank _ Ht), Hf, Ht.
    apply eqb_empty_false in Hs. rewrite Hs.
    replace (MaxContentSize <? len (HTML e)) with false by lia.
    replace (MaxContentSize <? len (Text e)) with false by lia.
    assert (String.eqb (TrimSpace (HTML e)) "" &&
            String.eqb (TrimSpace (Text e)) "" = false) as ->.
    { destruct Hc as [Hc|Hc]; apply negb_true_iff in Hc; rewrite Hc;
        [done|apply andb_false_r]. }
    by repeat case_decide.
Qed.

(** X10: the setters write their own fields only.  [SetBoth] is [SetHTML]
    followed by [SetText]; the content tests read the field written;
    whatever [Validate] reports under from, to and subject is what it
    reported before the call, and [SetHTML] (resp. [SetText]) leaves the
    report under text (resp. html) as it was. *)
Theorem setters_frame e html text k :
  k ∈ ["from"; "to"; "subject"] ->
  SetBoth e html text = SetText (SetHTML e html) text /\
  SetBoth e html text = SetHTML (SetText e text) html /\
  HasHTML (SetHTML e html) = negb (String.eqb (TrimSpace html) "") /\
  HasText (SetHTML e html) = HasText e /\
  HasText (SetText e text) = negb (String.eqb (TrimSpace text) "") /\
  HasHTML (SetText e text) = HasHTML e /\
  validation_errors (SetHTML e html) !! k = validation_errors e !! k /\
  validation_errors (SetText e text) !! k = validation_errors e !! k /\
  validation_errors (SetBoth e html text) !! k = validation_errors e !! k /\
  validation_errors (SetHTML e html) !! "text"
    = validation_errors e !! "text" /\
  validation_errors (SetText e text) !! "html"
    = validation_errors e !! "html".
Proof.
  intros Hk. rewrite !validation_errors_lookup.
  repeat (apply elem_of_cons in Hk as [->|Hk]);
    [| | |by apply elem_of_nil in Hk]; repeat split; reflexivity.
Qed.

Lemma setters_frame_witness :
  "subject" ∈ ["from"; "to"; "subject"] /\
  validation_errors (SetHTML (NewEmail "a@b.co" "c@d.io" " ") "<p>hi</p>")
    !! "subject" = Some ["Subject is required"].
Proof.
  split; [set_solver|].
  destruct (setters_frame (NewEmail "a@b.co" "c@d.io" " ") "<p>hi</p>" ""
              "subject") as (_ & _ & _ & _ & _ & _ & -> & _);
    [set_solver|].
  rewrite validation_errors_lookup. reflexivity.
Defined.

(** X11: a message of [NewEmail] has no content, so [Validate] always
    rejects it under the key content; the three other constructors are
    [NewEmail] followed by the setter of their content, and with from, to
    and subject in order the message they build passes [Validate] exactly
    when the content given is not blank (for [NewEmailWithBoth]: one of
    the two) and within the size limit. *)
Theorem constructors_content from to subject :
  isValidEmail from = true -> isValidEmail to = true ->
  TrimSpace subject <> "" ->
  (exists ve,
     Validate (NewEmail from to subject) = Some (IsValidationError ve) /\
     Errors ve
     = {["content" :=
           ["At least one content type (html or text) is required"]]}) /\
  (forall html,
     NewHTMLEmail from to subject html
     = SetHTML (NewEmail from to subject) html /\
     (Validate (NewHTMLEmail from to subject html) = None <->
      TrimSpace html <> "" /\ len html <= MaxContentSize)) /\
  (forall text,
     NewTextEmail from to subject text
     = SetText (NewEmail from to subject) text /\
     (Validate (NewTextEmail from to subject text) = None <->
      TrimSpace text <> "" /\ len text <= MaxContentSize)) /\
  (forall html text,
     NewEmailWithBoth from to subject html text
     = SetBoth (NewEmail from to subject) html text /\
     (Validate (NewEmailWithBoth from to subject html text) = None <->
      (TrimSpace html <> "" \/ TrimSpace text <> "") /\
      len html <= MaxContentSize /\ len text <= MaxContentSize)).
Proof.
  intros Hf Ht Hs.
  assert (forall s, negb (String.eqb (TrimSpace s) "") = true
                    <-> TrimSpace s <> "") as Hneg.
  { intros s. rewrite negb_true_iff. apply eqb_empty_false. }
  assert (len "" <= MaxContentSize) as H0 by done.
  split; [|split; [|split]].
  - destruct (Validate_reports (NewEmail from to subject) "content"
                ["At least one content type (html or text) is required"])
      as (ve & Hv & _); [done|].
    exists ve. split; [done|].
    apply Validate_Some in Hv as [[= ->] _]. cbn [Errors NewValidationError].
    apply map_eq. intros k. rewrite validation_errors_lookup.
    unfold reasons_for. cbn [From To Subject HTML Text NewEmail].
    rewrite (isValidEmail_nonblank _ Hf), (isValidEmail_nonblank _ Ht), Hf, Ht.
    apply eqb_empty_false in Hs. rewrite Hs.
    destruct (decide (k = "content")) as [->|Hk].
    + by rewrite lookup_singleton_eq.
    + rewrite lookup_singleton_ne by done. by repeat case_decide.
  - intros html. split; [done|]. rewrite Validate_exactly.
    unfold HasHTML, HasText. cbn [From To Subject HTML Text NewHTMLEmail].
    rewrite !Hneg. split.
    + intros (_ & _ & _ & [?|Hb] & ? & _); [done|by destruct Hb].
    + intros [? ?]. repeat split; auto.
  - intros text. split; [done|]. rewrite Validate_exactly.
    unfold HasHTML, HasText. cbn [From To Subject HTML Text NewTextEmail].
    rewrite !Hneg. split.
    + intros (_ & _ & _ & [Hb|?] & _ & ?); [by destruct Hb|done].
    + intros [? ?]. repeat split; auto.
  - intros html text. split; [done|]. rewrite Validate_exactly.
    unfold HasHTML, HasText. cbn [From To Subject HTML Text NewEmailWithBoth].
    rewrite !Hneg. split.
    + intros (_ & _ & _ & ? & ? & ?); done.
    + intros (? & ? & ?). repeat split; auto.
Qed.

Lemma constructors_content_witness :
  Validate (NewHTMLEmail "a@b.co" "c@d.io" "Hello" "<p>hi</p>") = None.
Proof.
  destruct (constructors_content "a@b.co" "c@d.io" "Hello")
    as (_ & Hhtml & _); [reflexivity|reflexivity|discriminate|].
  apply (Hhtml "<p>hi</p>"). split; [discriminate|]. by vm_compute.
Defined.

(** *** The configuration *)

(** X12: [Config.Validate] returns nil exactly when the API key and the
    base URL are not empty and both timeouts are positive.  Otherwise it
    returns a [ValidationError] for the first field at fault, in the order
    api_key, base_url, timeout, connect_timeout: its [Errors] hold that
    one key with the message as the only reason; it is a struct literal,
    so unlike the errors of [NewValidationError] its status code is 0 and
    its context is empty (no error_type). *)
Theorem Config_Validate_exactly c :
  (Config_Validate c = None <->
   APIKey c <> "" /\ BaseURL c <> "" /\
   0 < Timeout c /\ 0 < ConnectTimeout c) /\
  (forall err,
     Config_Validate c = Some err ->
     exists ve,
       err = IsValidationError ve /\
       StatusCode err = 0 /\ Context err = ∅ /\ error_type err = None /\
       Error err <> "" /\ Error err = Message (ValidationError_Base ve) /\
       Errors ve
       = {[(if String.eqb (APIKey c) "" then "api_key"
            else if String.eqb (BaseURL c) "" then "base_url"
            else if Timeout c <=? 0 then "timeout"
            else "connect_timeout") := [Error err]]}).
Proof.
  unfold Config_Validate. split.
  - destruct (String.eqb_spec (APIKey c) "") as [->|?];
      [split; [done|by intros [? _]]|].
    destruct (String.eqb_spec (BaseURL c) "") as [->|?];
      [split; [done|by intros (_ & ? & _)]|].
    destruct (Z.leb_spec (Timeout c) 0);
      [split; [done|intros (_ & _ & ? & _); lia]|].
    destruct (Z.leb_spec (ConnectTimeout c) 0);
      [split; [done|intros (_ & _ & _ & ?); lia]|].
    done.
  - intros err.
    destruct (String.eqb (APIKey c) "");
      [intros [= <-]; eexists; by repeat split|].
    destruct (String.eqb (BaseURL c) "");
      [intros [= <-]; eexists; by repeat split|].
    destruct (Timeout c <=? 0);
      [intros [= <-]; eexists; by repeat split|].
    destruct (ConnectTimeout c <=? 0);
      [intros [= <-]; eexists; by repeat split|].
    done.
Qed.

Lemma ParseBool_true s :
  ParseBool s = Some true <->
  s ∈ ["1"; "t"; "T"; "true"; "TRUE"; "True"].
Proof.
  unfold ParseBool. split.
  - destruct (existsb _ _) eqn:E.
    + intros _. apply existsb_exists in E as (x & Hx & ->%String.eqb_eq).
      rewrite list_elem_of_In. exact Hx.
    + clear E. by destruct (existsb _ _).
  - intros H.
    repeat (apply elem_of_cons in H as [->|H]); try done.
    by apply elem_of_nil in H.
Qed.

Section ConfigFromEnvProperties.

Variable ParseDuration : string -> option Z.

Lemma NewConfigFromEnv_fields env :
  NewConfigFromEnv ParseDuration env =
  mkConfig
    (Getenv env "POODLE_API_KEY")
    (if String.eqb (Getenv env "POODLE_BASE_URL") ""
     then DefaultBaseURL else Getenv env "POODLE_BASE_URL")
    (if String.eqb (Getenv env "POODLE_TIMEOUT") "" then DefaultTimeout
     else default DefaultTimeout
            (ParseDuration (Getenv env "POODLE_TIMEOUT")))
    (if String.eqb (Getenv env "POODLE_CONNECT_TIMEOUT") ""
     then DefaultConnectTimeout
     else default DefaultConnectTimeout
            (ParseDuration (Getenv env "POODLE_CONNECT_TIMEOUT")))
    (if String.eqb (Getenv env "POODLE_DEBUG") "" then false
     else default false (ParseBool (Getenv env "POODLE_DEBUG"))).
Proof.
  unfold NewConfigFromEnv. cbv zeta.
  generalize (Getenv env "POODLE_API_KEY"), (Getenv env "POODLE_BASE_URL"),
    (Getenv env "POODLE_TIMEOUT"), (Getenv env "POODLE_CONNECT_TIMEOUT"),
    (Getenv env "POODLE_DEBUG").
  intros apiKey baseURL timeoutStr connectTimeoutStr debugStr.
  generalize (ParseDuration timeoutStr), (ParseDuration connectTimeoutStr),
    (ParseBool debugStr).
  intros timeout connectTimeout debug.
  destruct (String.eqb_spec apiKey "") as [->|_]; cbn [negb];
    (destruct (String.eqb baseURL ""); cbn [negb]);
    (destruct (String.eqb timeoutStr ""); cbn [negb];
     [|destruct timeout]);
    (destruct (String.eqb connectTimeoutStr ""); cbn [negb];
     [|destruct connectTimeout]);
    (destruct (String.eqb debugStr ""); cbn [negb]; [|destruct debug]);
    reflexivity.
Qed.

(** X13: [NewConfigFromEnv] overlays the defaults of [NewConfig] with the
    environment.  A variable that is unset or empty leaves its field at
    the default, and so does a duration or a flag that does not parse; the
    base URL of the result is never empty; debug is on exactly when
    POODLE_DEBUG is one of 1, t, T, true, TRUE, True; with an empty
    environment the result is [NewConfig]; and [Validate] accepts the
    result exactly when POODLE_API_KEY is not empty and the two timeouts,
    as read, are positive. *)
Theorem NewConfigFromEnv_overlay env :
  let c := NewConfigFromEnv ParseDuration env in
  let duration name fallback :=
    if String.eqb (Getenv env name) "" then fallback
    else default fallback (ParseDuration (Getenv env name)) in
  APIKey c = Getenv env "POODLE_API_KEY" /\
  BaseURL c = (if String.eqb (Getenv env "POODLE_BASE_URL") ""
               then DefaultBaseURL else Getenv env "POODLE_BASE_URL") /\
  BaseURL c <> "" /\
  Timeout c = duration "POODLE_TIMEOUT" DefaultTimeout /\
  ConnectTimeout c = duration "POODLE_CONNECT_TIMEOUT" DefaultConnectTimeout /\
  (Debug c = true <->
   Getenv env "POODLE_DEBUG" ∈ ["1"; "t"; "T"; "true"; "TRUE"; "True"]) /\
  NewConfigFromEnv ParseDuration ∅ = NewConfig /\
  (Config_Validate c = None <->
   Getenv env "POODLE_API_KEY" <> "" /\
   0 < duration "POODLE_TIMEOUT" DefaultTimeout /\
   0 < duration "POODLE_CONNECT_TIMEOUT" DefaultConnectTimeout).
Proof.
  intros c duration. subst c duration. cbv beta.
  rewrite NewConfigFromEnv_fields.
  cbn [APIKey BaseURL Timeout ConnectTimeout Debug].
  assert ((if String.eqb (Getenv env "POODLE_BASE_URL") ""
           then DefaultBaseURL else Getenv env "POODLE_BASE_URL") <> "")
    as Hne by by destruct (String.eqb_spec (Getenv env "POODLE_BASE_URL") "").
  split; [done|]. split; [done|]. split; [done|].
  split; [done|]. split; [done|]. split; [|split].
  - rewrite <- ParseBool_true.
    destruct (String.eqb_spec (Getenv env "POODLE_DEBUG") "") as [->|_];
      [done|].
    by destruct (ParseBool (Getenv env "POODLE_DEBUG")) as [[]|].
  - reflexivity.
  - match goal with
    | |- Config_Validate ?c = None <-> _ =>
        destruct (Config_Validate_exactly c) as [-> _]
    end.
    cbn [APIKey BaseURL Timeout ConnectTimeout Debug]. tauto.
Qed.

End ConfigFromEnvProperties.

(** *** The client and the configuration it shares *)

Lemma fresh_unused (st : Store) : st !! fresh (dom st) = None.
Proof. apply not_elem_of_dom, is_fresh. Qed.

Section ClientProperties.

Context {rt : Runtime} {W : Type}.

Variable http_Client : Z -> Z -> GoHTTP.HTTPDoer W.

(** [SendEmail] reads the API key, the base URL and the timeout of the
    configuration, and nothing else of it. *)
Lemma SendEmail_reads (cfg cfg' : Config) (d : GoHTTP.HTTPDoer W) email w :
  APIKey cfg' = APIKey cfg -> BaseURL cfg' = BaseURL cfg ->
  Timeout cfg' = Timeout cfg ->
  SendEmail (mkHTTPClient cfg' d) email w
  = SendEmail (mkHTTPClient cfg d) email w.
Proof.
  intros Hk Hu Ht.
  unfold SendEmail, build_request, handle_response, endpoint, GetUserAgent.
  cbn [config httpClient]. by rewrite Hk, Hu, Ht.
Qed.

(** The constructor over a configuration just allocated. *)
Lemma NewClientWithConfig_alloc (st : Store) cfg :
  NewClientWithConfig http_Client (fresh (dom st))
    (<[fresh (dom st) := cfg]> st)
  = match Config_Validate cfg with
    | Some err => Panic (Some err)
    | None =>
        Returned
          (mkClient (fresh (dom st))
             (mkHTTPClientRef (fresh (dom st))
                (http_Client (Timeout cfg) (ConnectTimeout cfg))))
    end.
Proof.
  unfold NewClientWithConfig, NewHTTPClient. rewrite lookup_insert_eq.
  by destruct (Config_Validate cfg).
Qed.

(** X14: [NewClient] allocates the default configuration with the key
    given, at an address no configuration of the store has, and leaves
    the store otherwise as it was.  With an empty key it panics with the
    error of [Config.Validate] for api_key; with any other key it returns
    a client whose [config] and whose HTTP client's [config] are that one
    address, over a transport with the default timeouts.
    [NewClientFromEnv] does the same with the configuration read from the
    environment, and panics with whatever [Config.Validate] finds. *)
Theorem NewClient_outcome apiKey ParseDuration env (st : Store) :
  let p := fresh (dom st) in
  let cfg :=
    mkConfig apiKey DefaultBaseURL DefaultTimeout DefaultConnectTimeout
      false in
  let cfgEnv := NewConfigFromEnv ParseDuration env in
  st !! p = None /\
  snd (NewClient http_Client apiKey st) = <[p := cfg]> st /\
  fst (NewClient http_Client apiKey st)
  = (if String.eqb apiKey ""
     then Panic
            (Some (IsValidationError
                     {| ValidationError_Base :=
                          {| Message := "API key is required"; Code := 0;
                             ContextMap := ∅ |};
                        Errors :=
                          {["api_key" := ["API key is required"]]} |}))
     else Returned
            (mkClient p
               (mkHTTPClientRef p
                  (http_Client DefaultTimeout DefaultConnectTimeout)))) /\
  snd (NewClientFromEnv http_Client ParseDuration env st)
  = <[p := cfgEnv]> st /\
  fst (NewClientFromEnv http_Client ParseDuration env st)
  = match Config_Validate cfgEnv with
    | Some err => Panic (Some err)
    | None =>
        Returned
          (mkClient p
             (mkHTTPClientRef p
                (http_Client (Timeout cfgEnv) (ConnectTimeout cfgEnv))))
    end.
Proof.
  intros p cfg cfgEnv. split; [apply fresh_unused|].
  unfold NewClient, NewClientFromEnv, alloc. fold p.
  assert (alter
            (fun c => mkConfig apiKey (BaseURL c) (Timeout c)
                        (ConnectTimeout c) (Debug c)) p
            (<[p := NewConfig]> st) = <[p := cfg]> st) as ->.
  { by rewrite alter_insert_eq. }
  cbn [fst snd]. split; [done|]. split; [|split; [done|]].
  - subst p. rewrite NewClientWithConfig_alloc.
    unfold Config_Validate. subst cfg. cbn [APIKey BaseURL Timeout
      ConnectTimeout].
    by destruct (String.eqb apiKey "").
  - subst p. by rewrite NewClientWithConfig_alloc.
Qed.

(** X15: a client of [NewClient] with a key sends a valid message, once
    encoded, as one POST to https://api.usepoodle.com/v1/send-email with
    the key as bearer token, and returns what [SendEmail] makes of the
    answer of the transport. *)
Theorem NewClient_sends apiKey (st : Store) email requestBody w :
  apiKey <> "" -> Validate email = None ->
  Marshal email = Some requestBody ->
  NewRequestAccepts "https://api.usepoodle.com/v1/send-email" = true ->
  exists c st' req,
    NewClient http_Client apiKey st = (Returned c, st') /\
    IsDebug c st' = Some false /\
    GoHTTP.Method req = "POST" /\
    GoHTTP.URL req = "https://api.usepoodle.com/v1/send-email" /\
    GoHTTP.RequestBody req = requestBody /\
    GoHTTP.Get (GoHTTP.RequestHeader req) "Authorization"
    = "Bearer " +:+ apiKey /\
    GoHTTP.Get (GoHTTP.RequestHeader req) "User-Agent" = "poodle-go/1.0.0" /\
    let d := http_Client DefaultTimeout DefaultConnectTimeout in
    Send c email st' w
    = Some (handle_response
              (mkConfig apiKey DefaultBaseURL DefaultTimeout
                 DefaultConnectTimeout false)
              "https://api.usepoodle.com/v1/send-email"
              (fst (GoHTTP.Do d req w)),
            snd (GoHTTP.Do d req w)).
Proof.
  intros Hkey Hv Hm Hr.
  destruct (NewClient_outcome apiKey (fun _ => None) ∅ st)
    as (_ & Hst & Hc & _).
  apply eqb_empty_false in Hkey. rewrite Hkey in Hc.
  destruct (NewClient http_Client apiKey st) as [out st'] eqn:E.
  cbn [fst snd] in Hst, Hc. subst out st'.
  set (cfg := mkConfig apiKey DefaultBaseURL DefaultTimeout
                DefaultConnectTimeout false).
  eexists _, _, (build_request cfg requestBody). split; [done|].
  split; [|split; [done|split; [done|split; [done|split; [|split]]]]].
  - unfold IsDebug. cbn [Client_config]. by rewrite lookup_insert_eq.
  - unfold build_request. cbn [GoHTTP.RequestHeader].
    unfold GoHTTP.Get, GoHTTP.Set_.
    rewrite lookup_insert_ne by done. by rewrite lookup_insert_eq.
  - unfold build_request. cbn [GoHTTP.RequestHeader].
    by apply Get_Set.
  - cbv zeta. unfold Send. cbn [Client_httpClient HTTPClient_config
      HTTPClient_httpClient]. rewrite lookup_insert_eq.
    by rewrite (SendEmail_valid _ _ _ requestBody).
Qed.

(** X16: [NewClientWithConfig] returns a client only when the
    configuration at the address given passes [Config.Validate]; the
    client keeps that address, so a configuration written there later is
    the one [Send] and [IsDebug] read, though it was never validated and
    the transport keeps the timeouts it was built with.  [GetConfig]
    gives a new address holding a copy: writing there changes nothing
    for the client, and a second call gives yet another address. *)
Theorem Client_config_shared p (st : Store) c :
  NewClientWithConfig http_Client p st = Returned c ->
  exists cfg,
    st !! p = Some cfg /\ Config_Validate cfg = None /\
    c = mkClient p
          (mkHTTPClientRef p
             (http_Client (Timeout cfg) (ConnectTimeout cfg))) /\
    (forall cfg' email w,
       Send c email (<[p := cfg']> st) w
       = Some (SendEmail
                 (mkHTTPClient cfg'
                    (http_Client (Timeout cfg) (ConnectTimeout cfg)))
                 email w) /\
       IsDebug c (<[p := cfg']> st) = Some (Debug cfg')) /\
    exists q q',
      GetConfig c st = Some (q, <[q := cfg]> st) /\
      q <> p /\ st !! q = None /\
      (forall cfg' email w,
         Send c email (<[q := cfg']> st) w = Send c email st w /\
         IsDebug c (<[q := cfg']> st) = IsDebug c st) /\
      GetConfig c (<[q := cfg]> st)
      = Some (q', <[q' := cfg]> (<[q := cfg]> st)) /\
      q' <> q /\ q' <> p.
Proof.
  unfold NewClientWithConfig, NewHTTPClient.
  destruct (st !! p) as [cfg|] eqn:Ep; [|done].
  destruct (Config_Validate cfg) eqn:Ev; [done|].
  intros [= <-]. exists cfg. split; [done|]. split; [done|].
  split; [done|]. split.
  - intros cfg' email w. unfold Send, IsDebug.
    cbn [Client_httpClient HTTPClient_config HTTPClient_httpClient
         Client_config].
    by rewrite lookup_insert_eq.
  - exists (fresh (dom st)), (fresh (dom (<[fresh (dom st) := cfg]> st))).
    pose proof (fresh_unused st) as Hq.
    pose proof (fresh_unused (<[fresh (dom st) := cfg]> st)) as Hq'.
    assert (fresh (dom st) <> p) as Hne by congruence.
    unfold GetConfig, alloc. cbn [Client_config]. rewrite Ep.
    rewrite lookup_insert_ne, Ep by done.
    split; [done|]. split; [done|]. split; [done|]. split; [|split; [done|]].
    + intros cfg' email w. unfold Send, IsDebug.
      cbn [Client_httpClient HTTPClient_config HTTPClient_httpClient
           Client_config].
      by rewrite lookup_insert_ne.
    + split; intros E; rewrite E in Hq'.
      * by rewrite lookup_insert_eq in Hq'.
      * by rewrite lookup_insert_ne, Ep in Hq'.
Qed.

(** X17: [SetDebug] writes the flag [IsDebug] reads and nothing else:
    the other fields of the client's configuration and every other
    configuration of the store are as before, and what [Send] returns
    and does to the transport does not depend on the flag. *)
Theorem SetDebug_frame (c : Client W) (st : Store) cfg debug :
  st !! Client_config c = Some cfg ->
  HTTPClient_config (Client_httpClient c) = Client_config c ->
  exists st' cfg',
    SetDebug c debug st = Some st' /\
    IsDebug c st' = Some debug /\
    st' !! Client_config c = Some cfg' /\
    APIKey cfg' = APIKey cfg /\ BaseURL cfg' = BaseURL cfg /\
    Timeout cfg' = Timeout cfg /\ ConnectTimeout cfg' = ConnectTimeout cfg /\
    Config_Validate cfg' = Config_Validate cfg /\
    (forall q, q <> Client_config c -> st' !! q = st !! q) /\
    (forall email w, Send c email st' w = Send c email st w) /\
    (forall debug', SetDebug c debug' st' = SetDebug c debug' st).
Proof.
  intros Hp Hshared. unfold SetDebug, IsDebug, Send. rewrite Hshared, Hp.
  eexists _, _. split; [done|].
  rewrite lookup_insert_eq. do 7 (split; [done|]). split; [|split].
  - intros q Hq. by rewrite lookup_insert_ne.
  - intros email w. by rewrite (SendEmail_reads cfg).
  - intros debug'. cbn [APIKey BaseURL Timeout ConnectTimeout].
    by rewrite insert_insert_eq.
Qed.

(** X18: [SendHTML], [SendText] and [SendWithBoth] with blank content
    return the [ValidationError] of [Validate] with the key content,
    whatever the addresses and the subject are, and leave the transport
    untouched. *)
Theorem Send_blank_content (c : Client W) (st : Store) w cfg
    from to subject html text :
  st !! HTTPClient_config (Client_httpClient c) = Some cfg ->
  TrimSpace html = "" -> TrimSpace text = "" ->
  let rejected (r : option (Result * W)) :=
    exists ve,
      r = Some ((None, Some (IsValidationError ve)), w) /\
      Errors ve !! "content"
      = Some ["At least one content type (html or text) is required"] in
  rejected (SendHTML c from to subject html st w) /\
  rejected (SendText c from to subject text st w) /\
  rejected (SendWithBoth c from to subject html text st w).
Proof.
  intros Hp Hh Ht rejected. subst rejected. cbv beta.
  unfold SendHTML, SendText, SendWithBoth, Send. rewrite Hp. cbv zeta.
  assert (forall email,
            TrimSpace (HTML email) = "" -> TrimSpace (Text email) = "" ->
            exists ve,
              Some (SendEmail
                      (mkHTTPClient cfg
                         (HTTPClient_httpClient (Client_httpClient c)))
                      email w)
              = Some ((None, Some (IsValidationError ve)), w) /\
              Errors ve !! "content"
              = Some ["At least one content type (html or text) is required"])
    as Hgen.
  { intros email Eh Et.
    destruct (Validate_reports email "content"
                ["At least one content type (html or text) is required"])
      as (ve & Hv & Hk).
    { unfold reasons_for. by rewrite Eh, Et. }
    exists ve. split; [|done]. f_equal. by apply SendEmail_invalid. }
  repeat split; apply Hgen; done.
Qed.

End ClientProperties.

Lemma NewClient_sends_witness :
  exists c st',
    NewClient (fun _ _ => mockHTTPClient response422) "test_api_key" ∅
    = (Returned c, st') /\
    @Send exampleRuntime unit c exampleEmail st' tt
    = Some (fst (exampleSend exampleEmail response422), tt).
Proof.
  destruct (@NewClient_sends exampleRuntime unit
              (fun _ _ => mockHTTPClient response422) "test_api_key" ∅
              exampleEmail (default "" (example_Marshal exampleEmail)) tt)
    as (c & st' & req & H1 & _ & _ & _ & _ & _ & _ & H2);
    [discriminate|reflexivity|reflexivity|reflexivity|].
  exists c, st'. split; [exact H1|]. rewrite H2. reflexivity.
Defined.

Lemma Client_config_shared_witness :
  exists c q st',
    @NewClientWithConfig unit (fun _ _ => mockHTTPClient response422) 1%positive
      {[1%positive := exampleConfig]} = Returned c /\
    GetConfig c {[1%positive := exampleConfig]} = Some (q, st') /\
    q <> 1%positive.
Proof.
  destruct (@Client_config_shared exampleRuntime unit
              (fun _ _ => mockHTTPClient response422) 1%positive
              {[1%positive := exampleConfig]}
              (mkClient 1%positive
                 (mkHTTPClientRef 1%positive (mockHTTPClient response422))))
    as (cfg & _ & _ & _ & _ & q & q' & H1 & H2 & _); [reflexivity|].
  eexists _, q, _. split; [reflexivity|]. split; [exact H1|exact H2].
Defined.

Lemma SetDebug_frame_witness :
  exists st',
    SetDebug
      (mkClient 1%positive
         (mkHTTPClientRef 1%positive (mockHTTPClient response422)))
      true {[1%positive := exampleConfig]} = Some st' /\
    IsDebug
      (mkClient 1%positive
         (mkHTTPClientRef 1%positive (mockHTTPClient response422)))
      st' = Some true.
Proof.
  destruct (@SetDebug_frame exampleRuntime unit
              (mkClient 1%positive
                 (mkHTTPClientRef 1%positive (mockHTTPClient response422)))
              {[1%positive := exampleConfig]} exampleConfig true)
    as (st' & cfg' & H1 & H2 & _); [reflexivity|reflexivity|].
  exists st'. split; [exact H1|exact H2].
Defined.

Lemma Send_blank_content_witness :
  exists ve,
    @SendHTML exampleRuntime unit
      (mkClient 1%positive
         (mkHTTPClientRef 1%positive (mockHTTPClient response422)))
      "from@example.com" "to@example.com" "Test Subject" "  "
      {[1%positive := exampleConfig]} tt
    = Some ((None, Some (IsValidationError ve)), tt).
Proof.
  destruct (@Send_blank_content exampleRuntime unit
              (mkClient 1%positive
                 (mkHTTPClientRef 1%positive (mockHTTPClient response422)))
              {[1%positive := exampleConfig]} tt exampleConfig
              "from@example.com" "to@example.com" "Test Subject" "  " "")
    as ((ve & H & _) & _); [reflexivity|reflexivity|reflexivity|].
  exists ve. exact H.
Defined.

(** *** The URL of a send *)

Lemma drop_while_split p l :
  exists pre,
    l = pre ++ drop_while p l /\ forallb p pre = true /\
    match drop_while p l with
    | c :: _ => p c = false
    | [] => True
    end.
Proof.
  induction l as [|c l (pre & E & Hp & Hd)]; [by exists []|].
  simpl. destruct (p c) eqn:Ec.
  - exists (c :: pre). simpl. rewrite Ec, Hp. by rewrite <- E.
  - by exists [].
Qed.

Lemma forallb_eqb_repeat c l :
  forallb (Ascii.eqb c) l = true -> l = repeat c (length l).
Proof.
  induction l as [|a l IH]; [done|]. simpl.
  intros [->%Ascii.eqb_eq Hl]%andb_prop. by rewrite <- IH.
Qed.

Lemma of_bytes_app l1 l2 : of_bytes (l1 ++ l2) = of_bytes l1 +:+ of_bytes l2.
Proof. induction l1 as [|c l1 IH]; [done|]. simpl. by rewrite IH. Qed.

Lemma bytes_of_bytes l : bytes_of (of_bytes l) = l.
Proof. apply list_ascii_of_string_of_list_ascii. Qed.

Lemma of_bytes_repeat c n : of_bytes (repeat c n) = Repeat (String c "") n.
Proof. induction n as [|n IH]; [done|]. simpl. by rewrite IH. Qed.

Lemma rev_repeat {A} (x : A) n : rev (repeat x n) = repeat x n.
Proof.
  induction n as [|n IH]; [done|]. simpl. rewrite IH.
  clear IH. induction n as [|n IH]; [done|]. simpl. by rewrite IH.
Qed.

(** [TrimRight] cuts the trailing run of the byte, all of it. *)
Lemma TrimRight_spec s cut :
  exists n,
    s = TrimRight s cut +:+ Repeat (String cut "") n /\
    HasSuffix (TrimRight s cut) (String cut "") = false.
Proof.
  unfold TrimRight, HasSuffix.
  destruct (drop_while_split (Ascii.eqb cut) (rev (bytes_of s)))
    as (pre & E & Hp & Hd).
  exists (length pre). split.
  - rewrite <- of_bytes_repeat, <- of_bytes_app.
    rewrite <- (rev_repeat cut), <- rev_app_distr.
    rewrite <- (forallb_eqb_repeat _ _ Hp), <- E, rev_involutive.
    by rewrite of_bytes_of.
  - rewrite bytes_of_bytes, rev_involutive.
    destruct (drop_while _ _) as [|c l]; [done|]. simpl.
    rewrite Ascii.eqb_sym, Hd. done.
Qed.

Lemma TrimRight_app_cut s cut :
  TrimRight (s +:+ String cut "") cut = TrimRight s cut.
Proof.
  unfold TrimRight. rewrite bytes_of_app, rev_app_distr. simpl.
  by rewrite Ascii.eqb_refl.
Qed.

(** X19: the URL [SendEmail] posts to is the base URL without its
    trailing slashes, all of them, followed by /v1/send-email: the base
    URL is the part kept followed by a run of slashes, the part kept does
    not end with a slash, and a base URL with one more trailing slash
    gives the same URL. *)
Theorem endpoint_trailing_slashes cfg :
  (exists base n,
     BaseURL cfg = base +:+ Repeat "/" n /\
     HasSuffix base "/" = false /\
     endpoint cfg = base +:+ "/v1/send-email") /\
  (forall cfg', BaseURL cfg' = BaseURL cfg +:+ "/" ->
                endpoint cfg' = endpoint cfg).
Proof.
  split.
  - destruct (TrimRight_spec (BaseURL cfg) "/") as (n & E & Hs).
    exists (TrimRight (BaseURL cfg) "/"), n. done.
  - intros cfg' E. unfold endpoint. by rewrite E, TrimRight_app_cut.
Qed.

(** *** The errors of a send are built by the constructors *)

Lemma classify_constructed statusCode header body url r err :
  classify statusCode header body url = (r, Some err) -> constructed err.
Proof.
  unfold classify, parseSuccessResponse, parseValidationError,
    parseAuthenticationError, parseSubscriptionError,
    parseAccountSuspendedError, parseRateLimitError, parseGenericError.
  destruct (EmailResponse.Unmarshal body) as [response ok0].
  destruct (GoJSON.Unmarshal fields_success_message_error body)
    as [a1 ok1].
  destruct (GoJSON.Unmarshal fields_message body) as [a2 ok2].
  destruct (GoJSON.Unmarshal fields_message_error body) as [a3 ok3].
  cbv zeta.
  repeat match goal with
         | |- context [if ?b =? ?c then _ else _] => destruct (b =? c)
         end;
    try (destruct ok0); try (destruct ok1); try (destruct ok2);
    try (destruct ok3); cbn [negb];
    intros [= <- <-] || intros [= <-] || intros [=];
    unfold constructed; eauto 10.
Qed.

Lemma SendEmail_constructed {rt : Runtime} {W : Type}
    (c : HTTPClient W) email w r err w' :
  SendEmail c email w = ((r, Some err), w') -> constructed err.
Proof.
  unfold SendEmail.
  destruct (Validate email) as [verr|] eqn:Ev.
  { apply Validate_Some in Ev as [-> _]. intros [= <- <- <-].
    unfold constructed. eauto. }
  destruct (Marshal email) as [requestBody|];
    [|intros [= <- <- <-]; unfold constructed; eauto].
  destruct (NewRequestAccepts _); cbn [negb];
    [|intros [= <- <- <-]; unfold constructed; eauto].
  destruct (GoHTTP.Do _ _ _) as [[resp|text] w1]; cbn [handle_response].
  - destruct (GoHTTP.Body resp) as [responseBody|];
      [|intros [= <- <- <-]; unfold constructed; eauto].
    intros [= H _]. by apply classify_constructed in H.
  - destruct (Contains text "timeout"); intros [= <- <- <-];
      unfold constructed; eauto.
Qed.

(** X20: every error [SendEmail] returns is built by a constructor of
    errors.go, so its context repeats its fields and its status code is
    the one of its type: 400 with the errors for a [ValidationError], 401
    for an [AuthenticationError], 403 with the reason for an
    [AccountSuspendedError], 402 with the subscription type for a
    [SubscriptionError], 429 with the four numbers for a
    [RateLimitError], the URL for a [NetworkError], the status with the
    URL and the response body for an [HTTPError]. *)
Theorem SendEmail_error_context :
  forall (rt : Runtime) (W : Type) (c : HTTPClient W) email w r err w',
    SendEmail c email w = ((r, Some err), w') ->
    match err with
    | IsValidationError e =>
        StatusCode err = 400 /\
        Context err !! "errors" = Some (CtxErrors (Errors e))
    | IsAuthenticationError e => StatusCode err = 401
    | IsAccountSuspendedError e =>
        StatusCode err = 403 /\
        Context err !! "reason" = Some (CtxString (Reason e))
    | IsSubscriptionError e =>
        StatusCode err = 402 /\
        Context err !! "subscription_type" = Some (CtxString (ErrorType e))
    | IsRateLimitError e =>
        StatusCode err = 429 /\
        Context err !! "retry_after" = Some (CtxInt (RetryAfter e)) /\
        Context err !! "limit" = Some (CtxInt (Limit e)) /\
        Context err !! "remaining" = Some (CtxInt (Remaining e)) /\
        Context err !! "reset" = Some (CtxInt (Reset e))
    | IsNetworkError e =>
        Context err !! "url" = Some (CtxString (NetworkError_URL e))
    | IsHTTPError e =>
        Context err !! "url" = Some (CtxString (HTTPError_URL e)) /\
        Context err !! "response_body" = Some (CtxString (ResponseBody e))
    end.
Proof.
  intros rt W c email w r err w' H%SendEmail_constructed.
  destruct err as [e|e|e|e|e|e|e]; cbn [constructed] in H.
  - destruct H as (? & ? & ->). done.
  - destruct H as (? & ->). done.
  - destruct H as (? & ? & ->). done.
  - destruct H as (? & ? & ->). done.
  - destruct H as (? & ? & ? & ? & ? & ->). done.
  - destruct H as [(? & ? & ->)|(? & ? & ->)]; done.
  - destruct H as (? & ? & ? & ? & ->). done.
Qed.

Lemma SendEmail_error_context_witness :
  exists e,
    snd (fst (exampleSend exampleEmail response422))
    = Some (IsValidationError e) /\
    Context (IsValidationError e) !! "errors" = Some (CtxErrors (Errors e)).
Proof.
  destruct (exampleSend exampleEmail response422) as [[r [err|]] w'] eqn:E;
    [|by vm_compute in E].
  pose proof (SendEmail_error_context exampleRuntime _ _ _ _ _ _ _ E) as H.
  destruct err as [e|e|e|e|e|e|e]; try by vm_compute in E.
  exists e. split; [reflexivity|]. apply H.
Defined.

(** *** Writing a response and reading it back *)

Lemma escape_step go122 b R acc fuel :
  byte_between "000" "127" b = true ->
  GoJSON.string_body (S fuel) (GoJSONEncode.escape go122 b ++ R) acc
  = GoJSON.string_body fuel R (acc ++ [b]).
Proof.
  destruct go122; destruct b as [[] [] [] [] [] [] [] []];
    intros H; try discriminate H; reflexivity.
Qed.

Lemma escape_nonempty go122 b :
  (1 <= length (GoJSONEncode.escape go122 b))%nat.
Proof.
  unfold GoJSONEncode.escape. destruct (GoJSONEncode.htmlSafeSet b); simpl; lia.
Qed.

Lemma nonascii_plain b :
  byte_between "000" "127" b = false ->
  Ascii.eqb b GoJSON.quote = false /\
  Ascii.eqb b GoJSON.backslash = false /\
  byte_between "000" "031" b = false.
Proof.
  destruct b as [[] [] [] [] [] [] [] []]; intros H; try discriminate H;
    repeat split; reflexivity.
Qed.

Lemma string_body_raw b X acc fuel :
  byte_between "000" "127" b = false ->
  GoJSON.string_body (S fuel) (b :: X) acc =
  match GoJSON.rune_width (b :: X) with
  | Some n =>
      GoJSON.string_body fuel (drop n (b :: X)) (acc ++ take n (b :: X))
  | None =>
      GoJSON.string_body fuel X (acc ++ GoJSON.EncodeRune GoJSON.RuneError)
  end.
Proof.
  intros (H1 & H2 & H3)%nonascii_plain. cbn [GoJSON.string_body].
  by rewrite H1, H2, H3.
Qed.

(** The width of a rune is read off its own bytes. *)
Lemma rune_width_prefix b rest n R :
  byte_between "000" "127" b = false ->
  GoJSON.rune_width (b :: rest) = Some n ->
  exists X,
    take n (b :: rest) ++ R = b :: X /\
    GoJSON.rune_width (b :: X) = Some n /\
    drop n (b :: X) = R /\
    take n (b :: X) = take n (b :: rest).
Proof.
  intros Hb. unfold GoJSON.rune_width. rewrite Hb.
  destruct (byte_between "194" "223" b) eqn:E2.
  { destruct rest as [|c1 rest]; [done|].
    destruct (GoJSON.continuation c1) eqn:Ec1; [|done].
    intros [= <-]. exists (c1 :: R). by rewrite Ec1. }
  destruct (byte_between "224" "239" b) eqn:E3.
  { destruct rest as [|c1 [|c2 rest]]; try done. cbv zeta.
    destruct (_ && _) eqn:E; [|done].
    intros [= <-]. exists (c1 :: c2 :: R). by rewrite E. }
  destruct (byte_between "240" "244" b) eqn:E4; [|done].
  destruct rest as [|c1 [|c2 [|c3 rest]]]; try done. cbv zeta.
  destruct (_ && _) eqn:E; [|done].
  intros [= <-]. exists (c1 :: c2 :: c3 :: R). by rewrite E.
Qed.

Lemma has_prefix_app l p :
  has_prefix l p = true -> l = p ++ drop (length p) l.
Proof.
  revert l. induction p as [|b p IH]; intros l; [done|].
  destruct l as [|a l]; [done|]. simpl.
  intros [->%Ascii.eqb_eq H]%andb_prop. by rewrite <- IH.
Qed.

Lemma has_prefix3 b rest a1 a2 a3 :
  has_prefix (b :: rest) [a1; a2; a3] = true ->
  exists r, b = a1 /\ rest = a2 :: a3 :: r.
Proof.
  destruct rest as [|c1 [|c2 r]]; simpl; rewrite ?andb_false_r; try done.
  intros [->%Ascii.eqb_eq [->%Ascii.eqb_eq [->%Ascii.eqb_eq _]%andb_prop]
            %andb_prop]%andb_prop.
  by exists r.
Qed.

(** The decoder reads back what the encoder wrote for a valid string. *)
Lemma string_body_appendString go122 fv :
  forall l fe fuel acc tail,
    GoJSONEncode.valid_runes fv l = true ->
    (length l <= fe)%nat ->
    (length (GoJSONEncode.appendString fe go122 l) < fuel)%nat ->
    GoJSON.string_body fuel
      (GoJSONEncode.appendString fe go122 l ++ GoJSON.quote :: tail) acc
    = Some (acc ++ l, tail).
Proof.
  assert (forall fe fuel acc tail,
            (0 < fuel)%nat ->
            GoJSON.string_body fuel
              (GoJSONEncode.appendString fe go122 [] ++ GoJSON.quote :: tail)
              acc
            = Some (acc ++ [], tail)) as Hnil.
  { intros fe fuel acc tail Hfuel. rewrite app_nil_r.
    destruct fuel; [lia|]. by destruct fe. }
  induction fv as [|fv IH]; intros l fe fuel acc tail Hv Hfe Hfuel.
  { destruct l; [|done]. apply Hnil. lia. }
  destruct l as [|b rest]; [apply Hnil; lia|].
  destruct fe as [|fe]; [simpl in Hfe; lia|].
  cbn [GoJSONEncode.valid_runes] in Hv.
  cbn [GoJSONEncode.appendString] in Hfuel |- *.
  simpl length in Hfe.
  destruct (byte_between "000" "127" b) eqn:Hb.
  - assert (GoJSON.rune_width (b :: rest) = Some 1%nat) as E
        by (unfold GoJSON.rune_width; by rewrite Hb).
    rewrite E in Hv. cbn [drop] in Hv. rewrite ?drop_0 in Hv.
    rewrite length_app in Hfuel. pose proof (escape_nonempty go122 b).
    destruct fuel as [|fuel]; [lia|].
    rewrite <- app_assoc, escape_step by done.
    rewrite (IH rest) by (done || lia).
    by rewrite <- app_assoc.
  - destruct (GoJSON.rune_width (b :: rest)) as [n|] eqn:En; [|done].
    rewrite length_app in Hfuel.
    assert (n <> 0%nat) as Hn.
    { destruct (rune_width_prefix b rest n [] Hb En) as (X & EX & _).
      intros ->. by rewrite take_0 in EX. }
    assert (length (drop n (b :: rest)) <= fe)%nat as Hd.
    { rewrite length_drop. simpl length. lia. }
    assert (1 <= length (take n (b :: rest)))%nat as Ht.
    { destruct n; [done|]. simpl. lia. }
    destruct (has_prefix (b :: rest) GoJSONEncode.lineSeparator) eqn:E1.
    { apply has_prefix3 in E1 as (r & -> & ->).
      injection En as <-. cbn [drop length] in *. rewrite drop_0 in *.
      destruct fuel as [|fuel]; [lia|].
      change (GoJSON.string_body (S fuel) _ acc)
        with (GoJSON.string_body fuel
                (GoJSONEncode.appendString fe go122 r ++ GoJSON.quote :: tail)
                (acc ++ GoJSONEncode.lineSeparator)).
      rewrite (IH r) by (done || lia).
      by rewrite <- app_assoc. }
    destruct (has_prefix (b :: rest) GoJSONEncode.paragraphSeparator) eqn:E2.
    { apply has_prefix3 in E2 as (r & -> & ->).
      injection En as <-. cbn [drop length] in *. rewrite drop_0 in *.
      destruct fuel as [|fuel]; [lia|].
      change (GoJSON.string_body (S fuel) _ acc)
        with (GoJSON.string_body fuel
                (GoJSONEncode.appendString fe go122 r ++ GoJSON.quote :: tail)
                (acc ++ GoJSONEncode.paragraphSeparator)).
      rewrite (IH r) by (done || lia).
      by rewrite <- app_assoc. }
    destruct (rune_width_prefix b rest n
                (GoJSONEncode.appendString fe go122 (drop n (b :: rest)) ++
                 GoJSON.quote :: tail) Hb En)
      as (X & EX & Ew & Edrop & Etake).
    rewrite <- app_assoc, EX.
    destruct fuel as [|fuel]; [lia|].
    rewrite string_body_raw, Ew, Edrop, Etake by done.
    rewrite (IH (drop n (b :: rest))) by (done || lia).
    by rewrite <- app_assoc, take_drop.
Qed.

Lemma length_bytes_of s : length (bytes_of s) = String.length s.
Proof. induction s as [|c s IH]; [done|]. simpl. by rewrite IH. Qed.

Lemma string_value_app go122 s tail :
  GoJSONEncode.string_value go122 s ++ tail
  = GoJSON.quote ::
    GoJSONEncode.appendString (String.length s) go122 (bytes_of s) ++
    GoJSON.quote :: tail.
Proof.
  unfold GoJSONEncode.string_value. simpl. by rewrite <- app_assoc.
Qed.

(** A string value written by the encoder, read as a string literal. *)
Lemma string_body_string_value go122 s tail :
  GoJSONEncode.ValidString s = true ->
  GoJSON.string_body
    (S (length (GoJSONEncode.appendString (String.length s) go122 (bytes_of s)
                ++ GoJSON.quote :: tail)))
    (GoJSONEncode.appendString (String.length s) go122 (bytes_of s) ++
     GoJSON.quote :: tail) []
  = Some (bytes_of s, tail).
Proof.
  intros Hv.
  rewrite (string_body_appendString go122 (String.length s)); try done.
  - by rewrite length_bytes_of.
  - rewrite length_app. lia.
Qed.

Lemma value_string go122 s fuel depth tail :
  GoJSONEncode.ValidString s = true ->
  GoJSON.value (S fuel) depth (GoJSONEncode.string_value go122 s ++ tail)
  = Some (GoJSON.Str s, tail).
Proof.
  intros Hv. rewrite string_value_app.
  cbn [GoJSON.value]. cbn [Ascii.eqb Bool.eqb GoJSON.quote].
  rewrite string_body_string_value by done. by rewrite of_bytes_of.
Qed.

Lemma members_string go122 key v fuel depth c rest acc :
  GoJSONEncode.ValidString key = true -> GoJSONEncode.ValidString v = true ->
  GoJSON.isSpace c = false ->
  GoJSON.members (S (S fuel)) depth
    (GoJSONEncode.string_value go122 key ++
     ":"%char :: GoJSONEncode.string_value go122 v ++ c :: rest) acc
  = if Ascii.eqb c ","
    then GoJSON.members (S fuel) depth (GoJSON.skip_space rest)
           (acc ++ [(key, GoJSON.Str v)])
    else if Ascii.eqb c "}"
    then Some (GoJSON.Object (acc ++ [(key, GoJSON.Str v)]), rest)
    else None.
Proof.
  intros Hk Hv Hc. rewrite string_value_app.
  cbn [GoJSON.members]. cbn [Ascii.eqb Bool.eqb GoJSON.quote].
  rewrite string_body_string_value by done.
  cbn [GoJSON.skip_space GoJSON.isSpace Ascii.eqb Bool.eqb orb].
  rewrite (string_value_app go122 v).
  cbn [GoJSON.skip_space GoJSON.isSpace Ascii.eqb Bool.eqb orb GoJSON.quote].
  rewrite <- (string_value_app go122 v), value_string by done.
  cbn [GoJSON.skip_space]. rewrite Hc. by rewrite of_bytes_of.
Qed.

Lemma members_bool go122 key (b : bool) fuel depth rest acc :
  GoJSONEncode.ValidString key = true ->
  GoJSON.members (S (S fuel)) depth
    (GoJSONEncode.string_value go122 key ++
     ":"%char :: bytes_of (if b then "true" else "false") ++
     ","%char :: rest) acc
  = GoJSON.members (S fuel) depth (GoJSON.skip_space rest)
      (acc ++ [(key, GoJSON.Bool b)]).
Proof.
  intros Hk. rewrite string_value_app.
  cbn [GoJSON.members]. cbn [Ascii.eqb Bool.eqb GoJSON.quote].
  rewrite string_body_string_value by done.
  rewrite of_bytes_of. by destruct b.
Qed.

(** What the decoder's parser makes of an encoded response. *)
Lemma parse_Marshal go122 r :
  GoJSONEncode.ValidString (EmailResponse.Message r) = true ->
  GoJSONEncode.ValidString (EmailResponse.Error r) = true ->
  GoJSON.parse (ToJSON go122 r)
  = Some (GoJSON.Object
            ([("success", GoJSON.Bool (EmailResponse.Success r));
              ("message", GoJSON.Str (EmailResponse.Message r))] ++
             (if String.eqb (EmailResponse.Error r) "" then []
              else [("error", GoJSON.Str (EmailResponse.Error r))]))).
Proof.
  intros Hm He. unfold GoJSON.parse, ToJSON. rewrite bytes_of_bytes.
  assert (5 <= length (Marshal_EmailResponse go122 r))%nat as Hlen.
  { unfold Marshal_EmailResponse. rewrite !length_app.
    unfold GoJSONEncode.string_value. simpl. lia. }
  destruct (length (Marshal_EmailResponse go122 r))
    as [|[|[|[|[|fuel]]]]]; try lia.
  clear Hlen. unfold Marshal_EmailResponse.
  cbn [bytes_of list_ascii_of_string app].
  cbn [GoJSON.skip_space GoJSON.isSpace Ascii.eqb Bool.eqb orb].
  cbn [GoJSON.value]. cbn [Ascii.eqb Bool.eqb].
  change (GoJSON.maxNestingDepth <? 0 + 1) with false. cbv iota.
  rewrite (string_value_app go122 "success").
  cbn [GoJSON.skip_space GoJSON.isSpace Ascii.eqb Bool.eqb orb GoJSON.quote].
  rewrite <- (string_value_app go122 "success").
  rewrite members_bool by done.
  rewrite (string_value_app go122 "message").
  cbn [GoJSON.skip_space GoJSON.isSpace Ascii.eqb Bool.eqb orb GoJSON.quote].
  rewrite <- (string_value_app go122 "message").
  destruct (String.eqb (EmailResponse.Error r) "").
  - cbn [app]. rewrite members_string by done.
    by cbn [Ascii.eqb Bool.eqb GoJSON.skip_space].
  - cbn [app]. rewrite <- !app_assoc. cbn [app].
    rewrite members_string by done.
    cbn [Ascii.eqb Bool.eqb].
    rewrite (string_value_app go122 "error").
    cbn [GoJSON.skip_space GoJSON.isSpace Ascii.eqb Bool.eqb orb GoJSON.quote].
    rewrite <- (string_value_app go122 "error").
    rewrite members_string by done.
    by cbn [Ascii.eqb Bool.eqb GoJSON.skip_space].
Qed.

Lemma ToJSON_FromJSON_parse go122 r :
  GoJSONEncode.ValidString (EmailResponse.Message r) = true ->
  GoJSONEncode.ValidString (EmailResponse.Error r) = true ->
  FromJSON (ToJSON go122 r) = Some r /\
  EmailResponse.Unmarshal (ToJSON go122 r) = (r, true).
Proof.
  intros Hm He.
  assert (EmailResponse.Unmarshal (ToJSON go122 r) = (r, true)) as E.
  { unfold EmailResponse.Unmarshal, GoJSON.Unmarshal.
    rewrite parse_Marshal by done. destruct r as [b m e].
    cbn [EmailResponse.Success EmailResponse.Message EmailResponse.Error].
    destruct (String.eqb_spec e "") as [->|Hne]; reflexivity. }
  split; [|done]. unfold FromJSON. by rewrite E.
Qed.

Lemma valid_runes_ascii fuel l :
  forallb (byte_between "000" "127") l = true -> (length l <= fuel)%nat ->
  GoJSONEncode.valid_runes fuel l = true.
Proof.
  revert l. induction fuel as [|fuel IH]; intros [|b l]; simpl; try done;
    try lia.
  intros [Hb Hl]%andb_prop Hlen. rewrite Hb.
  simpl. rewrite drop_0. apply IH; [done|lia].
Qed.

(** X21: a response written by [ToJSON] is read back by [FromJSON] as it
    was, whenever its message and its error are valid UTF-8 (as every
    string of ASCII bytes is): the encoder's escapes (the quote, the
    backslash, the control bytes, <, > and &, U+2028 and U+2029) are
    undone by the decoder byte for byte, under either form the library
    gives the backspace and the form feed.  The member error is written
    exactly when [HasError] holds. *)
Theorem ToJSON_FromJSON go122 r :
  GoJSONEncode.ValidString (EmailResponse.Message r) = true ->
  GoJSONEncode.ValidString (EmailResponse.Error r) = true ->
  FromJSON (ToJSON go122 r) = Some r /\
  GoJSON.parse (ToJSON go122 r)
  = Some (GoJSON.Object
            ([("success", GoJSON.Bool (IsSuccessful r));
              ("message", GoJSON.Str (EmailResponse.Message r))] ++
             (if HasError r
              then [("error", GoJSON.Str (EmailResponse.Error r))]
              else []))) /\
  (forall s, all_bytes (byte_between "000" "127") s = true ->
             GoJSONEncode.ValidString s = true).
Proof.
  intros Hm He. split; [|split].
  - by apply ToJSON_FromJSON_parse.
  - rewrite parse_Marshal by done. unfold HasError, IsSuccessful.
    by destruct (String.eqb (EmailResponse.Error r) "").
  - intros s Hs. unfold GoJSONEncode.ValidString.
    apply valid_runes_ascii; [|by rewrite length_bytes_of].
    by rewrite forallb_all_bytes.
Qed.

Lemma ToJSON_FromJSON_witness :
  FromJSON (ToJSON false (NewEmailResponseWithError false "café <b>" "no"))
  = Some (NewEmailResponseWithError false "café <b>" "no").
Proof.
  apply (ToJSON_FromJSON false
           (NewEmailResponseWithError false "café <b>" "no"));
    reflexivity.
Defined.

(** An invalid byte does not come back: it is written as the escape of
    U+FFFD and read as that rune. *)
Example ToJSON_FromJSON_invalid :
  FromJSON (ToJSON false (NewEmailResponse true (String "255" "")))
  = Some (NewEmailResponse true
            (String "239" (String "191" (String "189" "")))).
Proof. reflexivity. Qed.

(** X22: a response written by [ToJSON] and served with status 202 is
    what the classifier of [SendEmail] returns, with no error. *)
Theorem classify_ToJSON go122 r header url :
  GoJSONEncode.ValidString (EmailResponse.Message r) = true ->
  GoJSONEncode.ValidString (EmailResponse.Error r) = true ->
  classify 202 header (ToJSON go122 r) url = (Some r, None).
Proof.
  intros Hm He.
  destruct (ToJSON_FromJSON_parse go122 r Hm He) as [_ H].
  unfold classify, parseSuccessResponse. cbn [Z.eqb StatusAccepted Pos.eqb].
  by rewrite H.
Qed.

Lemma classify_ToJSON_witness :
  classify 202 ∅ (ToJSON true (NewEmailResponse true "Email queued"))
    "https://api.usepoodle.com/v1/send-email"
  = (Some (NewEmailResponse true "Email queued"), None).
Proof.
  apply (classify_ToJSON true (NewEmailResponse true "Email queued"));
    reflexivity.
Defined.

(** *** The client tests of the repository *)

(** [TestNewClient], [TestClientDebugMethods] and [TestClientGetConfig],
    over an empty store. *)
Example TestNewClient :
  exists c st q1 st1 q2 st2 st3 st4,
    NewClient (fun _ _ => mockHTTPClient response422) "test_api_key_123" ∅
    = (Returned c, st) /\
    GetConfig c st = Some (q1, st1) /\
    APIKey <$> st1 !! q1 = Some "test_api_key_123" /\
    BaseURL <$> st1 !! q1 = Some DefaultBaseURL /\
    GetConfig c st1 = Some (q2, st2) /\ q1 <> q2 /\
    APIKey <$> st2 !! q2 = APIKey <$> st2 !! q1 /\
    IsDebug c st2 = Some false /\
    SetDebug c true st2 = Some st3 /\ IsDebug c st3 = Some true /\
    SetDebug c false st3 = Some st4 /\ IsDebug c st4 = Some false.
Proof. do 8 eexists. repeat split; try by vm_compute. Qed.

(** [TestNewClientFromEnv]. *)
Example TestNewClientFromEnv :
  let env : gmap string string :=
    <["POODLE_API_KEY" := "env_test_api_key_123"]>
      (<["POODLE_BASE_URL" := "https://test.api.usepoodle.com"]>
         (<["POODLE_DEBUG" := "true"]> ∅)) in
  exists c st q st1 config,
    NewClientFromEnv (fun _ _ => mockHTTPClient response422)
      (fun _ => None) env ∅ = (Returned c, st) /\
    GetConfig c st = Some (q, st1) /\ st1 !! q = Some config /\
    APIKey config = "env_test_api_key_123" /\
    BaseURL config = "https://test.api.usepoodle.com" /\
    Debug config = true.
Proof. do 5 eexists. repeat split; try by vm_compute. Qed.

(** [TestNewClientWithConfig] and [TestNewClientWithInvalidConfig]. *)
Example TestNewClientWithConfig :
  let config :=
    mkConfig "custom_api_key" "https://custom.api.com" (45 * Second)
      (15 * Second) true in
  let invalid := mkConfig "" "https://api.usepoodle.com" 0 0 false in
  (exists c q st1,
     NewClientWithConfig (fun _ _ => mockHTTPClient response422) 1%positive
       {[1%positive := config]} = Returned c /\
     GetConfig c {[1%positive := config]} = Some (q, st1) /\
     st1 !! q = Some config) /\
  exists err,
    @NewClientWithConfig unit (fun _ _ => mockHTTPClient response422)
      1%positive {[1%positive := invalid]} = Panic (Some err).
Proof.
  split; [do 3 eexists; repeat split; by vm_compute|].
  eexists. by vm_compute.
Qed.

(** *** What a send puts on the wire *)

Lemma skip_space_string_value go122 s tail :
  GoJSON.skip_space (GoJSONEncode.string_value go122 s ++ tail)
  = GoJSONEncode.string_value go122 s ++ tail.
Proof. by rewrite string_value_app. Qed.

Lemma string_members_cons go122 k v ms tail :
  string_members go122 ((k, v) :: ms) ++ tail
  = GoJSONEncode.string_value go122 k ++
    ":"%char :: GoJSONEncode.string_value go122 v ++
    match ms with
    | [] => tail
    | _ :: _ => ","%char :: string_members go122 ms ++ tail
    end.
Proof.
  cbn [string_members]. rewrite <- app_assoc. cbn [app].
  rewrite <- app_assoc. by destruct ms.
Qed.

(** The members written by the encoder, read by the decoder. *)
Lemma members_string_members go122 ms :
  forall fuel depth rest acc,
    ms <> [] ->
    Forall (fun m => GoJSONEncode.ValidString m.1 = true /\
                     GoJSONEncode.ValidString m.2 = true) ms ->
    (length ms < fuel)%nat ->
    GoJSON.members fuel depth (string_members go122 ms ++ "}"%char :: rest) acc
    = Some (GoJSON.Object (acc ++ map (fun m => (m.1, GoJSON.Str m.2)) ms),
            rest).
Proof.
  induction ms as [|[k v] ms IH]; [done|].
  intros fuel depth rest acc _ Hv Hf.
  apply Forall_cons in Hv as [[Hk Hval] Hv]. cbn [fst snd] in Hk, Hval.
  destruct fuel as [|[|fuel]]; try (simpl in Hf; lia).
  rewrite string_members_cons. destruct ms as [|m ms].
  - by rewrite members_string.
  - rewrite members_string by done. cbn [Ascii.eqb Bool.eqb].
    destruct m as [k' v']. rewrite string_members_cons.
    rewrite skip_space_string_value, <- string_members_cons.
    rewrite IH; [|done|done|simpl in Hf |- *; lia].
    by rewrite <- app_assoc.
Qed.

Lemma Marshal_Email_members go122 e :
  Marshal_Email go122 e
  = "{"%char :: string_members go122 (Email_members e) ++ ["}"%char].
Proof.
  unfold Marshal_Email, Email_members.
  destruct (String.eqb (HTML e) ""), (String.eqb (Text e) "");
    cbn [bytes_of list_ascii_of_string app string_members];
    repeat first [rewrite <- app_assoc | progress cbn [app]]; done.
Qed.

Lemma parse_Marshal_Email go122 e :
  Forall (fun s => GoJSONEncode.ValidString s = true)
    [From e; To e; Subject e; HTML e; Text e] ->
  GoJSON.parse (of_bytes (Marshal_Email go122 e))
  = Some (GoJSON.Object
            (map (fun m => (m.1, GoJSON.Str m.2)) (Email_members e))).
Proof.
  intros Hv. unfold GoJSON.parse. rewrite bytes_of_bytes.
  assert (6 <= length (Marshal_Email go122 e))%nat as Hlen.
  { unfold Marshal_Email. rewrite !length_app.
    unfold GoJSONEncode.string_value. simpl. lia. }
  destruct (length (Marshal_Email go122 e))
    as [|[|[|[|[|[|fuel]]]]]]; try lia.
  clear Hlen. rewrite Marshal_Email_members.
  assert (exists v ms, Email_members e = ("from", v) :: ms) as (v & ms & E)
      by (unfold Email_members; eauto).
  cbn [GoJSON.skip_space GoJSON.isSpace Ascii.eqb Bool.eqb orb].
  cbn [GoJSON.value]. cbn [Ascii.eqb Bool.eqb].
  change (GoJSON.maxNestingDepth <? 0 + 1) with false. cbv iota.
  rewrite E at 1. rewrite string_members_cons, skip_space_string_value.
  rewrite string_value_app. cbn [Ascii.eqb Bool.eqb GoJSON.quote].
  rewrite <- string_value_app, <- string_members_cons, <- E.
  rewrite members_string_members.
  - reflexivity.
  - by rewrite E.
  - repeat (apply Forall_cons in Hv as [? Hv]). unfold Email_members.
    destruct (String.eqb (HTML e) ""), (String.eqb (Text e) "");
      repeat (apply Forall_cons; split; [done|]); by apply Forall_nil.
  - unfold Email_members.
    destruct (String.eqb (HTML e) ""), (String.eqb (Text e) ""); simpl; lia.
Qed.

(** X23: with [json.Marshal] as the library has it, the one request of a
    send carries a body that reads as a JSON object with the members
    from, to and subject, then html and text when they are not empty, in
    that order and with the fields of the message as they are (not
    trimmed), whenever the fields are valid UTF-8.  The members html and
    text are left out by their length, not by [HasHTML] and [HasText]: a
    blank html that is not empty is sent. *)
Theorem SendEmail_request_body go122 accepts seconds (W : Type)
    (d : GoHTTP.HTTPDoer W) cfg email w log :
  Validate email = None -> accepts (endpoint cfg) = true ->
  Forall (fun s => GoJSONEncode.ValidString s = true)
    [From email; To email; Subject email; HTML email; Text email] ->
  exists req,
    snd (@SendEmail (goRuntime go122 accepts seconds) _
           (mkHTTPClient cfg (traced d)) email (w, log))
    = (snd (GoHTTP.Do d req w), log ++ [req]) /\
    GoHTTP.URL req = endpoint cfg /\
    GoJSON.parse (GoHTTP.RequestBody req)
    = Some (GoJSON.Object
              ([("from", GoJSON.Str (From email));
                ("to", GoJSON.Str (To email));
                ("subject", GoJSON.Str (Subject email))] ++
               (if String.eqb (HTML email) "" then []
                else [("html", GoJSON.Str (HTML email))]) ++
               (if String.eqb (Text email) "" then []
                else [("text", GoJSON.Str (Text email))]))).
Proof.
  intros Hval Hacc Hv.
  exists (build_request cfg (of_bytes (Marshal_Email go122 email))).
  split; [|split; [done|]].
  - rewrite (@SendEmail_valid (goRuntime go122 accepts seconds) _ _ _ _
               (of_bytes (Marshal_Email go122 email))) by done.
    cbn [snd httpClient config traced GoHTTP.Do].
    by destruct (GoHTTP.Do d _ w).
  - cbn [build_request GoHTTP.RequestBody].
    rewrite parse_Marshal_Email by done. unfold Email_members.
    by destruct (String.eqb (HTML email) ""), (String.eqb (Text email) "").
Qed.

Lemma SendEmail_request_body_witness :
  exists req,
    snd (@SendEmail (goRuntime false (all_bytes printable) (fun d => d))
           _ (mkHTTPClient exampleConfig (traced (mockHTTPClient response422)))
           (mkEmail "from@example.com" "to@example.com" "Hi" " " "text")
           (tt, []))
    = (tt, [req]) /\
    GoJSON.parse (GoHTTP.RequestBody req)
    = Some (GoJSON.Object
              [("from", GoJSON.Str "from@example.com");
               ("to", GoJSON.Str "to@example.com");
               ("subject", GoJSON.Str "Hi");
               ("html", GoJSON.Str " ");
               ("text", GoJSON.Str "text")]).
Proof.
  destruct (SendEmail_request_body false (all_bytes printable) (fun d => d)
              unit (mockHTTPClient response422) exampleConfig
              (mkEmail "from@example.com" "to@example.com" "Hi" " " "text")
              tt [])
    as (req & H1 & _ & H2);
    [reflexivity|reflexivity|repeat constructor|].
  exists req. split; [exact H1|exact H2].
Defined.
